(** * Athena file loader: a shallow embedding of the ingestion pipeline

    The development follows the Python sources:
    - [app/core/csv_file_handler.py]  (module [CSVHandler])
    - [app/core/csv_db_handler.py]    ([load_csv_to_table])
    - [app/core/db_handler.py]        (module [DatabaseHandler])
    - [app/core/data_validator.py]    (module [DataValidator])
    - [app/core/file_handler.py]      ([move_file], [read_file])
    - [app/core/processor.py]         (module [FileProcessor])
    - [app/models/control.py]         (record [ControlTable])
    - [main.py]                       (module [Main])

    Python exceptions are values of [PyError]; a call that may raise
    returns a [Res].  Code that mutates the control record, the storage
    or the database threads a [Session] (the record, its committed row
    and the [World]) through a small state-and-error monad [M].  What the
    sources only consume (configuration, file readers, the schema
    inspector, the store's verdict on a statement, [int], [float],
    [strptime], pandas renderings, the regular-expression match) is a
    field of [Env].  Strings are byte strings: [lower] and [strip] are
    those of Python on ASCII text. *)

From Stdlib Require Import String Ascii List Arith ZArith Lia Bool Sorted.
Import ListNotations.
Local Open Scope string_scope.
Local Open Scope list_scope.
Local Open Scope nat_scope.

(** ** Python built-ins used by the sources *)

Module Py.

(** [str.lower] on the ASCII range. *)
Definition lower_ascii (c : ascii) : ascii :=
  let n := nat_of_ascii c in
  if (65 <=? n) && (n <=? 90) then ascii_of_nat (n + 32) else c.

Fixpoint lower (s : string) : string :=
  match s with
  | EmptyString => EmptyString
  | String c s' => String (lower_ascii c) (lower s')
  end.

(** Whitespace as [str.strip] sees it (ASCII range). *)
Definition is_space (c : ascii) : bool :=
  let n := nat_of_ascii c in
  ((9 <=? n) && (n <=? 13)) || ((28 <=? n) && (n <=? 32)).

Fixpoint lstrip (s : string) : string :=
  match s with
  | EmptyString => EmptyString
  | String c s' => if is_space c then lstrip s' else s
  end.

(** [rstrip]: a character is dropped when it is a space and everything
    after it has been dropped. *)
Fixpoint rstrip (s : string) : string :=
  match s with
  | EmptyString => EmptyString
  | String c s' =>
      match rstrip s' with
      | EmptyString => if is_space c then EmptyString else String c EmptyString
      | r => String c r
      end
  end.

Definition strip (s : string) : string := rstrip (lstrip s).

Definition startswith (s p : string) : bool := String.prefix p s.

(** [x in (a, b, ...)] on strings. *)
Definition str_in (x : string) (l : list string) : bool :=
  existsb (String.eqb x) l.

(** [range(0, n, step)] for [step > 0]: 0, step, 2*step, ... below [n]. *)
Definition range_step (n step : nat) : list nat :=
  map (fun j => j * step) (seq 0 ((n + step - 1) / step)).

(** [l[i:j]] for [0 <= i <= j]. *)
Definition slice {A} (l : list A) (i j : nat) : list A :=
  firstn (j - i) (skipn i l).

(** [l[:j]] for any integer [j]: a negative [j] counts from the end. *)
Definition slice_upto {A} (l : list A) (j : Z) : list A :=
  if (0 <=? j)%Z then firstn (Z.to_nat j) l
  else firstn (length l - Z.to_nat (- j)) l.

(** [max] of a sequence of naturals; [None] stands for the [ValueError]
    Python raises on an empty sequence. *)
Definition max_of (l : list nat) : option nat :=
  match l with
  | [] => None
  | x :: l' => Some (fold_left Nat.max l' x)
  end.

(** [s.split(c)] for a one-character separator. *)
Fixpoint split (c : ascii) (s : string) : list string :=
  match s with
  | EmptyString => [EmptyString]
  | String a s' =>
      if Ascii.eqb a c then EmptyString :: split c s'
      else match split c s' with
           | [] => [String a EmptyString]
           | w :: ws => String a w :: ws
           end
  end.

(** [os.path.join(a, b)]. *)
Definition ends_with_slash (s : string) : bool :=
  match rev (list_ascii_of_string s) with
  | c :: _ => Ascii.eqb c "/"%char
  | [] => false
  end.

Definition path_join (a b : string) : string :=
  if startswith b "/" then b
  else if (String.eqb a "") || ends_with_slash a then (a ++ b)%string
  else (a ++ "/" ++ b)%string.

(** [os.path.basename(p)]: what follows the last slash. *)
Definition basename (p : string) : string := last (split "/"%char p) "".

(** [os.path.splitext(p)[1][1:]]: what follows the last dot of the base
    name; a name with no dot, or with nothing but dots before the last
    one, has no extension. *)
Definition extension (p : string) : string :=
  match rev (split "."%char (basename p)) with
  | ext :: before =>
      if forallb (String.eqb "") before then "" else ext
  | [] => ""
  end.

End Py.

(** ** Values, dictionaries, errors *)

(** Python scalars found in rows.  A float, a date and a datetime are
    carried by the literal they were parsed from; [VNaN] is the missing
    value of a pandas frame. *)
Inductive Value : Type :=
| VNone
| VNaN
| VStr (s : string)
| VInt (z : Z)
| VBool (b : bool)
| VFloat (lit : string)
| VDate (lit : string)
| VDateTime (lit : string).

Definition isnull (v : Value) : bool :=
  match v with
  | VNone | VNaN => true
  | _ => false
  end.

(** A Python [dict] with string keys: an association list in insertion
    order; [dict_set] overwrites in place, as Python does. *)
Definition dict (V : Type) : Type := list (string * V).

Fixpoint dict_get {V} (d : dict V) (k : string) : option V :=
  match d with
  | [] => None
  | (k', v) :: d' => if String.eqb k k' then Some v else dict_get d' k
  end.

Fixpoint dict_set {V} (d : dict V) (k : string) (v : V) : dict V :=
  match d with
  | [] => [(k, v)]
  | (k', v') :: d' =>
      if String.eqb k k' then (k', v) :: d' else (k', v') :: dict_set d' k v
  end.

Definition dict_has {V} (d : dict V) (k : string) : bool :=
  match dict_get d k with Some _ => true | None => false end.

Definition dict_keys {V} (d : dict V) : list string := map fst d.

(** One row as the loaders see it: column name to value. *)
Definition Row : Type := dict Value.

(** Violations collected by the validation gate. *)
Inductive Violation : Type :=
| EmptyRows (indices : list nat)
| NonNumeric (col : string) (indices : list nat)
| InvalidDate (col : string)
| TooLong (max_length : Z) (col : string) (indices : list nat).

(** The exceptions of the sources, one constructor per [raise] site (the
    message text is replaced by the data it is formatted from). *)
Inductive PyError : Type :=
| NoCsvConfiguration (table : string)
| NoColumnMappings (table : string)
| DataTypeConversionError (value data_type : string)
| RequiredFieldEmpty (db_column : string) (row_num : nat)
| FieldConversionError (db_column : string) (row_num : nat) (cause : PyError)
| ColumnCountMismatch (have need : nat)
| MaxOfEmptySequence
| StopIteration
| KeyError (key : string)
| FileNotFound (path : string)
| UnsupportedFileType (file_type : string)
| ReadError (path : string)
| NoSuchTable (table : string)
| MissingRequiredColumn (col : string) (record_index : nat)
| StatementRejected (table : string)
| BadVarcharBound (col_type : string)
| RangeStepZero
| DataValidationFailed (errors : list Violation)
| BatchError (batch_no : nat) (cause : PyError).

Inductive Res (A : Type) : Type :=
| Ok (a : A)
| Raise (e : PyError).
Arguments Ok {A} a.
Arguments Raise {A} e.

Definition is_ok {A} (r : Res A) : bool :=
  match r with Ok _ => true | Raise _ => false end.

(** ** Configuration and collaborators *)

(** One entry of [column_mappings] in the CSV configuration. *)
Record ColumnMapping : Type := {
  column_index : nat;
  db_column : string;
  data_type : string;
  required : bool       (* mapping.get('required', False) *)
}.

Record FileConfig : Type := {
  has_header : bool     (* file_config.get('has_header', False) *)
}.

(** One entry of [csv_mappings]: a dictionary that is not empty (an empty
    one is no configuration for [_get_table_config], and is modelled as a
    missing entry); [file_config] is [None] when the key is absent. *)
Record TableConfig : Type := {
  file_config : option FileConfig;
  column_mappings : list ColumnMapping   (* table_config.get('column_mappings', []) *)
}.

(** One column as the database inspector reports it. *)
Record InspectorColumn : Type := {
  col_name : string;
  col_type : string;            (* str(col['type']) *)
  col_nullable : bool;          (* col.get('nullable', True) *)
  col_default : option string   (* col.get('default') *)
}.

(** The entry [get_table_columns] builds for one column. *)
Record ColumnInfo : Type := {
  type : string;
  nullable : bool;
  default : option string
}.

Record StorageConfig : Type := {
  input_folder : string;
  archive_folder : string;
  error_folder : string
}.

Record DataFrame : Type := {
  columns : list string;
  rows : list (list Value)   (* one cell per column *)
}.

(** [pattern_config]: the keys [process_file] reads. *)
Record PatternConfig : Type := {
  table : string;
  read_options : dict (dict string)
}.

(** What the program is given: configuration, and the library and
    collaborator calls whose results the sources only consume. *)
Record Env : Type := {
  storage_config : StorageConfig;
  csv_mappings : dict TableConfig;
  (* datetime.now().strftime('%Y%m%d') *)
  today : string;
  (* open(path) + csv.reader: the raw rows, or the error open raises *)
  csv_reader : string -> Res (list (list string));
  (* file_handler.read_file(path, file_type, options) on an existing file *)
  read_frame : string -> string -> dict string -> Res DataFrame;
  (* inspector.get_columns(table); None: the table does not exist *)
  inspector_columns : string -> option (list InspectorColumn);
  (* session.execute(insert(table).values(batch)): does the store accept
     the batch, given the rows already visible to the transaction *)
  db_accepts : list (string * Row) -> string -> list Row -> bool;
  (* int(s), float(s), datetime.strptime(s, fmt): None when they raise *)
  py_int : string -> option Z;
  py_float_ok : string -> bool;
  strptime_ok : string -> string -> bool;
  (* pandas: Series.astype(str) on one cell, pd.to_datetime on a column *)
  astype_str : Value -> string;
  to_datetime_ok : list Value -> bool;
  (* pandas: Series.str.match(pattern) on one cell, that is
     re.match(pattern, cell) *)
  str_match : string -> string -> bool
}.

(** ** csv_file_handler.py *)

Module CSVHandler.

(** [_get_table_config]: a missing or empty configuration raises. *)
Definition _get_table_config (env : Env) (table_name : string)
  : Res TableConfig :=
  match dict_get (csv_mappings env) table_name with
  | Some table_config => Ok table_config
  | None => Raise (NoCsvConfiguration table_name)
  end.

(** [_convert_data_type(value, data_type)]. *)
Definition _convert_data_type (env : Env) (value data_type : string)
  : Res Value :=
  if String.eqb value "" then Ok VNone
  else
    let t := Py.lower data_type in
    let failed := Raise (DataTypeConversionError value data_type) in
    if String.eqb t "string" then Ok (VStr (Py.strip value))
    else if String.eqb t "integer" then
      match py_int env value with
      | Some z => Ok (VInt z)
      | None => failed
      end
    else if String.eqb t "float" then
      if py_float_ok env value then Ok (VFloat value) else failed
    else if String.eqb t "date" then
      if strptime_ok env value "%Y-%m-%d" then Ok (VDate value) else failed
    else if String.eqb t "datetime" then
      if strptime_ok env value "%Y-%m-%d %H:%M:%S"
      then Ok (VDateTime value) else failed
    else if String.eqb t "boolean" then
      Ok (VBool (Py.str_in (Py.lower value) ["true"; "1"; "yes"; "y"]))
    else Ok (VStr (Py.strip value)).

(** [index_to_column]: a dict comprehension, so the last mapping of an
    index wins. *)
Fixpoint index_to_column (mappings : list ColumnMapping) (col_idx : nat)
  : option ColumnMapping :=
  match mappings with
  | [] => None
  | m :: ms =>
      match index_to_column ms col_idx with
      | Some m' => Some m'
      | None => if Nat.eqb (column_index m) col_idx then Some m else None
      end
  end.

(** The body of [for col_idx, value in enumerate(row)], from [col_idx]
    on, filling [record]. *)
Fixpoint process_fields (env : Env) (mappings : list ColumnMapping)
         (row_num col_idx : nat) (fields : list string) (record : Row)
  : Res Row :=
  match fields with
  | [] => Ok record
  | value :: rest =>
      match index_to_column mappings col_idx with
      | Some mapping =>
          if required mapping && String.eqb (Py.strip value) "" then
            Raise (RequiredFieldEmpty (db_column mapping) row_num)
          else
            match _convert_data_type env value (data_type mapping) with
            | Ok converted_value =>
                process_fields env mappings row_num (S col_idx) rest
                  (dict_set record (db_column mapping) converted_value)
            | Raise e =>
                Raise (FieldConversionError (db_column mapping) row_num e)
            end
      | None =>
          process_fields env mappings row_num (S col_idx) rest record
      end
  end.

(** One iteration of [for row_num, row in enumerate(csv_reader, 1)]. *)
Definition process_row (env : Env) (mappings : list ColumnMapping)
           (row_num : nat) (row : list string) : Res Row :=
  process_fields env mappings row_num 0 row [].

Fixpoint process_rows (env : Env) (mappings : list ColumnMapping)
         (row_num : nat) (csv_rows : list (list string))
  : Res (list Row) :=
  match csv_rows with
  | [] => Ok []
  | row :: rest =>
      match process_row env mappings row_num row with
      | Raise e => Raise e
      | Ok record =>
          match process_rows env mappings (S row_num) rest with
          | Raise e => Raise e
          | Ok processed_data => Ok (record :: processed_data)
          end
      end
  end.

(** [table_config.get('file_config', {}).get('has_header', False)]. *)
Definition skips_header (table_config : TableConfig) : bool :=
  match file_config table_config with
  | Some fc => has_header fc
  | None => false
  end.

(** [process_csv_file(file_path, table_name)]. *)
Definition process_csv_file (env : Env) (file_path table_name : string)
  : Res (list Row) :=
  match _get_table_config env table_name with
  | Raise e => Raise e
  | Ok table_config =>
      match column_mappings table_config with
      | [] => Raise (NoColumnMappings table_name)
      | mappings =>
          match csv_reader env file_path with
          | Raise e => Raise e
          | Ok csv_rows =>
              if skips_header table_config then
                match csv_rows with
                | [] => Raise StopIteration
                | _ :: body => process_rows env mappings 1 body
                end
              else process_rows env mappings 1 csv_rows
          end
      end
  end.

(** [validate_csv_structure(file_path, table_name)].  The file is opened
    with [table_config['file_config'].get('encoding', ..)]: the index
    raises [KeyError] when the configuration has no [file_config], before
    the file is read. *)
Definition validate_csv_structure (env : Env) (file_path table_name : string)
  : Res bool :=
  match _get_table_config env table_name with
  | Raise e => Raise e
  | Ok table_config =>
      match Py.max_of (map column_index (column_mappings table_config)) with
      | None => Raise MaxOfEmptySequence
      | Some max_col_index =>
          match file_config table_config with
          | None => Raise (KeyError "file_config")
          | Some _ =>
              match csv_reader env file_path with
              | Raise e => Raise e
              | Ok [] => Raise StopIteration
              | Ok (first_row :: _) =>
                  if length first_row <=? max_col_index then
                    Raise (ColumnCountMismatch (length first_row)
                                               (max_col_index + 1))
                  else Ok true
              end
          end
      end
  end.

(** [get_sample_data(file_path, table_name, sample_size)]: the whole
    file is processed, then cut by [processed_data[:sample_size]]. *)
Definition get_sample_data (env : Env) (file_path table_name : string)
           (sample_size : Z) : Res (list Row) :=
  match process_csv_file env file_path table_name with
  | Raise e => Raise e
  | Ok processed_data => Ok (Py.slice_upto processed_data sample_size)
  end.

End CSVHandler.

(** ** The control record and the state the pipeline works on *)

(** [ControlTable] (models/control.py): the columns the program assigns.
    [error_message] holds the exception whose text [str(e)] the source
    stores.  The primary key and [created_date], which are written once,
    when the row is inserted, are left out.  [modified_date], which the
    ORM rewrites with every UPDATE of the row ([onupdate]), is kept
    beside the record, in [Session] and in [World]. *)
Record ControlTable : Type := {
  process_id : string;
  file_name : string;
  file_path : string;
  target_table : string;
  status : string;
  total_rows : option nat;
  loaded_rows : option nat;
  error_message : option PyError;
  current_batch : option nat;
  file_location : option string;
  created_by : option string;
  modified_by : option string
}.

Definition set_status (v : string) (r : ControlTable) : ControlTable :=
  {| process_id := process_id r; file_name := file_name r;
     file_path := file_path r; target_table := target_table r;
     status := v; total_rows := total_rows r; loaded_rows := loaded_rows r;
     error_message := error_message r; current_batch := current_batch r;
     file_location := file_location r; created_by := created_by r;
     modified_by := modified_by r |}.

Definition set_total_rows (v : option nat) (r : ControlTable) : ControlTable :=
  {| process_id := process_id r; file_name := file_name r;
     file_path := file_path r; target_table := target_table r;
     status := status r; total_rows := v; loaded_rows := loaded_rows r;
     error_message := error_message r; current_batch := current_batch r;
     file_location := file_location r; created_by := created_by r;
     modified_by := modified_by r |}.

Definition set_loaded_rows (v : option nat) (r : ControlTable) : ControlTable :=
  {| process_id := process_id r; file_name := file_name r;
     file_path := file_path r; target_table := target_table r;
     status := status r; total_rows := total_rows r; loaded_rows := v;
     error_message := error_message r; current_batch := current_batch r;
     file_location := file_location r; created_by := created_by r;
     modified_by := modified_by r |}.

Definition set_error_message (v : option PyError) (r : ControlTable)
  : ControlTable :=
  {| process_id := process_id r; file_name := file_name r;
     file_path := file_path r; target_table := target_table r;
     status := status r; total_rows := total_rows r;
     loaded_rows := loaded_rows r; error_message := v;
     current_batch := current_batch r; file_location := file_location r;
     created_by := created_by r; modified_by := modified_by r |}.

Definition set_current_batch (v : option nat) (r : ControlTable)
  : ControlTable :=
  {| process_id := process_id r; file_name := file_name r;
     file_path := file_path r; target_table := target_table r;
     status := status r; total_rows := total_rows r;
     loaded_rows := loaded_rows r; error_message := error_message r;
     current_batch := v; file_location := file_location r;
     created_by := created_by r; modified_by := modified_by r |}.

Definition set_file_location (v : option string) (r : ControlTable)
  : ControlTable :=
  {| process_id := process_id r; file_name := file_name r;
     file_path := file_path r; target_table := target_table r;
     status := status r; total_rows := total_rows r;
     loaded_rows := loaded_rows r; error_message := error_message r;
     current_batch := current_batch r; file_location := v;
     created_by := created_by r; modified_by := modified_by r |}.

(** What the program does to the outside, in the order it does it. *)
Inductive Event : Type :=
| ECommit (r : ControlTable)        (* session.commit(), the record being r *)
| EValidate (table : string) (df : DataFrame)          (* validate_data(df, table) *)
| EExecute (table : string) (batch : list Row) (ok : bool) (* session.execute *)
| EMove (src dst : string) (ok : bool).                (* move_file *)

(** The storage, the two kinds of tables and the trace of effects
    (oldest first).  [modified_dates] holds the column [modified_date] of
    the control table, row by row, as a logical time: the number of
    UPDATEs the row has received, 0 for the NULL of a row that was only
    inserted. *)
Record World : Type := {
  files : list string;                 (* the paths that exist *)
  control_table : list ControlTable;   (* rows of file_processing_control *)
  modified_dates : list nat;           (* their modified_date *)
  target : list (string * Row);        (* rows of the data tables *)
  trace : list Event
}.

(** One control record as a database session sees it: the Python object,
    the row last written for it and its [modified_date], whether the
    session that is open holds the object ([session.add], or a query
    that loaded it), and whether an attribute was assigned since the
    last flush. *)
Record Session : Type := {
  control_record : ControlTable;
  persisted : option ControlTable;
  modified_date : nat;
  attached : bool;
  pending : bool;
  world : World
}.

Definition M (A : Type) : Type := Session -> Res A * Session.

Definition ret {A} (a : A) : M A := fun s => (Ok a, s).
Definition raise {A} (e : PyError) : M A := fun s => (Raise e, s).
Definition bind {A B} (m : M A) (k : A -> M B) : M B :=
  fun s => match m s with
           | (Ok a, s') => k a s'
           | (Raise e, s') => (Raise e, s')
           end.
(** [try: m except Exception as e: h e]. *)
Definition try_except {A} (m : M A) (h : PyError -> M A) : M A :=
  fun s => match m s with
           | (Ok a, s') => (Ok a, s')
           | (Raise e, s') => h e s'
           end.

Notation "x <- c1 ;; c2" := (bind c1 (fun x => c2))
  (at level 61, c1 at next level, right associativity).
Notation "c1 ;; c2" := (bind c1 (fun _ => c2))
  (at level 61, right associativity).

Definition lift {A} (r : Res A) : M A := fun s => (r, s).

Definition with_world (f : World -> World) (s : Session) : Session :=
  {| control_record := control_record s; persisted := persisted s;
     modified_date := modified_date s; attached := attached s;
     pending := pending s; world := f (world s) |}.

Definition log_event (e : Event) (w : World) : World :=
  {| files := files w; control_table := control_table w;
     modified_dates := modified_dates w;
     target := target w; trace := trace w ++ [e] |}.

Definition set_files (fs : list string) (w : World) : World :=
  {| files := fs; control_table := control_table w;
     modified_dates := modified_dates w;
     target := target w; trace := trace w |}.

Definition set_target (t : list (string * Row)) (w : World) : World :=
  {| files := files w; control_table := control_table w;
     modified_dates := modified_dates w;
     target := t; trace := trace w |}.

Definition set_control_table (t : list ControlTable) (w : World) : World :=
  {| files := files w; control_table := t;
     modified_dates := modified_dates w;
     target := target w; trace := trace w |}.

Definition set_modified_dates (d : list nat) (w : World) : World :=
  {| files := files w; control_table := control_table w;
     modified_dates := d;
     target := target w; trace := trace w |}.

Definition log (e : Event) : M unit :=
  fun s => (Ok tt, with_world (log_event e) s).

(** An assignment to an attribute of the control record that changes its
    value, or that follows a commit (which expires the attributes): the
    next flush of a session that holds the record writes it. *)
Definition assign (f : ControlTable -> ControlTable) : M unit :=
  fun s => (Ok tt, {| control_record := f (control_record s);
                      persisted := persisted s;
                      modified_date := modified_date s;
                      attached := attached s; pending := true;
                      world := world s |}).

(** [session.add(control_record)]. *)
Definition add : M unit :=
  fun s => (Ok tt, {| control_record := control_record s;
                      persisted := persisted s;
                      modified_date := modified_date s;
                      attached := true; pending := pending s;
                      world := world s |}).

(** [session.commit()].  A session that holds the record inserts its row
    when there is none, and updates it when an assignment is pending;
    the UPDATE rewrites [modified_date].  A session that does not hold
    the record writes nothing of it. *)
Definition commit : M unit :=
  fun s =>
    let w := log_event (ECommit (control_record s)) (world s) in
    (Ok tt,
     if attached s then
       match persisted s with
       | None =>
           {| control_record := control_record s;
              persisted := Some (control_record s);
              modified_date := modified_date s;
              attached := true; pending := false; world := w |}
       | Some row =>
           if pending s then
             {| control_record := control_record s;
                persisted := Some (control_record s);
                modified_date := S (modified_date s);
                attached := true; pending := false; world := w |}
           else
             {| control_record := control_record s;
                persisted := Some row;
                modified_date := modified_date s;
                attached := true; pending := false; world := w |}
       end
     else
       {| control_record := control_record s; persisted := persisted s;
          modified_date := modified_date s; attached := false;
          pending := pending s; world := w |}).

(** A call that works on the world alone. *)
Definition on_world {A} (f : World -> Res A * World) : M A :=
  fun s => let '(r, w) := f (world s) in
           (r, {| control_record := control_record s;
                  persisted := persisted s;
                  modified_date := modified_date s;
                  attached := attached s; pending := pending s;
                  world := w |}).

(** ** file_handler.py *)

Definition file_exists (w : World) (path : string) : bool :=
  existsb (String.eqb path) (files w).

Definition remove_path (path : string) (l : list string) : list string :=
  filter (fun p => negb (String.eqb path p)) l.

(** [move_file(source, destination)]: raises when the source is absent. *)
Definition move_file (source destination : string) (w : World)
  : Res unit * World :=
  if file_exists w source then
    (Ok tt, log_event (EMove source destination true)
              (set_files (destination :: remove_path destination
                                          (remove_path source (files w))) w))
  else (Raise (FileNotFound source),
        log_event (EMove source destination false) w).

(** [read_file(file_path, file_type, options)]. *)
Definition read_file (env : Env) (file_path file_type : string)
           (options : dict string) (w : World) : Res DataFrame * World :=
  if file_exists w file_path
  then (read_frame env file_path file_type options, w)
  else (Raise (FileNotFound file_path), w).

(** ** db_handler.py *)

Module DatabaseHandler.

(** [get_table_columns(table_name)]: the inspector's columns, keyed by
    name. *)
Definition column_entry (column_info : dict ColumnInfo)
           (col : InspectorColumn) : dict ColumnInfo :=
  dict_set column_info (col_name col)
           {| type := col_type col; nullable := col_nullable col;
              default := col_default col |}.

Definition get_table_columns (env : Env) (table_name : string)
  : Res (dict ColumnInfo) :=
  match inspector_columns env table_name with
  | None => Raise (NoSuchTable table_name)
  | Some cols => Ok (fold_left column_entry cols [])
  end.

(** The body of [for col_name, col_info in columns.items()] for the
    record of index [idx]. *)
Fixpoint prepare_record (cols : dict ColumnInfo) (idx : nat)
         (record prepared_record : Row) : Res Row :=
  match cols with
  | [] => Ok prepared_record
  | (name, col_info) :: rest =>
      match dict_get record name with
      | Some v =>
          prepare_record rest idx record (dict_set prepared_record name v)
      | None =>
          match default col_info with
          | Some _ => prepare_record rest idx record prepared_record
          | None =>
              if nullable col_info then
                prepare_record rest idx record
                               (dict_set prepared_record name VNone)
              else Raise (MissingRequiredColumn name idx)
          end
      end
  end.

Fixpoint prepare_records (cols : dict ColumnInfo) (idx : nat)
         (data : list Row) : Res (list Row) :=
  match data with
  | [] => Ok []
  | record :: rest =>
      match prepare_record cols idx record [] with
      | Raise e => Raise e
      | Ok prepared_record =>
          match prepare_records cols (S idx) rest with
          | Raise e => Raise e
          | Ok prepared_data => Ok (prepared_record :: prepared_data)
          end
      end
  end.

(** [validate_and_prepare_data(table_name, data)]. *)
Definition validate_and_prepare_data (env : Env) (table_name : string)
           (data : list Row) : Res (list Row) :=
  match data with
  | [] => Ok []
  | _ =>
      match get_table_columns env table_name with
      | Raise e => Raise e
      | Ok cols => prepare_records cols 0 data
      end
  end.

(** The loop of [insert_data] inside its session: every batch is
    executed and flushed in turn; [visible] are the rows the
    transaction sees, [tr] the statements sent so far. *)
Fixpoint execute_batches (env : Env) (table_name : string)
         (starts : list nat) (prepared_data : list Row) (batch_size : nat)
         (visible : list (string * Row)) (tr : list Event)
  : Res (list (string * Row)) * list Event :=
  match starts with
  | [] => (Ok visible, tr)
  | i :: rest =>
      let batch := Py.slice prepared_data i (i + batch_size) in
      let ok := db_accepts env visible table_name batch in
      let tr' := tr ++ [EExecute table_name batch ok] in
      if ok then
        execute_batches env table_name rest prepared_data batch_size
                        (visible ++ map (pair table_name) batch) tr'
      else (Raise (StatementRejected table_name), tr')
  end.

(** [insert_data(table_name, data, batch_size)], for any integer
    [batch_size]: [range(0, total_records, batch_size)] raises for a
    step of zero and is empty for a negative one, so that the loop does
    not run and the call returns.  The session commits when the loop
    ends and rolls everything back when a batch raises.
    ([Table(.., autoload_with)] reflects the table
    [validate_and_prepare_data] has just inspected and adds no failure of
    its own.) *)
Definition insert_data (env : Env) (table_name : string) (data : list Row)
           (batch_size : Z) (w : World) : Res unit * World :=
  match data with
  | [] => (Ok tt, w)
  | _ =>
      match validate_and_prepare_data env table_name data with
      | Raise e => (Raise e, w)
      | Ok prepared_data =>
          if (batch_size =? 0)%Z then (Raise RangeStepZero, w)
          else if (batch_size <? 0)%Z then (Ok tt, w)
          else
            let step := Z.to_nat batch_size in
            let starts := Py.range_step (length data) step in
            match execute_batches env table_name starts prepared_data
                                  step (target w) [] with
            | (Ok visible, tr) =>
                (Ok tt,
                 {| files := files w; control_table := control_table w;
                    modified_dates := modified_dates w;
                    target := visible; trace := trace w ++ tr |})
            | (Raise e, tr) =>
                (Raise e,
                 {| files := files w; control_table := control_table w;
                    modified_dates := modified_dates w;
                    target := target w; trace := trace w ++ tr |})
            end
      end
  end.

End DatabaseHandler.

(** ** data_validator.py *)

Module DataValidator.

Record ValidationResults : Type := {
  is_valid : bool;
  errors : list Violation
}.

Definition add_error (v : Violation) (r : ValidationResults)
  : ValidationResults :=
  {| is_valid := false; errors := errors r ++ [v] |}.

(** Positions of the elements that satisfy [p]. *)
Definition indices_where {A} (p : A -> bool) (l : list A) : list nat :=
  map fst (filter (fun x => p (snd x)) (combine (seq 0 (length l)) l)).

(** The pattern of the INTEGER check, [r'^\d+$']. *)
Definition digits_pattern : string := "^\d+$".

(** [int(str(col_type).split('(')[1].split(')')[0])]. *)
Definition varchar_bound (env : Env) (col_type : string) : Res Z :=
  match Py.split "("%char col_type with
  | _ :: after :: _ =>
      match Py.split ")"%char after with
      | inner :: _ =>
          match py_int env inner with
          | Some z => Ok z
          | None => Raise (BadVarcharBound col_type)
          end
      | [] => Raise (BadVarcharBound col_type)
      end
  | _ => Raise (BadVarcharBound col_type)
  end.

(** [df[col]]: the cells of the column at position [j]. *)
Definition series (df : DataFrame) (j : nat) : list Value :=
  map (fun r => nth j r VNaN) (rows df).

(** The checks on one column of the frame. *)
Definition check_column (env : Env) (table_cols : dict ColumnInfo)
           (df : DataFrame) (j : nat) (col : string)
           (results : ValidationResults) : Res ValidationResults :=
  match dict_get table_cols col with
  | None => Ok results
  | Some info =>
      let col_type := type info in
      let cells := map (astype_str env) (series df j) in
      if Py.startswith col_type "INTEGER" then
        match indices_where
                (fun s => negb (str_match env digits_pattern s)) cells with
        | [] => Ok results
        | non_numeric => Ok (add_error (NonNumeric col non_numeric) results)
        end
      else if Py.startswith col_type "DATE" then
        if to_datetime_ok env (series df j) then Ok results
        else Ok (add_error (InvalidDate col) results)
      else if Py.startswith col_type "VARCHAR" then
        match varchar_bound env col_type with
        | Raise e => Raise e
        | Ok max_length =>
            match indices_where
                    (fun s => (max_length <? Z.of_nat (String.length s))%Z)
                    cells with
            | [] => Ok results
            | too_long =>
                Ok (add_error (TooLong max_length col too_long) results)
            end
        end
      else Ok results
  end.

(** [for col in df.columns], from position [j] on. *)
Fixpoint check_columns (env : Env) (table_cols : dict ColumnInfo)
         (df : DataFrame) (j : nat) (cols : list string)
         (results : ValidationResults) : Res ValidationResults :=
  match cols with
  | [] => Ok results
  | col :: rest =>
      match check_column env table_cols df j col results with
      | Raise e => Raise e
      | Ok results' => check_columns env table_cols df (S j) rest results'
      end
  end.

(** [validate_data(df, table_name)]. *)
Definition validate_data (env : Env) (df : DataFrame) (table_name : string)
  : Res ValidationResults :=
  let validation_results := {| is_valid := true; errors := [] |} in
  match DatabaseHandler.get_table_columns env table_name with
  | Raise e => Raise e
  | Ok table_cols =>
      let results :=
        match indices_where (forallb isnull) (rows df) with
        | [] => validation_results
        | empty_rows => add_error (EmptyRows empty_rows) validation_results
        end in
      check_columns env table_cols df 0 (columns df) results
  end.

End DataValidator.

(** ** csv_db_handler.py *)

(** [csv_db_handler.py] is a fragment: its class [DatabaseHandler] has no
    import and neither [insert_data] nor [get_table_columns]; the calls
    to them are read as calls to the methods of that name of
    [db_handler.py]. *)

(** [load_csv_to_table(file_path, table_name, batch_size)]. *)
Definition load_csv_to_table (env : Env) (file_path table_name : string)
           (batch_size : Z) (w : World) : Res unit * World :=
  match CSVHandler.validate_csv_structure env file_path table_name with
  | Raise e => (Raise e, w)
  | Ok _ =>
      match CSVHandler.process_csv_file env file_path table_name with
      | Raise e => (Raise e, w)
      | Ok data => DatabaseHandler.insert_data env table_name data batch_size w
      end
  end.

(** The dictionary [preview_csv_load] returns. *)
Record Preview : Type := {
  sample_data : list Row;
  table_schema : dict ColumnInfo;
  record_count : nat
}.

(** [preview_csv_load(file_path, table_name, sample_size)]. *)
Definition preview_csv_load (env : Env) (file_path table_name : string)
           (sample_size : Z) : Res Preview :=
  match CSVHandler.get_sample_data env file_path table_name sample_size with
  | Raise e => Raise e
  | Ok sample =>
      match DatabaseHandler.get_table_columns env table_name with
      | Raise e => Raise e
      | Ok schema =>
          Ok {| sample_data := sample; table_schema := schema;
                record_count := length sample |}
      end
  end.

(** ** processor.py *)

Module FileProcessor.

(** [self.Session()]: a new session; it holds no object yet. *)
Definition new_session : M unit :=
  fun s => (Ok tt, {| control_record := control_record s;
                      persisted := persisted s;
                      modified_date := modified_date s;
                      attached := false; pending := false;
                      world := world s |}).

(** [session.rollback()]: an object the session holds is back to the row
    last committed; an object it does not hold is not touched. *)
Definition rollback : M unit :=
  fun s => (Ok tt,
            if attached s then
              {| control_record := match persisted s with
                                   | Some row => row
                                   | None => control_record s
                                   end;
                 persisted := persisted s;
                 modified_date := modified_date s;
                 attached := true; pending := false; world := world s |}
            else s).

(** [session.close()]: the objects of the session are detached. *)
Definition close : M unit :=
  fun s => (Ok tt, {| control_record := control_record s;
                      persisted := persisted s;
                      modified_date := modified_date s;
                      attached := false; pending := pending s;
                      world := world s |}).

(** [with self.db_handler.session_scope() as session: body]
    (db_handler.py): every call opens a session of its own, commits it
    when the body returns, rolls it back when the body raises, and
    closes it in both cases. *)
Definition session_scope {A} (body : M A) : M A :=
  new_session;;
  try_except (r <- body;; commit;; close;; ret r)
             (fun e => rollback;; close;; raise e).

Definition get_record : M ControlTable :=
  fun s => (Ok (control_record s), s).

(** [batch_size = 1000] in [_process_batches]. *)
Definition batch_size : nat := 1000.

(** [df.to_dict('records')]. *)
Definition to_dict_records (cols : list string) (rs : list (list Value))
  : list Row :=
  map (combine cols) rs.

(** [_add_metadata_columns(df, process_id)]. *)
Definition _add_metadata_columns (df : DataFrame) (process_id : string)
  : DataFrame :=
  if existsb (String.eqb "load_batch_no") (columns df) then df
  else {| columns := columns df ++ ["load_batch_no"];
          rows := map (fun r => r ++ [VStr process_id]) (rows df) |}.

(** One iteration of the loop of [_process_batches], for the chunk that
    starts at row [i]; returns the new [total_loaded]. *)
Definition process_batch (env : Env) (bs : nat) (df : DataFrame)
           (table_name : string) (i total_loaded : nat) : M nat :=
  let batch_df := Py.slice (rows df) i (i + bs) in
  try_except
    (assign (set_current_batch (Some (i / bs + 1)));;
     commit;;
     let records := to_dict_records (columns df) batch_df in
     on_world
       (DatabaseHandler.insert_data env table_name records (Z.of_nat bs));;
     let total_loaded' := total_loaded + length batch_df in
     assign (set_loaded_rows (Some total_loaded'));;
     commit;;
     ret total_loaded')
    (fun e => raise (BatchError (i / bs + 1) e)).

Fixpoint batches_loop (env : Env) (bs : nat) (df : DataFrame)
         (table_name : string) (starts : list nat) (total_loaded : nat)
  : M unit :=
  match starts with
  | [] => ret tt
  | i :: rest =>
      total_loaded' <- process_batch env bs df table_name i total_loaded;;
      batches_loop env bs df table_name rest total_loaded'
  end.

(** [_process_batches] for a chunk size [bs]. *)
Definition process_batches_sized (env : Env) (bs : nat) (df : DataFrame)
           (table_name : string) : M unit :=
  batches_loop env bs df table_name
               (Py.range_step (length (rows df)) bs) 0.

(** [_process_batches(df, table_name, control_record, session)]. *)
Definition _process_batches (env : Env) (df : DataFrame)
           (table_name : string) : M unit :=
  process_batches_sized env batch_size df table_name.

(** [os.path.splitext(file_path)[1][1:].lower()]. *)
Definition file_type_of (file_path : string) : string :=
  Py.lower (Py.extension file_path).

(** [pattern_config.get('read_options', {}).get(file_type, {})]. *)
Definition options_of (pattern_config : PatternConfig) (file_type : string)
  : dict string :=
  match dict_get (read_options pattern_config) file_type with
  | Some o => o
  | None => []
  end.

(** [_process_file_content(file_path, pattern_config, control_record,
    session)]. *)
Definition _process_file_content (env : Env) (file_path : string)
           (pattern_config : PatternConfig) : M unit :=
  let file_type := file_type_of file_path in
  let options := options_of pattern_config file_type in
  df <- on_world (read_file env file_path file_type options);;
  assign (set_total_rows (Some (length (rows df))));;
  commit;;
  log (EValidate (table pattern_config) df);;
  validation_results <-
    lift (DataValidator.validate_data env df (table pattern_config));;
  if negb (DataValidator.is_valid validation_results) then
    raise (DataValidationFailed (DataValidator.errors validation_results))
  else
    r <- get_record;;
    _process_batches env (_add_metadata_columns df (process_id r))
                     (table pattern_config).

(** The name both relocations give the file: date stamp, underscore,
    file name. *)
Definition dated_name (env : Env) (file_name : string) : string :=
  (today env ++ "_" ++ file_name)%string.

Definition archive_path (env : Env) (file_name : string) : string :=
  Py.path_join (archive_folder (storage_config env))
               (dated_name env file_name).

Definition error_path (env : Env) (file_name : string) : string :=
  Py.path_join (error_folder (storage_config env))
               (dated_name env file_name).

(** [_archive_file(file_path, file_name, control_record, session)]. *)
Definition _archive_file (env : Env) (file_path file_name : string)
  : M unit :=
  on_world (move_file file_path (archive_path env file_name));;
  assign (set_status "SUCCESS");;
  assign (set_file_location (Some "ARCHIVE"));;
  commit.

(** [_handle_error(file_path, file_name, control_record, error_message)].
    It runs after the session of [process_file] was rolled back and
    closed, in a session of its own, to which the control record is never
    added: its assignments change the object only, and its commits write
    nothing of the record. *)
Definition _handle_error (env : Env) (file_path file_name : string)
           (error : PyError) : M unit :=
  try_except
    (session_scope
       (assign (set_status "ERROR");;
        assign (set_error_message (Some error));;
        on_world (move_file file_path (error_path env file_name));;
        assign (set_file_location (Some "ERROR"));;
        commit))
    (fun move_error => ret tt).

(** The control record [process_file] creates. *)
Definition new_control_record (process_id file_name file_path : string)
           (pattern_config : PatternConfig) : ControlTable :=
  {| process_id := process_id; file_name := file_name;
     file_path := file_path; target_table := table pattern_config;
     status := "INITIATED"; total_rows := None; loaded_rows := None;
     error_message := None; current_batch := None;
     file_location := Some "INPUT"; created_by := Some "SYSTEM";
     modified_by := None |}.

(** The body of [process_file], for its control record. *)
Definition process_file_body (env : Env) (file_path : string)
           (pattern_config : PatternConfig) : M unit :=
  let file_name := Py.basename file_path in
  try_except
    (session_scope
       (add;;
        commit;;
        assign (set_status "IN_PROGRESS");;
        commit;;
        _process_file_content env file_path pattern_config;;
        _archive_file env file_path file_name))
    (fun e => _handle_error env file_path file_name e).

Definition open_session (env : Env) (file_path : string)
           (pattern_config : PatternConfig) (process_id : string)
           (w : World) : Session :=
  {| control_record :=
       new_control_record process_id (Py.basename file_path) file_path
                          pattern_config;
     persisted := None; modified_date := 0;
     attached := false; pending := false; world := w |}.

(** The session as [process_file] leaves it. *)
Definition process_file_session (env : Env) (file_path : string)
           (pattern_config : PatternConfig) (process_id : string)
           (w : World) : Session :=
  snd (process_file_body env file_path pattern_config
         (open_session env file_path pattern_config process_id w)).

(** [process_file(file_path, pattern_config)]; [process_id] is the
    fresh [uuid4].  The row of this attempt is the last one of the
    control table. *)
Definition process_file (env : Env) (file_path : string)
           (pattern_config : PatternConfig) (process_id : string)
           (w : World) : World :=
  let s := process_file_session env file_path pattern_config process_id w in
  match persisted s with
  | Some row =>
      set_modified_dates (modified_dates (world s) ++ [modified_date s])
        (set_control_table (control_table (world s) ++ [row]) (world s))
  | None => world s
  end.

Definition retry_source (env : Env) (process : ControlTable) : string :=
  Py.path_join (error_folder (storage_config env)) (file_name process).

Definition retry_dest (env : Env) (process : ControlTable) : string :=
  Py.path_join (input_folder (storage_config env)) (file_name process).

(** [process.current_batch = 0; process.loaded_rows = 0], on an object
    that the query of the session loaded: the assignments are a pending
    change when one of the values is new, or when a commit of the loop
    has expired the attributes of the object ([expired]). *)
Definition is_zero (v : option nat) : bool :=
  match v with Some 0 => true | _ => false end.

Definition reset_counters (expired : bool) : M unit :=
  fun s =>
    let p := control_record s in
    (Ok tt,
     {| control_record :=
          set_loaded_rows (Some 0) (set_current_batch (Some 0) p);
        persisted := persisted s; modified_date := modified_date s;
        attached := attached s;
        pending := pending s || expired
                   || negb (is_zero (current_batch p)
                            && is_zero (loaded_rows p));
        world := world s |}).

(** [_retry_file(process, start_from_failure, session)]; [process] is
    the session's control record. *)
Definition _retry_file (env : Env) (start_from_failure expired : bool)
  : M unit :=
  (if start_from_failure then ret tt else reset_counters expired);;
  process <- get_record;;
  try_except
    (on_world (move_file (retry_source env process)
                         (retry_dest env process));;
     assign (set_file_location (Some "INPUT"));;
     assign (set_status "PENDING_RETRY");;
     commit)
    (fun e => ret tt).

(** The row [_retry_file] leaves for [process], the [modified_date] of
    the row, and the world after it.  The rows the query loaded belong
    to the session: a change that [_retry_file] leaves pending is
    written by the next commit of the session, that of a later record or
    the one that closes [session_scope]. *)
Definition retry_row (env : Env) (start_from_failure expired : bool)
           (process : ControlTable) (date : nat) (w : World)
  : ControlTable * nat * World :=
  let s := snd (_retry_file env start_from_failure expired
                  {| control_record := process; persisted := Some process;
                     modified_date := date; attached := true;
                     pending := false; world := w |}) in
  (control_record s,
   if pending s then S (modified_date s) else modified_date s,
   world s).

(** [for process in failed_processes], over the rows of the table and
    their [modified_date]: the query keeps those whose status is ERROR.
    The commit of [_retry_file] runs when its move succeeds; it expires
    the attributes of every object of the session. *)
Fixpoint retry_each (env : Env) (start_from_failure expired : bool)
         (processes : list ControlTable) (dates : list nat) (w : World)
  : list ControlTable * list nat * World :=
  match processes with
  | [] => ([], [], w)
  | process :: rest =>
      let date := hd 0 dates in
      if String.eqb (status process) "ERROR" then
        let '(process', date', w1) :=
          retry_row env start_from_failure expired process date w in
        let expired' :=
          expired || file_exists w (retry_source env process) in
        let '(rest', dates', w2) :=
          retry_each env start_from_failure expired' rest (tl dates) w1 in
        (process' :: rest', date' :: dates', w2)
      else
        let '(rest', dates', w2) :=
          retry_each env start_from_failure expired rest (tl dates) w in
        (process :: rest', date :: dates', w2)
  end.

(** [retry_failed_files(start_from_failure)]. *)
Definition retry_failed_files (env : Env) (start_from_failure : bool)
           (w : World) : World :=
  let '(table', dates', w') :=
    retry_each env start_from_failure false (control_table w)
               (modified_dates w) w in
  set_modified_dates dates' (set_control_table table' w').

End FileProcessor.

(** ** main.py *)

Module Main.

(** The inner loop of [main] for one pattern,
    [for file_path in files: processor.process_file(file_path,
    pattern_config)], over the listing of the pattern; the second
    component of an entry is the [uuid4] its attempt draws. *)
Fixpoint process_files (env : Env) (pattern_config : PatternConfig)
         (listing : list (string * string)) (w : World) : World :=
  match listing with
  | [] => w
  | (file_path, process_id) :: rest =>
      process_files env pattern_config rest
        (FileProcessor.process_file env file_path pattern_config
                                    process_id w)
  end.

End Main.

(** ** A concrete installation, for the worked examples *)

Module Demo.

Definition is_digit (c : ascii) : bool :=
  let n := nat_of_ascii c in (48 <=? n) && (n <=? 57).

(** What [re.match(r'^\d+$', s)] gives on ASCII text: digits, and at
    most one final newline. *)
Fixpoint digits_then_end (s : string) : bool :=
  match s with
  | EmptyString => true
  | String c s' =>
      if is_digit c then digits_then_end s'
      else Ascii.eqb c "010"%char
           && match s' with EmptyString => true | _ => false end
  end.

Definition match_digits (s : string) : bool :=
  match s with
  | String c _ => is_digit c && digits_then_end s
  | EmptyString => false
  end.

(** Decimal digits to a number: what [int] does on a plain literal. *)
Fixpoint digits_value (s : string) (acc : Z) : option Z :=
  match s with
  | EmptyString => Some acc
  | String c s' =>
      if is_digit c then
        digits_value s' (10 * acc + Z.of_nat (nat_of_ascii c - 48))%Z
      else None
  end.

Definition int_of_string (s : string) : option Z :=
  match s with
  | EmptyString => None
  | _ => digits_value s 0%Z
  end.

(** Decimal rendering of a natural number, most significant digit
    first; [fuel] bounds the number of digits. *)
Fixpoint nat_digits (fuel n : nat) (acc : string) : string :=
  match fuel with
  | 0 => acc
  | S fuel' =>
      let acc' := String (ascii_of_nat (48 + n mod 10)) acc in
      if n / 10 =? 0 then acc' else nat_digits fuel' (n / 10) acc'
  end.

Definition str_of_value (v : Value) : string :=
  match v with
  | VNone => "None"
  | VNaN => "nan"
  | VStr s => s
  | VInt z =>
      if (z <? 0)%Z
      then String "-"%char (nat_digits 40 (Z.to_nat (- z)) "")
      else nat_digits 40 (Z.to_nat z) ""
  | VBool true => "True"
  | VBool false => "False"
  | VFloat lit | VDate lit | VDateTime lit => lit
  end.

(** The table [orders]: [name] is NOT NULL without default, the other
    columns are nullable. *)
Definition orders_columns : list InspectorColumn :=
  [ {| col_name := "name"; col_type := "VARCHAR(20)";
       col_nullable := false; col_default := None |};
    {| col_name := "qty"; col_type := "INTEGER";
       col_nullable := true; col_default := None |};
    {| col_name := "load_batch_no"; col_type := "VARCHAR(50)";
       col_nullable := true; col_default := None |} ].

(** The store enforces NOT NULL: a batch with a null in [name] is
    rejected. *)
Definition not_null_ok (batch : list Row) : bool :=
  forallb (fun r => match dict_get r "name" with
                    | Some v => negb (isnull v)
                    | None => true
                    end) batch.

Definition orders_mapping : TableConfig :=
  {| file_config := Some {| has_header := false |};
     column_mappings :=
       [ {| column_index := 0; db_column := "name";
            data_type := "string"; required := true |};
         {| column_index := 1; db_column := "qty";
            data_type := "integer"; required := true |} ] |}.

(** 1000 good rows, then one whose [name] is missing. *)
Definition big_frame : DataFrame :=
  {| columns := ["name"; "qty"];
     rows := repeat [VStr "a"; VInt 1] 1000 ++ [[VNaN; VInt 1]] |}.

(** The scenario of three rows, the last one unacceptable. *)
Definition three_rows : DataFrame :=
  {| columns := ["name"; "qty"];
     rows := [[VStr "a"; VInt 1]; [VStr "b"; VInt 2]; [VNaN; VInt 3]] |}.

(** A file with a header line and no data. *)
Definition empty_frame : DataFrame :=
  {| columns := ["name"; "qty"]; rows := [] |}.

(** A non-numeric quantity, which the gate rejects. *)
Definition bad_frame : DataFrame :=
  {| columns := ["name"; "qty"];
     rows := [[VStr "a"; VInt 1]; [VStr "b"; VStr "x"]] |}.

(** A file with the single column [name]. *)
Definition short_frame : DataFrame :=
  {| columns := ["name"]; rows := [[VStr "bob"]] |}.

Definition frames : dict DataFrame :=
  [ ("in/big.csv", big_frame); ("in/empty.csv", empty_frame);
    ("in/bad.csv", bad_frame); ("in/short.csv", short_frame) ].

Definition raw_files : dict (list (list string)) :=
  [ ("in/short.csv", [["name"]; ["bob"]]);
    ("in/pair.csv", [["bob"]; ["amy"; "3"]]) ].

Definition env : Env :=
  {| storage_config := {| input_folder := "in";
                          archive_folder := "archive";
                          error_folder := "error" |};
     csv_mappings := [("orders", orders_mapping)];
     today := "20240131";
     csv_reader := fun path =>
       match dict_get raw_files path with
       | Some rs => Ok rs
       | None => Raise (FileNotFound path)
       end;
     read_frame := fun path file_type _ =>
       if String.eqb file_type "csv" then
         match dict_get frames path with
         | Some df => Ok df
         | None => Raise (ReadError path)
         end
       else Raise (UnsupportedFileType file_type);
     inspector_columns := fun t =>
       if String.eqb t "orders" then Some orders_columns else None;
     db_accepts := fun _ _ batch => not_null_ok batch;
     py_int := int_of_string;
     py_float_ok := fun _ => false;
     strptime_ok := fun _ _ => false;
     astype_str := str_of_value;
     to_datetime_ok := fun _ => true;
     str_match := fun pattern s =>
       String.eqb pattern DataValidator.digits_pattern && match_digits s |}.

Definition orders_pattern : PatternConfig :=
  {| table := "orders"; read_options := [] |}.

(** The input folder holds the four files; nothing has run yet. *)
Definition world0 : World :=
  {| files := ["in/big.csv"; "in/empty.csv"; "in/bad.csv"; "in/short.csv"];
     control_table := []; modified_dates := []; target := []; trace := [] |}.

End Demo.

(** ** Vocabulary of the statements *)

(** The values boolean coercion counts as true. *)
Definition truthy_words : list string := ["true"; "1"; "yes"; "y"].

(** A field of a CSV row that passes both checks of [process_csv_file]:
    not blank when its column is required, and convertible. *)
Definition field_parses (env : Env) (mappings : list ColumnMapping)
           (col_idx : nat) (value : string) : bool :=
  match CSVHandler.index_to_column mappings col_idx with
  | None => true
  | Some mapping =>
      negb (required mapping && String.eqb (Py.strip value) "")
      && is_ok (CSVHandler._convert_data_type env value (data_type mapping))
  end.

(** A column the schema declares NOT NULL without default and the record
    does not carry. *)
Definition missing_required (record : Row) (entry : string * ColumnInfo)
  : bool :=
  match dict_get record (fst entry), default (snd entry) with
  | None, None => negb (nullable (snd entry))
  | _, _ => false
  end.

(** [prepared] is [record] reconciled against [schema]. *)
Definition reconciled (schema : dict ColumnInfo) (record prepared : Row)
  : Prop :=
  forall c,
    match dict_get schema c with
    | None => dict_get prepared c = None
    | Some info =>
        match dict_get record c with
        | Some v => dict_get prepared c = Some v
        | None =>
            match default info with
            | Some _ => dict_get prepared c = None
            | None => nullable info = true /\ dict_get prepared c = Some VNone
            end
        end
    end.


(** What a retry does to one row of the control table. *)
Definition requeued (start_from_failure : bool) (p p' : ControlTable) : Prop :=
  if String.eqb (status p) "ERROR" then
    file_name p' = file_name p /\
    (if start_from_failure
     then current_batch p' = current_batch p /\ loaded_rows p' = loaded_rows p
     else current_batch p' = Some 0 /\ loaded_rows p' = Some 0) /\
    ((status p' = "PENDING_RETRY" /\ file_location p' = Some "INPUT") \/
     (status p' = "ERROR" /\ file_location p' = file_location p))
  else p' = p.

Definition is_commit (e : Event) : bool :=
  match e with ECommit _ => true | _ => false end.
Definition is_validate (e : Event) : bool :=
  match e with EValidate _ _ => true | _ => false end.
Definition is_execute (e : Event) : bool :=
  match e with EExecute _ _ _ => true | _ => false end.
Definition is_move (e : Event) : bool :=
  match e with EMove _ _ _ => true | _ => false end.

(** The outcomes of the statements sent to the store, in order. *)
Definition executions (tr : list Event) : list bool :=
  flat_map (fun e => match e with EExecute _ _ ok => [ok] | _ => [] end) tr.

(** The values of [current_batch] written to the ledger, in order. *)
Definition committed_batches (tr : list Event) : list nat :=
  flat_map (fun e => match e with
                     | ECommit r => match current_batch r with
                                    | Some b => [b]
                                    | None => []
                                    end
                     | _ => []
                     end) tr.

(** The row of the attempt that [process_file] has just run. *)
Definition attempt_row (w : World) : option ControlTable :=
  last (map Some (control_table w)) None.

(** The row [_retry_file] starts from: the counters are zeroed first
    unless the retry resumes from the failure. *)
Definition retry_reset (start_from_failure : bool) (p : ControlTable)
  : ControlTable :=
  if start_from_failure then p
  else set_loaded_rows (Some 0) (set_current_batch (Some 0) p).

(** The moves a trace records, in order. *)
Definition moves (tr : list Event) : list (string * string) :=
  flat_map (fun e => match e with EMove s d _ => [(s, d)] | _ => [] end) tr.


Definition is_error_row (p : ControlTable) : bool :=
  String.eqb (status p) "ERROR".

(** The fields of a control record that loading does not touch. *)
Definition same_but_progress (r r' : ControlTable) : Prop :=
  process_id r' = process_id r /\ file_name r' = file_name r /\
  file_path r' = file_path r /\ target_table r' = target_table r /\
  status r' = status r /\ total_rows r' = total_rows r /\
  error_message r' = error_message r /\
  file_location r' = file_location r /\
  created_by r' = created_by r /\ modified_by r' = modified_by r.

(** An event of the loading loop: a commit of the ledger or a statement. *)
Definition load_event (e : Event) : bool := is_commit e || is_execute e.

(** The ledger writes of chunks [a+1 .. a+len]: each chunk commits its
    number twice, before the insert and after it. *)
Definition chunk_commits (a len : nat) : list nat :=
  flat_map (fun j => [j + 1; j + 1]) (seq a len).

(** An event of a relocation or a ledger write. *)
Definition ledger_or_move (e : Event) : bool := is_commit e || is_move e.

(** The record [_handle_error] writes for the error [e]. *)
Definition error_record (e : PyError) (r : ControlTable) : ControlTable :=
  set_file_location (Some "ERROR")
    (set_error_message (Some e) (set_status "ERROR" r)).

(** The record [_archive_file] writes. *)
Definition success_record (r : ControlTable) : ControlTable :=
  set_file_location (Some "ARCHIVE") (set_status "SUCCESS" r).

(** The number of chunks of [n] rows, [batch_size] rows each. *)
Definition chunk_count (n bs : nat) : nat := (n + bs - 1) / bs.

(** The session after the rollback and the close of [session_scope]. *)
Definition rolled_back (s : Session) : Session :=
  snd (FileProcessor.close (snd (FileProcessor.rollback s))).

(** What [process_file] does when its session block raises [e] in the
    session [s]: roll back and close, then [_handle_error]. *)
Definition fail (env : Env) (file_path : string) (e : PyError) (s : Session)
  : Res unit * Session :=
  FileProcessor._handle_error env file_path (Py.basename file_path) e
                              (rolled_back s).

(** Events that are neither a run of the gate nor a statement. *)
Definition quiet (e : Event) : bool :=
  negb (is_validate e) && negb (is_execute e).

(** How an attempt that could not load ends: the file is in the error
    folder, nothing was sent to the store, and the row is as the attempt
    last committed it, [r]. *)
Definition rejected (env : Env) (file_path : string)
           (r : ControlTable) (post : list Event) (s0 s : Session) : Prop :=
  forallb quiet post = true /\
  target (world s) = target (world s0) /\
  persisted s = Some r /\
  file_exists (world s)
    (FileProcessor.error_path env (Py.basename file_path)) = true.

(** How an attempt whose frame has [n] rows ends when every chunk is
    accepted. *)
Definition archived (env : Env) (file_path : string) (n : nat)
           (r0 : ControlTable) (post : list Event) (s0 s : Session) : Prop :=
  exists row,
    persisted s = Some row /\
    status row = "SUCCESS" /\ file_location row = Some "ARCHIVE" /\
    error_message row = error_message r0 /\
    total_rows row = Some n /\
    loaded_rows row = match n with
                      | 0 => loaded_rows r0
                      | S _ => Some n
                      end /\
    current_batch row
    = match chunk_count n FileProcessor.batch_size with
      | 0 => current_batch r0
      | S c => Some (S c)
      end /\
    file_exists (world s)
      (FileProcessor.archive_path env (Py.basename file_path)) = true /\
    length (target (world s)) = length (target (world s0)) + n /\
    exists d,
      post = d ++ [EMove file_path
                     (FileProcessor.archive_path env (Py.basename file_path))
                     true; ECommit row; ECommit row] /\
      forallb load_event d = true.

(** How an attempt ends when chunk [k+1] is the first to fail: the row is
    left as the loop last committed it. *)
Definition failed_loading (env : Env) (file_path : string)
           (r0 : ControlTable) (s0 s : Session) : Prop :=
  exists k row,
    persisted s = Some row /\
    status row = "IN_PROGRESS" /\ file_location row = file_location r0 /\
    error_message row = error_message r0 /\
    current_batch row = Some (k + 1) /\
    loaded_rows row = match k with
                      | 0 => loaded_rows r0
                      | S _ => Some (k * FileProcessor.batch_size)
                      end /\
    file_exists (world s)
      (FileProcessor.error_path env (Py.basename file_path)) = true /\
    length (target (world s))
    = length (target (world s0)) + k * FileProcessor.batch_size.

(** What a step of the gate may do to the results: append violations,
    and clear [is_valid] as soon as it appends one. *)
Definition extends (r r' : DataValidator.ValidationResults) : Prop :=
  exists extra,
    DataValidator.errors r' = DataValidator.errors r ++ extra /\
    DataValidator.is_valid r'
    = DataValidator.is_valid r && match extra with [] => true | _ => false end.

(** The records a trace commits, in order. *)
Definition commits (tr : list Event) : list ControlTable :=
  flat_map (fun e => match e with ECommit r => [r] | _ => [] end) tr.

(** SUCCESS and ERROR close an attempt. *)
Definition is_terminal (st : string) : bool :=
  String.eqb st "SUCCESS" || String.eqb st "ERROR".

(** No terminal state is committed before a move has succeeded; [moved]
    tells whether one already has. *)
Fixpoint closed_after_move (moved : bool) (tr : list Event) : bool :=
  match tr with
  | [] => true
  | EMove _ _ true :: tr' => closed_after_move true tr'
  | ECommit r :: tr' =>
      (negb (is_terminal (status r)) || moved) && closed_after_move moved tr'
  | _ :: tr' => closed_after_move moved tr'
  end.

(** [loaded_rows], once written, is backed by a [total_rows] it does not
    exceed. *)
Definition within_total (r : ControlTable) : bool :=
  match loaded_rows r with
  | None => true
  | Some l => match total_rows r with
              | Some t => l <=? t
              | None => false
              end
  end.

(** An event of the loading of a frame of [n] rows, for the record [r3]
    the loading started from: a statement, or a commit of a record that
    differs from [r3] in its progress only and has loaded at most [n]
    rows. *)
Definition loading_event (r3 : ControlTable) (n : nat) (e : Event) : Prop :=
  match e with
  | ECommit r =>
      same_but_progress r3 r /\
      (loaded_rows r = loaded_rows r3 \/
       exists l, loaded_rows r = Some l /\ l <= n)
  | EExecute _ _ _ => True
  | _ => False
  end.

(** The four ways an attempt closes, from the record [r4] it has reached:
    archived; routed to the error folder, with two commits that write
    nothing; its file could not be moved to the error folder; its file
    could be moved nowhere. *)
Definition closes (env : Env) (file_path : string) (r4 : ControlTable)
           (post : list Event) (row : ControlTable) : Prop :=
  let apath := FileProcessor.archive_path env (Py.basename file_path) in
  let epath := FileProcessor.error_path env (Py.basename file_path) in
  (post = [EMove file_path apath true; ECommit (success_record r4);
           ECommit (success_record r4)] /\ row = success_record r4) \/
  (exists e,
      post = [EMove file_path epath true; ECommit (error_record e r4);
              ECommit (error_record e r4)] /\ row = r4) \/
  (post = [EMove file_path epath false] /\ row = r4) \/
  (post = [EMove file_path apath false; EMove file_path epath false] /\
   row = r4).

(** What an attempt does between its opening and its closing: nothing
    when the file cannot be read; otherwise it records the number of
    rows, runs the gate and, possibly, loads. *)
Definition staged (r1 : ControlTable) (mid : list Event) (r4 : ControlTable)
  : Prop :=
  (mid = [] /\ r4 = r1) \/
  exists df t loaded,
    let n := length (rows df) in
    let r2 := set_total_rows (Some n) r1 in
    mid = ECommit r2 :: EValidate t df :: loaded /\
    Forall (loading_event r2 n) loaded /\
    loading_event r2 n (ECommit r4).

(** What the closing events [post] of an attempt on [path] say of the
    files: the first move succeeds exactly when the file was in place,
    and nothing else changes the store. *)
Definition moved_by (path : string) (post : list Event) (w0 w : World)
  : Prop :=
  match post with
  | EMove src dst true :: _ =>
      file_exists w0 path = true /\
      files w = dst :: remove_path dst (remove_path src (files w0))
  | _ => file_exists w0 path = false /\ files w = files w0
  end.

(** The records an attempt hands to the store for the frame [df]: one
    per row, with the batch number of the attempt added. *)
Definition attempt_records (df : DataFrame) (process_id : string)
  : list Row :=
  FileProcessor.to_dict_records
    (columns (FileProcessor._add_metadata_columns df process_id))
    (rows (FileProcessor._add_metadata_columns df process_id)).

(** The data lines of a file: all of its lines, but the first when the
    configuration announces a header. *)
Definition data_lines (table_config : TableConfig)
           (lines : list (list string)) : list (list string) :=
  if CSVHandler.skips_header table_config then tl lines else lines.

(** The field [value] at index [j] of line number [row_num] is the one
    the error [e] of [process_csv_file] is about, under the mapping [m]
    of that index. *)
Definition field_error (env : Env) (row_num : nat) (m : ColumnMapping)
           (value : string) (e : PyError) : Prop :=
  (required m = true /\ Py.strip value = "" /\
   e = RequiredFieldEmpty (db_column m) row_num) \/
  (CSVHandler._convert_data_type env value (data_type m)
   = Raise (DataTypeConversionError value (data_type m)) /\
   e = FieldConversionError (db_column m) row_num
         (DataTypeConversionError value (data_type m))).

(** The installation of the examples, reading the given lines from every
    path. *)
Definition env_reading (lines : list (list string)) : Env :=
  {| storage_config := storage_config Demo.env;
     csv_mappings := csv_mappings Demo.env;
     today := today Demo.env;
     csv_reader := fun _ => Ok lines;
     read_frame := read_frame Demo.env;
     inspector_columns := inspector_columns Demo.env;
     db_accepts := db_accepts Demo.env;
     py_int := py_int Demo.env;
     py_float_ok := py_float_ok Demo.env;
     strptime_ok := strptime_ok Demo.env;
     astype_str := astype_str Demo.env;
     to_datetime_ok := to_datetime_ok Demo.env;
     str_match := str_match Demo.env |}.

Definition is_nil {A} (l : list A) : bool :=
  match l with [] => true | _ => false end.

(** What the gate checks of the cells of a column whose declared type is
    [info]. *)
Definition column_fits (env : Env) (info : ColumnInfo) (cells : list Value)
  : Prop :=
  if Py.startswith (type info) "INTEGER" then
    Forall (fun v => str_match env DataValidator.digits_pattern
                               (astype_str env v) = true)
           cells
  else if Py.startswith (type info) "DATE" then
    to_datetime_ok env cells = true
  else if Py.startswith (type info) "VARCHAR" then
    exists max_length,
      DataValidator.varchar_bound env (type info) = Ok max_length /\
      Forall (fun v => (Z.of_nat (String.length (astype_str env v))
                        <= max_length)%Z) cells
  else True.

(** The session after a commit that writes its record: [r] is the
    object and the row. *)
Definition updated (r : ControlTable) (w : World) (s : Session) : Session :=
  {| control_record := r; persisted := Some r;
     modified_date := S (modified_date s); attached := true;
     pending := false; world := w |}.

(** The session after [record.field = v; session.commit()]: [r] is the
    record with the new value, [w] the world when the commit is called. *)
Definition written (r : ControlTable) (w : World) (s : Session) : Session :=
  snd (commit {| control_record := r; persisted := persisted s;
                 modified_date := modified_date s; attached := attached s;
                 pending := true; world := w |}).

(** The session when its block ends normally: [session_scope] commits
    and closes it. *)
Definition closed (s : Session) : Session :=
  snd (FileProcessor.close (snd (commit s))).

(** The session holds its record, and the record has a row. *)
Definition has_row (s : Session) : bool :=
  match persisted s with Some _ => true | None => false end.

Definition holds_row (s : Session) : Prop :=
  attached s = true /\ has_row s = true.

(** The session of [process_file] once the record is IN_PROGRESS. *)
Definition in_progress_session (env : Env) (file_path : string)
           (pattern_config : PatternConfig) (process_id : string)
           (w : World) : Session :=
  let s0 := FileProcessor.open_session env file_path pattern_config
              process_id w in
  updated (set_status "IN_PROGRESS" (control_record s0)) w s0.



(** The record of a failed attempt on [in/bad.csv] as the specification
    has it in the ledger, and as [_handle_error] leaves the object: ERROR,
    with the violation the gate reports. *)
Definition failed_record : ControlTable :=
  error_record (DataValidationFailed [NonNumeric "qty" [1]])
    (set_total_rows (Some 2)
       (set_status "IN_PROGRESS"
          (FileProcessor.new_control_record "p1" "bad.csv" "in/bad.csv"
                                            Demo.orders_pattern))).

(** The state the specification has after that attempt: the record, and
    the file where [_handle_error] puts it, under its dated name. *)
Definition error_world : World :=
  {| files := ["error/20240131_bad.csv"];
     control_table := [failed_record]; modified_dates := [3];
     target := []; trace := [] |}.


(** * Properties *)

(** ** Dictionaries *)

Lemma dict_get_set_eq {V} (d : dict V) k v :
  dict_get (dict_set d k v) k = Some v.
Proof.
  induction d as [|[k' v'] d IH]; simpl.
  - now rewrite String.eqb_refl.
  - destruct (String.eqb k k') eqn:E; simpl; rewrite E; auto.
Qed.

Lemma dict_get_set_neq {V} (d : dict V) k k' v :
  k <> k' -> dict_get (dict_set d k v) k' = dict_get d k'.
Proof.
  intros Hne. induction d as [|[k0 v0] d IH]; simpl.
  - destruct (String.eqb k' k) eqn:E; auto.
    apply String.eqb_eq in E. congruence.
  - destruct (String.eqb k k0) eqn:E; simpl.
    + apply String.eqb_eq in E. subst k0.
      destruct (String.eqb k' k) eqn:E'; auto.
      apply String.eqb_eq in E'. congruence.
    + now rewrite IH.
Qed.

Lemma dict_get_In {V} (d : dict V) k v :
  dict_get d k = Some v -> In (k, v) d.
Proof.
  induction d as [|[k' v'] d IH]; simpl; [discriminate|].
  destruct (String.eqb k k') eqn:E.
  - apply String.eqb_eq in E. intros [= ->]. left. now subst.
  - auto.
Qed.

Lemma dict_get_not_key {V} (d : dict V) k :
  ~ In k (dict_keys d) -> dict_get d k = None.
Proof.
  induction d as [|[k' v'] d IH]; simpl; auto.
  intros H. destruct (String.eqb k k') eqn:E.
  - apply String.eqb_eq in E. subst. tauto.
  - apply IH. tauto.
Qed.

Lemma In_dict_get {V} (d : dict V) k v :
  NoDup (dict_keys d) -> In (k, v) d -> dict_get d k = Some v.
Proof.
  induction d as [|[k' v'] d IH]; simpl; [tauto|].
  intros Hnd [H|H].
  - injection H as -> ->. now rewrite String.eqb_refl.
  - inversion Hnd as [|? ? Hnot Hnd']; subst.
    destruct (String.eqb k k') eqn:E.
    + apply String.eqb_eq in E. subst k'.
      exfalso. apply Hnot. unfold dict_keys.
      change k with (fst (k, v)). now apply in_map.
    + auto.
Qed.

Lemma dict_keys_set {V} (d : dict V) k v :
  dict_keys (dict_set d k v)
  = if dict_has d k then dict_keys d else dict_keys d ++ [k].
Proof.
  unfold dict_has.
  induction d as [|[k' v'] d IH]; simpl; auto.
  destruct (String.eqb k k') eqn:E; simpl; auto.
  rewrite IH. now destruct (dict_get d k).
Qed.

Lemma dict_get_None_not_key {V} (d : dict V) k :
  dict_get d k = None -> ~ In k (dict_keys d).
Proof.
  induction d as [|[k' v'] d IH]; simpl; [tauto|].
  destruct (String.eqb k k') eqn:E; [discriminate|].
  intros H [Hk|Hk].
  - subst. now rewrite String.eqb_refl in E.
  - now apply IH.
Qed.

Lemma dict_set_NoDup {V} (d : dict V) k v :
  NoDup (dict_keys d) -> NoDup (dict_keys (dict_set d k v)).
Proof.
  intros H. rewrite dict_keys_set. unfold dict_has.
  destruct (dict_get d k) eqn:E; auto.
  apply dict_get_None_not_key in E.
  apply NoDup_app; auto.
  - constructor; [simpl; tauto | constructor].
  - intros x Hx [Hk|[]]. subst. contradiction.
Qed.

(** ** Boolean coercion *)

Lemma str_in_spec x l :
  Py.str_in x l = true <-> In x l.
Proof.
  unfold Py.str_in. rewrite existsb_exists. split.
  - intros [y [Hy E]]. apply String.eqb_eq in E. now subst.
  - intros H. exists x. split; auto. apply String.eqb_refl.
Qed.

Lemma truthy_words_lower w :
  In w truthy_words -> Py.lower w = w.
Proof.
  unfold truthy_words. simpl.
  intros [<-|[<-|[<-|[<-|[]]]]]; reflexivity.
Qed.

(** C8, counterexample: the empty string matches none of the four words,
    yet its boolean coercion is not false: the guard at the top of
    [_convert_data_type] returns None for it. *)
Lemma C8_empty_string_is_null :
  Py.str_in (Py.lower "") truthy_words = false /\
  CSVHandler._convert_data_type Demo.env "" "boolean" = Ok VNone /\
  CSVHandler._convert_data_type Demo.env "" "boolean" <> Ok (VBool false).
Proof.
  repeat split; try reflexivity. discriminate.
Qed.

(** C8, as amended: for every non-empty input string boolean coercion
    raises nothing and returns a boolean, which is true exactly when the
    value matches one of true, 1, yes, y up to case; every other non-empty
    value gives false.  (The empty string gives None.) *)
Theorem C8_boolean_coercion :
  forall env value dtype,
    Py.lower dtype = "boolean" ->
    value <> "" ->
    exists b,
      CSVHandler._convert_data_type env value dtype = Ok (VBool b) /\
      (b = true <->
       exists w, In w truthy_words /\ Py.lower value = Py.lower w).
Proof.
  intros env value dtype Ht Hne.
  exists (Py.str_in (Py.lower value) truthy_words). split.
  - unfold CSVHandler._convert_data_type.
    destruct (String.eqb value "") eqn:E.
    + apply String.eqb_eq in E. contradiction.
    + rewrite Ht. reflexivity.
  - rewrite str_in_spec. split.
    + intros H. exists (Py.lower value). split; auto.
      symmetry. now apply truthy_words_lower.
    + intros [w [Hw E]]. rewrite E, truthy_words_lower; auto.
Qed.

Lemma C8_boolean_coercion_maybe :
  exists b,
    CSVHandler._convert_data_type Demo.env "maybe" "boolean" = Ok (VBool b) /\
    (b = true <->
     exists w, In w truthy_words /\ Py.lower "maybe" = Py.lower w).
Proof.
  apply C8_boolean_coercion; [reflexivity | discriminate].
Defined.

(** ["maybe"] converts to false, for every installation. *)
Lemma maybe_is_false env :
  CSVHandler._convert_data_type env "maybe" "boolean" = Ok (VBool false).
Proof. reflexivity. Qed.

(** ** Rows shorter than the mapping *)

Lemma index_to_column_In mappings i m :
  CSVHandler.index_to_column mappings i = Some m ->
  In m mappings /\ column_index m = i.
Proof.
  induction mappings as [|m0 ms IH]; simpl; [discriminate|].
  destruct (CSVHandler.index_to_column ms i) as [m'|] eqn:E.
  - intros [= ->]. destruct (IH eq_refl). auto.
  - destruct (Nat.eqb (column_index m0) i) eqn:E'; [|discriminate].
    intros [= ->]. apply Nat.eqb_eq in E'. auto.
Qed.

Section ShortRows.

Variable env : Env.
Variable mappings : list ColumnMapping.
Variable row_num : nat.

(** Fields whose mappings all write columns other than [c] leave [c] as
    it was, and raise no required-field error for [c]. *)
Lemma process_fields_other_columns c :
  forall fields col_idx record,
    (forall i m', col_idx <= i -> i < col_idx + length fields ->
                  CSVHandler.index_to_column mappings i = Some m' ->
                  db_column m' <> c) ->
    (forall n, CSVHandler.process_fields env mappings row_num col_idx
                 fields record <> Raise (RequiredFieldEmpty c n)) /\
    (forall r, CSVHandler.process_fields env mappings row_num col_idx
                 fields record = Ok r ->
               dict_get r c = dict_get record c).
Proof.
  induction fields as [|value rest IH]; intros col_idx record Hcols; simpl.
  - split; [discriminate | now intros r [= <-]].
  - assert (Hrest : forall i m', S col_idx <= i ->
              i < S col_idx + length rest ->
              CSVHandler.index_to_column mappings i = Some m' ->
              db_column m' <> c).
    { intros i m' H1 H2. apply Hcols; simpl; lia. }
    destruct (CSVHandler.index_to_column mappings col_idx) as [mp|] eqn:E.
    + assert (Hmp : db_column mp <> c).
      { apply (Hcols col_idx); simpl; auto; lia. }
      destruct (required mp && String.eqb (Py.strip value) "").
      * split; [|discriminate]. intros n [= H _]. contradiction.
      * destruct (CSVHandler._convert_data_type env value (data_type mp))
          as [v|e].
        -- destruct (IH (S col_idx) (dict_set record (db_column mp) v) Hrest)
             as [IH1 IH2].
           split; auto. intros r Hr. rewrite (IH2 r Hr).
           now apply dict_get_set_neq.
        -- split; discriminate.
    + apply IH, Hrest.
Qed.

(** When every field passes its checks the row is parsed. *)
Lemma process_fields_total :
  forall fields col_idx record,
    (forall i v, nth_error fields i = Some v ->
                 field_parses env mappings (col_idx + i) v = true) ->
    exists r, CSVHandler.process_fields env mappings row_num col_idx
                fields record = Ok r.
Proof.
  induction fields as [|value rest IH]; intros col_idx record Hok; simpl.
  - eauto.
  - assert (Hrest : forall i v, nth_error rest i = Some v ->
              field_parses env mappings (S col_idx + i) v = true).
    { intros i v Hi. replace (S col_idx + i) with (col_idx + S i) by lia.
      now apply Hok. }
    specialize (Hok 0 value eq_refl). rewrite Nat.add_0_r in Hok.
    unfold field_parses in Hok.
    destruct (CSVHandler.index_to_column mappings col_idx) as [mp|].
    + apply andb_prop in Hok. destruct Hok as [H1 H2].
      apply negb_true_iff in H1. rewrite H1.
      destruct (CSVHandler._convert_data_type env value (data_type mp));
        [|discriminate].
      apply IH, Hrest.
    + apply IH, Hrest.
Qed.

(** A row that is parsed had every field pass its checks. *)
Lemma process_fields_parses :
  forall fields col_idx record r,
    CSVHandler.process_fields env mappings row_num col_idx fields record
    = Ok r ->
    forall i v, nth_error fields i = Some v ->
                field_parses env mappings (col_idx + i) v = true.
Proof.
  induction fields as [|value rest IH]; intros col_idx record r; simpl.
  - intros _ [|i] v; discriminate.
  - intros Hrun i v Hi. unfold field_parses.
    destruct i as [|i]; simpl in Hi.
    + injection Hi as <-. rewrite Nat.add_0_r.
      destruct (CSVHandler.index_to_column mappings col_idx) as [mp|];
        [|reflexivity].
      destruct (required mp && String.eqb (Py.strip value) "");
        [discriminate|].
      destruct (CSVHandler._convert_data_type env value (data_type mp));
        [reflexivity | discriminate].
    + replace (col_idx + S i) with (S col_idx + i) by lia.
      destruct (CSVHandler.index_to_column mappings col_idx) as [mp|].
      * destruct (required mp && String.eqb (Py.strip value) "");
          [discriminate|].
        destruct (CSVHandler._convert_data_type env value (data_type mp));
          [|discriminate].
        exact (IH _ _ _ Hrun i v Hi).
      * exact (IH _ _ _ Hrun i v Hi).
Qed.

End ShortRows.

(** C9, counterexample: a row of one blank field is shorter than the
    index of [qty] + 1, and yet its parse raises a required-field error,
    that of [name], and produces no record. *)
Lemma C9_blank_field_of_short_row :
  In {| column_index := 1; db_column := "qty";
        data_type := "integer"; required := true |}
     (column_mappings Demo.orders_mapping) /\
  length [""] < 1 + 1 /\
  CSVHandler.process_row Demo.env (column_mappings Demo.orders_mapping) 4 [""]
  = Raise (RequiredFieldEmpty "name" 4).
Proof. vm_compute. auto. Qed.

(** C9, as amended: a row with fewer fields than a required mapping's
    index + 1 is parsed without any required-field error for the column
    of that mapping, and a record it yields lacks the column: the
    required-field check only runs over the indices present in the row
    (the mappings of those indices being assumed to write other
    columns).  The row does yield a record exactly when the fields that
    are present pass their own checks; when one of them is blank though
    required, or cannot be converted, the parse raises for that
    field. *)
Theorem C9_short_row_skips_required_column :
  forall env mappings row_num row m,
    In m mappings ->
    required m = true ->
    length row <= column_index m ->
    (forall m', In m' mappings -> column_index m' < length row ->
                db_column m' <> db_column m) ->
    (forall n, CSVHandler.process_row env mappings row_num row
               <> Raise (RequiredFieldEmpty (db_column m) n)) /\
    (forall record, CSVHandler.process_row env mappings row_num row = Ok record ->
                    dict_get record (db_column m) = None) /\
    ((forall i v, nth_error row i = Some v ->
                  field_parses env mappings i v = true) <->
     exists record,
       CSVHandler.process_row env mappings row_num row = Ok record /\
       dict_get record (db_column m) = None).
Proof.
  intros env mappings row_num row m Hin Hreq Hlen Hdistinct.
  unfold CSVHandler.process_row.
  assert (Hcols : forall i m', 0 <= i -> i < 0 + length row ->
            CSVHandler.index_to_column mappings i = Some m' ->
            db_column m' <> db_column m).
  { intros i m' _ Hi Hm'. apply index_to_column_In in Hm'.
    destruct Hm' as [Hm' Hidx]. apply Hdistinct; auto. simpl in Hi. lia. }
  destruct (process_fields_other_columns env mappings row_num (db_column m)
              row 0 [] Hcols) as [Hno Hget].
  split; [exact Hno|]. split.
  - intros record Hr. now rewrite (Hget record Hr).
  - split.
    + intros Hok.
      destruct (process_fields_total env mappings row_num row 0 [] Hok)
        as [record Hr].
      exists record. split; [exact Hr|]. now rewrite (Hget record Hr).
    + intros [record [Hr _]] i v Hi.
      exact (process_fields_parses env mappings row_num row 0 [] record Hr
               i v Hi).
Qed.

(** The second row of [in/pair.csv] has one field; [qty], required at
    index 1, is skipped, and the record has no [qty]. *)
Lemma C9_short_row_example :
  (forall n, CSVHandler.process_row Demo.env
               (column_mappings Demo.orders_mapping) 1 ["bob"]
             <> Raise (RequiredFieldEmpty "qty" n)) /\
  exists record,
    CSVHandler.process_row Demo.env
      (column_mappings Demo.orders_mapping) 1 ["bob"] = Ok record /\
    dict_get record "qty" = None.
Proof.
  assert (Hdistinct : forall m',
             In m' (column_mappings Demo.orders_mapping) ->
             column_index m' < length ["bob"] ->
             db_column m' <> "qty").
  { simpl. intros m' [<-|[<-|[]]] H; simpl in *.
    - discriminate.
    - lia. }
  destruct (C9_short_row_skips_required_column Demo.env
              (column_mappings Demo.orders_mapping) 1 ["bob"]
              {| column_index := 1; db_column := "qty";
                 data_type := "integer"; required := true |}
              (or_intror (or_introl eq_refl)) eq_refl (le_n 1) Hdistinct)
    as [Hno [_ Hrecord]].
  split; [exact Hno|]. apply (proj1 Hrecord).
  intros [|[|i]] v Hi; simpl in Hi; try discriminate.
  injection Hi as <-. reflexivity.
Defined.

(** The whole file parses, and the short row has no [qty]. *)
Lemma short_row_file_example :
  CSVHandler.process_csv_file Demo.env "in/pair.csv" "orders"
  = Ok [ [("name", VStr "bob")];
         [("name", VStr "amy"); ("qty", VInt 3)] ].
Proof. reflexivity. Qed.

(** ** Reconciliation against the live schema *)

Lemma column_entries_NoDup cols :
  forall acc, NoDup (dict_keys acc) ->
              NoDup (dict_keys (fold_left DatabaseHandler.column_entry cols acc)).
Proof.
  induction cols as [|col cols IH]; intros acc H; simpl; auto.
  apply IH. unfold DatabaseHandler.column_entry. now apply dict_set_NoDup.
Qed.

Lemma get_table_columns_NoDup env table_name schema :
  DatabaseHandler.get_table_columns env table_name = Ok schema ->
  NoDup (dict_keys schema).
Proof.
  unfold DatabaseHandler.get_table_columns.
  destruct (inspector_columns env table_name); [|discriminate].
  intros [= <-]. apply column_entries_NoDup. constructor.
Qed.

Section Reconciliation.

Variable idx : nat.
Variable record : Row.

Lemma prepare_record_ok :
  forall cols acc p,
    NoDup (dict_keys cols) ->
    DatabaseHandler.prepare_record cols idx record acc = Ok p ->
    (forall c, ~ In c (dict_keys cols) -> dict_get p c = dict_get acc c) /\
    (forall c info, In (c, info) cols ->
       match dict_get record c with
       | Some v => dict_get p c = Some v
       | None =>
           match default info with
           | Some _ => dict_get p c = dict_get acc c
           | None => nullable info = true /\ dict_get p c = Some VNone
           end
       end).
Proof.
  induction cols as [|[name info0] cols IH]; intros acc p Hnd Hp; simpl in *.
  - injection Hp as <-. split; [auto | tauto].
  - inversion Hnd as [|? ? Hnot Hnd']; subst.
    assert (Hstep : forall acc',
               DatabaseHandler.prepare_record cols idx record acc' = Ok p ->
               (forall c, name <> c -> dict_get acc' c = dict_get acc c) ->
               (forall c, ~ (name = c \/ In c (dict_keys cols)) ->
                          dict_get p c = dict_get acc c) /\
               (forall c info, In (c, info) cols ->
                  match dict_get record c with
                  | Some v => dict_get p c = Some v
                  | None =>
                      match default info with
                      | Some _ => dict_get p c = dict_get acc c
                      | None => nullable info = true /\
                                dict_get p c = Some VNone
                      end
                  end)).
    { intros acc' Hp' Hacc'. destruct (IH acc' p Hnd' Hp') as [IH1 IH2].
      split.
      - intros c Hc. rewrite IH1 by tauto. apply Hacc'. tauto.
      - intros c info Hin. specialize (IH2 c info Hin).
        assert (name <> c).
        { intros ->. apply Hnot. unfold dict_keys.
          change c with (fst (c, info)). now apply in_map. }
        destruct (dict_get record c); auto.
        destruct (default info); auto. rewrite IH2. now apply Hacc'. }
    destruct (dict_get record name) as [v|] eqn:Erec.
    + destruct (Hstep _ Hp) as [H1 H2].
      { intros c Hc. now apply dict_get_set_neq. }
      split; [exact H1|]. intros c info [[= <- <-]|Hin]; [|exact (H2 c info Hin)].
      rewrite Erec. destruct (IH _ _ Hnd' Hp) as [IH1 _].
      rewrite IH1 by exact Hnot. apply dict_get_set_eq.
    + destruct (default info0) as [d|] eqn:Edef.
      * destruct (Hstep _ Hp) as [H1 H2]; auto.
        split; [exact H1|]. intros c info [[= <- <-]|Hin]; [|exact (H2 c info Hin)].
        rewrite Erec, Edef. destruct (IH _ _ Hnd' Hp) as [IH1 _].
        now apply IH1.
      * destruct (nullable info0) eqn:Enull; [|discriminate].
        destruct (Hstep _ Hp) as [H1 H2].
        { intros c Hc. now apply dict_get_set_neq. }
        split; [exact H1|]. intros c info [[= <- <-]|Hin]; [|exact (H2 c info Hin)].
        rewrite Erec, Edef, Enull. split; auto.
        destruct (IH _ _ Hnd' Hp) as [IH1 _].
        rewrite IH1 by exact Hnot. apply dict_get_set_eq.
Qed.

Lemma prepare_record_raise :
  forall cols acc e,
    DatabaseHandler.prepare_record cols idx record acc = Raise e ->
    exists entry, In entry cols /\ missing_required record entry = true /\
                  e = MissingRequiredColumn (fst entry) idx.
Proof.
  induction cols as [|[name info0] cols IH]; intros acc e He; simpl in *.
  - discriminate.
  - destruct (dict_get record name) as [v|] eqn:Erec.
    + destruct (IH _ _ He) as [entry [H1 H2]]. eauto.
    + destruct (default info0) as [d|] eqn:Edef.
      * destruct (IH _ _ He) as [entry [H1 H2]]. eauto.
      * destruct (nullable info0) eqn:Enull.
        -- destruct (IH _ _ He) as [entry [H1 H2]]. eauto.
        -- injection He as <-. exists (name, info0).
           unfold missing_required. simpl.
           rewrite Erec, Edef, Enull. auto.
Qed.

Lemma prepare_record_total :
  forall cols acc,
    (forall entry, In entry cols -> missing_required record entry = false) ->
    exists p, DatabaseHandler.prepare_record cols idx record acc = Ok p.
Proof.
  induction cols as [|[name info0] cols IH]; intros acc H; simpl in *.
  - eauto.
  - assert (Hhead := H (name, info0) (or_introl eq_refl)).
    unfold missing_required in Hhead. simpl in Hhead.
    destruct (dict_get record name); [apply IH; auto|].
    destruct (default info0); [apply IH; auto|].
    destruct (nullable info0); [apply IH; auto | discriminate].
Qed.

End Reconciliation.

Lemma prepare_record_reconciled schema idx record p :
  NoDup (dict_keys schema) ->
  DatabaseHandler.prepare_record schema idx record [] = Ok p ->
  reconciled schema record p.
Proof.
  intros Hnd Hp c.
  destruct (prepare_record_ok idx record schema [] p Hnd Hp) as [H1 H2].
  destruct (dict_get schema c) as [info|] eqn:E.
  - apply dict_get_In in E. exact (H2 c info E).
  - apply dict_get_None_not_key in E. now rewrite H1.
Qed.

Lemma prepare_records_reconciled schema :
  NoDup (dict_keys schema) ->
  forall data idx prepared,
    DatabaseHandler.prepare_records schema idx data = Ok prepared ->
    Forall2 (reconciled schema) data prepared.
Proof.
  intros Hnd. induction data as [|record data IH]; intros idx prepared; simpl.
  - intros [= <-]. constructor.
  - destruct (DatabaseHandler.prepare_record schema idx record []) as [p|] eqn:E;
      [|discriminate].
    destruct (DatabaseHandler.prepare_records schema (S idx) data) as [ps|] eqn:E';
      [|discriminate].
    intros [= <-]. constructor; eauto using prepare_record_reconciled.
Qed.

Lemma prepare_records_total schema :
  forall data idx,
    (forall record entry, In record data -> In entry schema ->
                          missing_required record entry = false) ->
    exists prepared,
      DatabaseHandler.prepare_records schema idx data = Ok prepared.
Proof.
  induction data as [|record data IH]; intros idx H; simpl.
  - eauto.
  - destruct (prepare_record_total idx record schema []) as [p Hp].
    { intros entry. apply H. now left. }
    rewrite Hp. destruct (IH (S idx)) as [ps Hps].
    { intros r entry Hr. apply H. now right. }
    rewrite Hps. eauto.
Qed.

Lemma prepare_records_raise schema :
  forall data idx e,
    DatabaseHandler.prepare_records schema idx data = Raise e ->
    exists i record entry,
      nth_error data i = Some record /\ In entry schema /\
      missing_required record entry = true /\
      e = MissingRequiredColumn (fst entry) (idx + i).
Proof.
  induction data as [|record data IH]; intros idx e; simpl.
  - discriminate.
  - destruct (DatabaseHandler.prepare_record schema idx record []) as [p|e0] eqn:E.
    + destruct (DatabaseHandler.prepare_records schema (S idx) data)
        as [ps|e1] eqn:E'; [discriminate|].
      intros [= <-]. destruct (IH _ _ E') as [i [r [entry [H1 [H2 [H3 H4]]]]]].
      exists (S i), r, entry. repeat split; auto.
      rewrite H4. f_equal. lia.
    + intros [= <-].
      destruct (prepare_record_raise _ _ _ _ _ E) as [entry [H1 [H2 H3]]].
      exists 0, record, entry. repeat split; auto.
      now rewrite Nat.add_0_r.
Qed.

Lemma Forall2_In_left {A B} (R : A -> B -> Prop) l l' x :
  Forall2 R l l' -> In x l -> exists y, R x y.
Proof.
  induction 1 as [|a b l l' Hab HF IH]; simpl; [tauto|].
  intros [<-|Hx]; eauto.
Qed.

(** C6: reconciliation against the live schema keeps the value of every
    declared column the row carries, leaves out an absent column that has
    a default, sets an absent nullable column without default to None,
    and drops what the schema does not declare; when some row lacks a
    column that is NOT NULL without default, the load fails with the
    missing-column error of such a row and column, and [insert_data]
    returns it with the world untouched: no statement was sent. *)
Theorem C6_reconciliation :
  forall env table_name schema data,
    DatabaseHandler.get_table_columns env table_name = Ok schema ->
    (forall prepared,
        DatabaseHandler.validate_and_prepare_data env table_name data
        = Ok prepared ->
        Forall2 (reconciled schema) data prepared) /\
    ((forall record entry, In record data -> In entry schema ->
                           missing_required record entry = false) ->
     exists prepared,
       DatabaseHandler.validate_and_prepare_data env table_name data
       = Ok prepared) /\
    (forall record entry,
        In record data -> In entry schema ->
        missing_required record entry = true ->
        exists i r c info,
          nth_error data i = Some r /\ In (c, info) schema /\
          missing_required r (c, info) = true /\
          DatabaseHandler.validate_and_prepare_data env table_name data
          = Raise (MissingRequiredColumn c i) /\
          forall batch_size w,
            DatabaseHandler.insert_data env table_name data batch_size w
            = (Raise (MissingRequiredColumn c i), w)).
Proof.
  intros env table_name schema data Hschema.
  assert (Hnd := get_table_columns_NoDup _ _ _ Hschema).
  assert (Hunfold : data <> [] ->
            DatabaseHandler.validate_and_prepare_data env table_name data
            = DatabaseHandler.prepare_records schema 0 data).
  { unfold DatabaseHandler.validate_and_prepare_data. rewrite Hschema.
    destruct data; [congruence | reflexivity]. }
  split; [|split].
  - intros prepared Hp. destruct data as [|r0 data].
    + simpl in Hp. injection Hp as <-. constructor.
    + rewrite Hunfold in Hp by discriminate.
      eapply prepare_records_reconciled; eauto.
  - intros Hnone. destruct data as [|r0 data].
    + simpl. eauto.
    + rewrite Hunfold by discriminate. now apply prepare_records_total.
  - intros record entry Hin Hentry Hmiss.
    assert (Hne : data <> []) by (destruct data; [contradiction | discriminate]).
    destruct (DatabaseHandler.prepare_records schema 0 data) as [ps|e] eqn:E.
    + exfalso.
      assert (HF := prepare_records_reconciled schema Hnd _ _ _ E).
      destruct (Forall2_In_left _ _ _ _ HF Hin) as [p Hrec].
      revert Hmiss. unfold missing_required. destruct entry as [c info].
      simpl. specialize (Hrec c).
      rewrite (In_dict_get schema c info Hnd Hentry) in Hrec.
      destruct (dict_get record c); [discriminate|].
      destruct (default info); [discriminate|].
      destruct Hrec as [Hnull _]. rewrite Hnull. discriminate.
    + destruct (prepare_records_raise _ _ _ _ E)
        as [i [r [[c info] [H1 [H2 [H3 H4]]]]]].
      simpl in H4. subst e.
      assert (Hraise : DatabaseHandler.validate_and_prepare_data
                         env table_name data
                       = Raise (MissingRequiredColumn c i)).
      { now rewrite Hunfold. }
      exists i, r, c, info.
      split; [exact H1|]. split; [exact H2|]. split; [exact H3|].
      split; [exact Hraise|].
      intros batch_size w. unfold DatabaseHandler.insert_data.
      rewrite Hraise. destruct data; [congruence | reflexivity].
Qed.

(** A row without the NOT NULL column [name] fails the load of
    [orders] before anything is sent. *)
Lemma C6_reconciliation_orders :
  exists i r c info,
    nth_error [[("qty", VInt 1)]] i = Some r /\
    In (c, info) (fold_left DatabaseHandler.column_entry Demo.orders_columns []) /\
    missing_required r (c, info) = true /\
    DatabaseHandler.validate_and_prepare_data Demo.env "orders"
      [[("qty", VInt 1)]] = Raise (MissingRequiredColumn c i) /\
    forall batch_size w,
      DatabaseHandler.insert_data Demo.env "orders" [[("qty", VInt 1)]]
                                  batch_size w
      = (Raise (MissingRequiredColumn c i), w).
Proof.
  apply (proj2 (proj2 (C6_reconciliation Demo.env "orders" _
                         [[("qty", VInt 1)]] eq_refl))
           [("qty", VInt 1)]
           ("name", {| type := "VARCHAR(20)"; nullable := false;
                       default := None |})).
  - simpl. auto.
  - simpl. auto.
  - reflexivity.
Defined.

(** A complete row: the undeclared column is dropped and the absent
    nullable ones are set to None. *)
Lemma reconciliation_example :
  DatabaseHandler.validate_and_prepare_data Demo.env "orders"
    [[("extra", VInt 2); ("name", VStr "a")]]
  = Ok [[("name", VStr "a"); ("qty", VNone); ("load_batch_no", VNone)]].
Proof. reflexivity. Qed.

(** ** Retry *)

Lemma existsb_remove_path x y l :
  existsb (String.eqb x) (remove_path y l)
  = negb (String.eqb y x) && existsb (String.eqb x) l.
Proof.
  unfold remove_path. induction l as [|p l IH]; simpl.
  - now rewrite andb_false_r.
  - destruct (String.eqb y p) eqn:E; simpl.
    + rewrite IH. apply String.eqb_eq in E. subst p.
      rewrite (String.eqb_sym x y).
      destruct (String.eqb y x); simpl; auto.
    + rewrite IH. destruct (String.eqb x p) eqn:E'; simpl.
      * apply String.eqb_eq in E'. subst p. rewrite E. reflexivity.
      * reflexivity.
Qed.

(** What [move_file] leaves when the source exists. *)
Lemma move_file_present source destination w :
  file_exists w source = true ->
  exists w',
    move_file source destination w = (Ok tt, w') /\
    file_exists w' destination = true /\
    (source <> destination -> file_exists w' source = false) /\
    control_table w' = control_table w /\ target w' = target w /\
    trace w' = trace w ++ [EMove source destination true].
Proof.
  intros H. unfold move_file. rewrite H. eexists. split; [reflexivity|].
  unfold file_exists. simpl. rewrite String.eqb_refl. simpl.
  repeat split; auto.
  intros Hne. rewrite !existsb_remove_path.
  rewrite String.eqb_refl. simpl. rewrite andb_false_r.
  destruct (String.eqb source destination) eqn:E; auto.
  apply String.eqb_eq in E. contradiction.
Qed.

Lemma move_file_absent source destination w :
  file_exists w source = false ->
  move_file source destination w
  = (Raise (FileNotFound source),
     log_event (EMove source destination false) w).
Proof. intros H. unfold move_file. now rewrite H. Qed.

Lemma retry_row_cases env sff expired p d w :
  FileProcessor.retry_row env sff expired p d w
  = match move_file (FileProcessor.retry_source env p)
                    (FileProcessor.retry_dest env p) w with
    | (Ok _, w') =>
        let p' := set_status "PENDING_RETRY"
                    (set_file_location (Some "INPUT") (retry_reset sff p)) in
        (p', S d, log_event (ECommit p') w')
    | (Raise _, w') =>
        (retry_reset sff p,
         if negb sff
            && (expired
                || negb (FileProcessor.is_zero (current_batch p)
                         && FileProcessor.is_zero (loaded_rows p)))
         then S d else d,
         w')
    end.
Proof.
  unfold FileProcessor.retry_row, FileProcessor._retry_file, retry_reset.
  destruct sff; simpl;
    unfold bind, try_except, on_world, assign, commit, ret,
      FileProcessor.reset_counters, FileProcessor.get_record; simpl;
    unfold FileProcessor.retry_source, FileProcessor.retry_dest; simpl;
    destruct (move_file _ _ w) as [[[]|e] w']; reflexivity.
Qed.

Lemma retry_row_requeued env sff expired p d w :
  String.eqb (status p) "ERROR" = true ->
  requeued sff p (fst (fst (FileProcessor.retry_row env sff expired p d w))).
Proof.
  intros Herr. unfold requeued. rewrite Herr. rewrite retry_row_cases.
  apply String.eqb_eq in Herr.
  destruct (move_file _ _ w) as [[[]|e] w']; destruct sff; simpl; auto.
Qed.


Lemma retry_each_cons env sff expired p ps ds w :
  FileProcessor.retry_each env sff expired (p :: ps) ds w
  = if String.eqb (status p) "ERROR" then
      let '(p', d', w1) :=
        FileProcessor.retry_row env sff expired p (hd 0 ds) w in
      let '(rest', ds', w2) :=
        FileProcessor.retry_each env sff
          (expired || file_exists w (FileProcessor.retry_source env p))
          ps (tl ds) w1 in
      (p' :: rest', d' :: ds', w2)
    else
      let '(rest', ds', w2) :=
        FileProcessor.retry_each env sff expired ps (tl ds) w in
      (p :: rest', hd 0 ds :: ds', w2).
Proof. reflexivity. Qed.

Lemma retry_each_requeued env sff :
  forall ps expired ds w,
    Forall2 (requeued sff) ps
            (fst (fst (FileProcessor.retry_each env sff expired ps ds w))).
Proof.
  induction ps as [|p ps IH]; intros expired ds w;
    [simpl | rewrite retry_each_cons].
  - constructor.
  - destruct (String.eqb (status p) "ERROR") eqn:E.
    + pose proof (retry_row_requeued env sff expired p (hd 0 ds) w E) as Hp.
      destruct (FileProcessor.retry_row env sff expired p (hd 0 ds) w)
        as [[p' d'] w1].
      specialize (IH (expired
                      || file_exists w (FileProcessor.retry_source env p))
                     (tl ds) w1).
      destruct (FileProcessor.retry_each env sff _ ps (tl ds) w1)
        as [[rest' ds'] w2].
      simpl in *. constructor; auto.
    + specialize (IH expired (tl ds) w).
      destruct (FileProcessor.retry_each env sff expired ps (tl ds) w)
        as [[rest' ds'] w2].
      simpl in *. constructor; auto.
      unfold requeued. now rewrite E.
Qed.


Lemma retry_failed_files_table env sff w :
  control_table (FileProcessor.retry_failed_files env sff w)
  = fst (fst (FileProcessor.retry_each env sff false (control_table w)
                (modified_dates w) w)) /\
  modified_dates (FileProcessor.retry_failed_files env sff w)
  = snd (fst (FileProcessor.retry_each env sff false (control_table w)
                (modified_dates w) w)).
Proof.
  unfold FileProcessor.retry_failed_files.
  now destruct (FileProcessor.retry_each env sff false (control_table w)
                  (modified_dates w) w) as [[t d] w'].
Qed.

Lemma retry_each_moves env sff :
  forall ps expired ds w,
    exists delta,
      trace (snd (FileProcessor.retry_each env sff expired ps ds w))
      = trace w ++ delta /\
      moves delta
      = map (fun p => (FileProcessor.retry_source env p,
                       FileProcessor.retry_dest env p))
            (filter is_error_row ps).
Proof.
  induction ps as [|p ps IH]; intros expired ds w;
    [simpl | rewrite retry_each_cons; cbn [filter]; unfold is_error_row at 1].
  - exists []. now rewrite app_nil_r.
  - destruct (String.eqb (status p) "ERROR") eqn:E.
    + assert (Hrow : exists d1,
                 trace (snd (FileProcessor.retry_row env sff expired p
                               (hd 0 ds) w))
                 = trace w ++ d1 /\
                 moves d1 = [(FileProcessor.retry_source env p,
                              FileProcessor.retry_dest env p)]).
      { rewrite retry_row_cases. unfold move_file.
        destruct (file_exists w _); simpl; eexists; split;
          try (rewrite <- app_assoc; reflexivity); reflexivity. }
      destruct Hrow as [d1 [Ht1 Hm1]].
      destruct (FileProcessor.retry_row env sff expired p (hd 0 ds) w)
        as [[p' d'] w1].
      destruct (IH (expired
                    || file_exists w (FileProcessor.retry_source env p))
                   (tl ds) w1) as [d2 [Ht2 Hm2]].
      destruct (FileProcessor.retry_each env sff _ ps (tl ds) w1)
        as [[rest' ds'] w2].
      simpl in *. exists (d1 ++ d2). split.
      * now rewrite Ht2, Ht1, app_assoc.
      * unfold moves in *. now rewrite flat_map_app, Hm1, Hm2.
    + destruct (IH expired (tl ds) w) as [d2 [Ht2 Hm2]].
      destruct (FileProcessor.retry_each env sff expired ps (tl ds) w)
        as [[rest' ds'] w2].
      simpl in *. eauto.
Qed.








(** C4, the failing input: the ledger holds the ERROR record of
    [bad.csv], and the file is where [_handle_error] puts the file of a
    failed attempt, under its dated name.  The retry looks for the file
    under its plain name, [error/bad.csv], finds nothing to move and
    swallows the error: the file stays in the error folder and the
    record stays ERROR in location ERROR, with its counters zeroed. *)
Lemma C4_retry_leaves_error_record :
  let w' := FileProcessor.retry_failed_files Demo.env false error_world in
  FileProcessor.error_path Demo.env "bad.csv" = "error/20240131_bad.csv" /\
  FileProcessor.retry_source Demo.env failed_record = "error/bad.csv" /\
  map status (control_table error_world) = ["ERROR"] /\
  files error_world = ["error/20240131_bad.csv"] /\
  map status (control_table w') = ["ERROR"] /\
  map file_location (control_table w') = [Some "ERROR"] /\
  map current_batch (control_table w') = [Some 0] /\
  map loaded_rows (control_table w') = [Some 0] /\
  files w' = files error_world /\
  moves (trace w') = [("error/bad.csv", "in/bad.csv")] /\
  ~ Forall (fun p => status p = "PENDING_RETRY" /\
                     file_location p = Some "INPUT") (control_table w').
Proof.
  vm_compute. repeat split; try reflexivity.
  intros H. inversion H as [|p l [Hs _] _]. discriminate.
Qed.

(** C4, what the code does: a retry from scratch goes through exactly
    the ERROR records, attempting for each, in order, the move of
    error_folder/file_name to input_folder/file_name, and leaves every
    other record alone; each ERROR record gets current_batch = 0 and
    loaded_rows = 0; when a file is where the move looks for it, it goes
    to the input location and the record is left with file_location =
    INPUT and status = PENDING_RETRY; when it is not (as for every file
    that [_handle_error] has filed, under its dated name), the move
    fails, the error is swallowed, and status and file_location stay as
    they were. *)
Theorem C4_retry_from_scratch :
  forall env w,
    Forall2 (requeued false) (control_table w)
            (control_table (FileProcessor.retry_failed_files env false w)) /\
    (exists delta,
        trace (FileProcessor.retry_failed_files env false w)
        = trace w ++ delta /\
        moves delta
        = map (fun p => (FileProcessor.retry_source env p,
                         FileProcessor.retry_dest env p))
              (filter is_error_row (control_table w))) /\
    (forall process expired date w0,
        file_exists w0 (FileProcessor.retry_source env process) = true ->
        let p' := fst (fst (FileProcessor.retry_row env false expired
                              process date w0)) in
        let w1 := snd (FileProcessor.retry_row env false expired
                         process date w0) in
        status p' = "PENDING_RETRY" /\ file_location p' = Some "INPUT" /\
        current_batch p' = Some 0 /\ loaded_rows p' = Some 0 /\
        file_exists w1 (FileProcessor.retry_dest env process) = true /\
        (FileProcessor.retry_source env process
         <> FileProcessor.retry_dest env process ->
         file_exists w1 (FileProcessor.retry_source env process) = false)) /\
    (forall process expired date w0,
        file_exists w0 (FileProcessor.retry_source env process) = false ->
        let p' := fst (fst (FileProcessor.retry_row env false expired
                              process date w0)) in
        let w1 := snd (FileProcessor.retry_row env false expired
                         process date w0) in
        status p' = status process /\
        file_location p' = file_location process /\
        current_batch p' = Some 0 /\ loaded_rows p' = Some 0 /\
        files w1 = files w0).
Proof.
  intros env w. split; [|split; [|split]].
  - rewrite (proj1 (retry_failed_files_table env false w)).
    apply retry_each_requeued.
  - destruct (retry_each_moves env false (control_table w) false
                (modified_dates w) w) as [delta [Ht Hm]].
    exists delta. split; auto.
    unfold FileProcessor.retry_failed_files.
    destruct (FileProcessor.retry_each env false false (control_table w)
                (modified_dates w) w) as [[t d] w'].
    exact Ht.
  - intros process expired date w0 Hsrc p' w1. subst p' w1.
    rewrite retry_row_cases.
    destruct (move_file_present _ (FileProcessor.retry_dest env process)
                                _ Hsrc) as [w' [Hmv [Hdst [Hgone _]]]].
    rewrite Hmv. simpl. repeat split; auto.
  - intros process expired date w0 Hsrc p' w1. subst p' w1.
    rewrite retry_row_cases.
    rewrite move_file_absent by exact Hsrc. simpl. repeat split.
Qed.

(** The failing input, record by record: the file of [failed_record] is
    not under its plain name, and the record stays ERROR. *)
Lemma C4_retry_from_scratch_example :
  let p' := fst (fst (FileProcessor.retry_row Demo.env false false
                        failed_record 3 error_world)) in
  let w1 := snd (FileProcessor.retry_row Demo.env false false
                   failed_record 3 error_world) in
  status p' = "ERROR" /\
  file_location p' = Some "ERROR" /\
  current_batch p' = Some 0 /\ loaded_rows p' = Some 0 /\
  files w1 = ["error/20240131_bad.csv"].
Proof.
  exact (proj2 (proj2 (proj2 (C4_retry_from_scratch Demo.env Demo.world0)))
               failed_record false 3 error_world eq_refl).
Defined.

(** ** Loading in chunks *)

Lemma same_but_progress_refl r : same_but_progress r r.
Proof. unfold same_but_progress. repeat split. Qed.

Lemma same_but_progress_trans r1 r2 r3 :
  same_but_progress r1 r2 -> same_but_progress r2 r3 ->
  same_but_progress r1 r3.
Proof. unfold same_but_progress. intuition congruence. Qed.

Lemma slice_length {A} (l : list A) i bs :
  length (Py.slice l i (i + bs)) = Nat.min bs (length l - i).
Proof.
  unfold Py.slice. rewrite length_firstn, length_skipn.
  replace (i + bs - i) with bs by lia. reflexivity.
Qed.

Lemma range_step_single len bs :
  0 < len -> len <= bs -> Py.range_step len bs = [0].
Proof.
  intros H1 H2. unfold Py.range_step.
  replace ((len + bs - 1) / bs) with 1; [reflexivity|].
  apply (Nat.div_unique _ _ 1 (len - 1)); lia.
Qed.

Lemma range_step_chunks len bs :
  0 < bs ->
  exists c, Py.range_step len bs = map (fun j => j * bs) (seq 0 c) /\
            c * bs < len + bs /\ len <= c * bs.
Proof.
  intros Hbs. exists ((len + bs - 1) / bs). split; [reflexivity|].
  pose proof (Nat.div_mod_eq (len + bs - 1) bs) as Hdm.
  pose proof (Nat.mod_upper_bound (len + bs - 1) bs) as Hmod.
  rewrite (Nat.mul_comm bs) in Hdm. lia.
Qed.

Lemma prepare_records_length cols :
  forall data idx prepared,
    DatabaseHandler.prepare_records cols idx data = Ok prepared ->
    length prepared = length data.
Proof.
  induction data as [|r data IH]; intros idx prepared; simpl.
  - now intros [= <-].
  - destruct (DatabaseHandler.prepare_record cols idx r []); [|discriminate].
    destruct (DatabaseHandler.prepare_records cols (S idx) data) eqn:E;
      [|discriminate].
    intros [= <-]. simpl. f_equal. eauto.
Qed.

Lemma validate_and_prepare_length env table_name data prepared :
  DatabaseHandler.validate_and_prepare_data env table_name data = Ok prepared ->
  length prepared = length data.
Proof.
  unfold DatabaseHandler.validate_and_prepare_data.
  destruct data as [|r data]; [now intros [= <-]|].
  destruct (DatabaseHandler.get_table_columns env table_name); [|discriminate].
  apply prepare_records_length.
Qed.

(** One chunk through [insert_data]: everything or nothing, with at most
    one statement sent. *)
Lemma insert_data_chunk env table_name data bs w r w' :
  0 < bs -> length data <= bs ->
  DatabaseHandler.insert_data env table_name data (Z.of_nat bs) w = (r, w') ->
  files w' = files w /\ control_table w' = control_table w /\
  modified_dates w' = modified_dates w /\
  exists tr,
    trace w' = trace w ++ tr /\ forallb is_execute tr = true /\
    match r with
    | Ok _ =>
        (data = [] /\ tr = [] \/ data <> [] /\ executions tr = [true]) /\
        length (target w') = length (target w) + length data
    | Raise _ =>
        data <> [] /\ target w' = target w /\
        (executions tr = [] \/ executions tr = [false])
    end.
Proof.
  intros Hbs Hlen. unfold DatabaseHandler.insert_data.
  destruct data as [|r0 data'] eqn:Edata.
  - intros [= <- <-]. repeat split; auto. exists [].
    rewrite app_nil_r. repeat split; auto.
  - rewrite <- Edata in *.
    assert (Hne : data <> []) by (rewrite Edata; discriminate).
    destruct (DatabaseHandler.validate_and_prepare_data env table_name data)
      as [prepared|e] eqn:Eprep.
    + apply validate_and_prepare_length in Eprep.
      replace ((Z.of_nat bs =? 0)%Z) with false
        by (symmetry; apply Z.eqb_neq; lia).
      replace ((Z.of_nat bs <? 0)%Z) with false
        by (symmetry; apply Z.ltb_ge; lia).
      cbv zeta. rewrite Nat2Z.id.
      assert (Hpos : 0 < length data) by (rewrite Edata; simpl; lia).
      rewrite range_step_single by assumption.
      cbn [DatabaseHandler.execute_batches].
      set (batch := Py.slice prepared 0 (0 + bs)).
      assert (Hbatch : length batch = length data).
      { unfold batch. rewrite slice_length. lia. }
      destruct (db_accepts env (target w) table_name batch).
      * intros [= <- <-]. cbn [files control_table modified_dates target trace].
        repeat split; auto.
        exists [EExecute table_name batch true]. repeat split; auto.
        rewrite length_app, length_map. lia.
      * intros [= <- <-]. cbn [files control_table modified_dates target trace].
        repeat split; auto.
        exists [EExecute table_name batch false]. repeat split; auto.
    + intros [= <- <-]. repeat split; auto. exists [].
      rewrite app_nil_r. repeat split; auto.
Qed.

Lemma written_record r w s : control_record (written r w s) = r.
Proof.
  unfold written, commit. cbn.
  destruct (attached s); [destruct (persisted s)|]; reflexivity.
Qed.

Lemma written_world r w s : world (written r w s) = log_event (ECommit r) w.
Proof.
  unfold written, commit. cbn.
  destruct (attached s); [destruct (persisted s)|]; reflexivity.
Qed.

Lemma written_held r w s :
  holds_row s -> written r w s = updated r (log_event (ECommit r) w) s.
Proof.
  intros [Ha Hp]. unfold written, commit, updated, has_row in *. cbn.
  rewrite Ha. destruct (persisted s); [reflexivity | discriminate].
Qed.

Section BatchLoop.

Variable env : Env.
Variable bs : nat.
Variable df : DataFrame.
Variable table_name : string.
Hypothesis bs_positive : 0 < bs.

Lemma process_batch_unfold i total s :
  FileProcessor.process_batch env bs df table_name i total s
  = let b := i / bs + 1 in
    let cr1 := set_current_batch (Some b) (control_record s) in
    let w1 := log_event (ECommit cr1) (world s) in
    let batch_df := Py.slice (rows df) i (i + bs) in
    match DatabaseHandler.insert_data env table_name
            (FileProcessor.to_dict_records (columns df) batch_df)
            (Z.of_nat bs) w1 with
    | (Ok _, w2) =>
        let total' := total + length batch_df in
        let cr2 := set_loaded_rows (Some total') cr1 in
        (Ok total', written cr2 w2 (written cr1 (world s) s))
    | (Raise e, w2) =>
        (Raise (BatchError b e),
         with_world (fun _ => w2) (written cr1 (world s) s))
    end.
Proof.
  unfold FileProcessor.process_batch, try_except, bind, assign, commit,
    on_world, ret, raise, written, with_world.
  cbn [control_record persisted modified_date attached pending world].
  destruct (attached s); [destruct (persisted s) as [row|]|];
    cbn [snd control_record persisted modified_date attached pending world];
    destruct (DatabaseHandler.insert_data env table_name _ (Z.of_nat bs) _)
      as [[[]|e] w2]; reflexivity.
Qed.

(** One chunk of the loop, starting at row [i]. *)
Lemma process_batch_run i total s r s' :
  i < length (rows df) ->
  FileProcessor.process_batch env bs df table_name i total s = (r, s') ->
  (holds_row s ->
   holds_row s' /\ persisted s' = Some (control_record s')) /\
  modified_dates (world s') = modified_dates (world s) /\
  files (world s') = files (world s) /\
  control_table (world s') = control_table (world s) /\
  same_but_progress (control_record s) (control_record s') /\
  current_batch (control_record s') = Some (i / bs + 1) /\
  exists delta,
    trace (world s') = trace (world s) ++ delta /\
    forallb load_event delta = true /\
    match r with
    | Ok total' =>
        total' = total + Nat.min bs (length (rows df) - i) /\
        loaded_rows (control_record s') = Some total' /\
        committed_batches delta = [i / bs + 1; i / bs + 1] /\
        executions delta = [true] /\
        length (target (world s'))
        = length (target (world s)) + Nat.min bs (length (rows df) - i)
    | Raise e =>
        (exists cause, e = BatchError (i / bs + 1) cause) /\
        loaded_rows (control_record s') = loaded_rows (control_record s) /\
        committed_batches delta = [i / bs + 1] /\
        (executions delta = [] \/ executions delta = [false]) /\
        target (world s') = target (world s)
    end.
Proof.
  intros Hi. rewrite process_batch_unfold. cbv zeta.
  set (b := i / bs + 1).
  set (cr1 := set_current_batch (Some b) (control_record s)).
  set (batch_df := Py.slice (rows df) i (i + bs)).
  set (data := FileProcessor.to_dict_records (columns df) batch_df).
  assert (Hlen : length data = Nat.min bs (length (rows df) - i)).
  { unfold data, FileProcessor.to_dict_records, batch_df.
    now rewrite length_map, slice_length. }
  assert (Hdata : data <> []).
  { intros E. rewrite E in Hlen. simpl in Hlen. lia. }
  destruct (DatabaseHandler.insert_data env table_name data (Z.of_nat bs)
              (log_event (ECommit cr1) (world s))) as [res w2] eqn:Eins.
  apply insert_data_chunk in Eins; [|assumption|lia].
  destruct Eins as [Hf [Hc [Hmd [tr [Htr [Hex Hres]]]]]].
  cbn [files control_table modified_dates trace log_event] in Hf, Hc, Hmd, Htr.
  assert (Hload : forallb load_event tr = true).
  { clear - Hex. induction tr as [|e tr IH]; simpl in *; auto.
    apply andb_prop in Hex. destruct Hex as [H1 H2].
    unfold load_event. rewrite H1, orb_true_r. auto. }
  assert (Hcomm : committed_batches tr = []).
  { clear - Hex. induction tr as [|e tr IH]; simpl in *; auto.
    apply andb_prop in Hex. destruct Hex as [H1 H2].
    destruct e; try discriminate. simpl. auto. }
  destruct res as [[]|e]; intros [= <- <-];
    (split;
     [intros Hs; rewrite (written_held _ _ s Hs);
      rewrite ?written_held by (split; reflexivity);
      repeat split; reflexivity|]);
    cbn [with_world control_record world];
    rewrite ?written_record, ?written_world;
    cbn [files control_table modified_dates trace log_event target].
  - destruct Hres as [[[E _]|[_ Hexec]] Htarget]; [contradiction|].
    repeat split; auto.
    exists (ECommit cr1 :: tr ++ [ECommit (set_loaded_rows
              (Some (total + length batch_df)) cr1)]).
    assert (Hbatch : length batch_df = Nat.min bs (length (rows df) - i)).
    { unfold batch_df. apply slice_length. }
    split; [rewrite Htr, <- !app_assoc; reflexivity|].
    split; [simpl; rewrite forallb_app, Hload; reflexivity|].
    split; [lia|]. split; [simpl; now rewrite Hbatch|].
    split.
    { unfold committed_batches in *. simpl.
      rewrite flat_map_app, Hcomm. reflexivity. }
    split.
    { unfold executions in *. simpl.
      rewrite flat_map_app, Hexec. reflexivity. }
    simpl in Htarget. lia.
  - destruct Hres as [_ [Htarget Hexec]].
    repeat split; auto.
    exists (ECommit cr1 :: tr).
    split; [rewrite Htr, <- app_assoc; reflexivity|].
    split; [simpl; exact Hload|].
    split; [eauto|]. split; [reflexivity|].
    split; [unfold committed_batches in *; simpl; now rewrite Hcomm|].
    split; [exact Hexec | exact Htarget].
Qed.

(** The loop over the chunks [a, a+1, .., a+len-1]; [total] rows are
    loaded when it starts. *)
Lemma batches_loop_run :
  forall len a total s r s',
    (a + len) * bs < length (rows df) + bs ->
    total = Nat.min (a * bs) (length (rows df)) ->
    FileProcessor.batches_loop env bs df table_name
      (map (fun j => j * bs) (seq a len)) total s = (r, s') ->
    (holds_row s -> holds_row s') /\
    modified_dates (world s') = modified_dates (world s) /\
    files (world s') = files (world s) /\
    control_table (world s') = control_table (world s) /\
    same_but_progress (control_record s) (control_record s') /\
    exists delta,
      trace (world s') = trace (world s) ++ delta /\
      forallb load_event delta = true /\
      match r with
      | Ok _ =>
          committed_batches delta = chunk_commits a len /\
          executions delta = repeat true len /\
          length (target (world s')) + total
          = length (target (world s))
            + Nat.min ((a + len) * bs) (length (rows df)) /\
          match len with
          | 0 => s' = s
          | S _ =>
              current_batch (control_record s') = Some (a + len) /\
              loaded_rows (control_record s')
              = Some (Nat.min ((a + len) * bs) (length (rows df))) /\
              (holds_row s -> persisted s' = Some (control_record s'))
          end
      | Raise e =>
          exists m cause,
            m < len /\ e = BatchError (a + m + 1) cause /\
            committed_batches delta = chunk_commits a m ++ [a + m + 1] /\
            (executions delta = repeat true m \/
             executions delta = repeat true m ++ [false]) /\
            length (target (world s')) + total
            = length (target (world s)) + (a + m) * bs /\
            current_batch (control_record s') = Some (a + m + 1) /\
            loaded_rows (control_record s')
            = match m with
              | 0 => loaded_rows (control_record s)
              | S _ => Some ((a + m) * bs)
              end /\
            (holds_row s -> persisted s' = Some (control_record s'))
      end.
Proof.
  induction len as [|len IH]; intros a total s r s' Hbound Htotal.
  - simpl. intros [= <- <-].
    split; [auto|]. repeat split; auto using same_but_progress_refl.
    exists []. rewrite app_nil_r. repeat split; auto.
    rewrite Nat.add_0_r. lia.
  - cbn [seq map FileProcessor.batches_loop]. unfold bind at 1.
    assert (Hi : a * bs < length (rows df)) by nia.
    assert (Hdiv : a * bs / bs + 1 = a + 1).
    { rewrite Nat.div_mul by lia. reflexivity. }
    destruct (FileProcessor.process_batch env bs df table_name (a * bs) total s)
      as [r1 s1] eqn:E1.
    apply process_batch_run in E1; [|exact Hi].
    rewrite Hdiv in E1.
    destruct E1
      as [Hs1 [Hmd1 [Hf1 [Hc1 [Hsame1 [Hcb1 [d1 [Ht1 [Hl1 Hr1]]]]]]]]].
    destruct r1 as [total'|e1].
    + destruct Hr1 as [Htot' [Hlr1 [Hcomm1 [Hex1 Htgt1]]]].
      intros Hrest.
      apply IH in Hrest; [| nia | nia].
      destruct Hrest as [Hs2 [Hmd2 [Hf2 [Hc2 [Hsame2 [d2 [Ht2 [Hl2 Hr2]]]]]]]].
      split; [intros Hs; apply Hs2, Hs1, Hs|]. split; [congruence|].
      split; [congruence|]. split; [congruence|].
      split; [eapply same_but_progress_trans; eauto|].
      exists (d1 ++ d2).
      split; [rewrite Ht2, Ht1, app_assoc; reflexivity|].
      split; [rewrite forallb_app, Hl1, Hl2; reflexivity|].
      assert (Hshift : S a + len = a + S len) by lia.
      destruct r as [[]|e].
      * destruct Hr2 as [Hcomm2 [Hex2 [Htgt2 Hfin]]].
        split.
        { unfold committed_batches in *. rewrite flat_map_app, Hcomm1, Hcomm2.
          reflexivity. }
        split.
        { unfold executions in *. rewrite flat_map_app, Hex1, Hex2.
          reflexivity. }
        rewrite Hshift in *.
        split; [nia|].
        destruct len as [|len'].
        -- subst s'. rewrite Hcb1, Hlr1.
           repeat split; try (f_equal; nia). intros Hs. apply Hs1, Hs.
        -- destruct Hfin as [H1 [H2 H3]]. repeat split; auto.
           intros Hs. apply H3, Hs1, Hs.
      * destruct Hr2 as [m [cause [Hm [He [Hcomm2 [Hex2 [Htgt2 [Hcb2 [Hlr2 Hp2]]]]]]]]].
        exists (S m), cause.
        replace (a + S m + 1) with (S a + m + 1) by lia.
        replace (a + S m) with (S a + m) by lia.
        split; [lia|]. split; [exact He|].
        split.
        { unfold committed_batches in *. rewrite flat_map_app, Hcomm1, Hcomm2.
          unfold chunk_commits. cbn [seq flat_map]. now rewrite <- app_assoc. }
        split.
        { unfold executions in *. rewrite !flat_map_app, Hex1.
          destruct Hex2 as [-> | ->]; [left | right]; reflexivity. }
        split; [nia|]. split; [exact Hcb2|].
        split; [|intros Hs; apply Hp2, Hs1, Hs].
        rewrite Hlr2. destruct m as [|m']; [|reflexivity].
        rewrite Hlr1. f_equal. nia.
    + intros [= <- <-].
      destruct Hr1 as [[cause He] [Hlr1 [Hcomm1 [Hex1 Htgt1]]]].
      split; [intros Hs; apply Hs1, Hs|]. split; [exact Hmd1|].
      split; [exact Hf1|]. split; [exact Hc1|]. split; [exact Hsame1|].
      exists d1. split; [exact Ht1|]. split; [exact Hl1|].
      exists 0, cause. rewrite !Nat.add_0_r.
      split; [lia|]. split; [exact He|]. split; [exact Hcomm1|].
      split; [exact Hex1|]. split; [rewrite Htgt1; lia|].
      split; [exact Hcb1|]. split; [exact Hlr1|].
      intros Hs. apply Hs1, Hs.
Qed.

End BatchLoop.

(** ** One attempt *)

Section Attempt.

Variable env : Env.
Variable file_path : string.
Variable pattern_config : PatternConfig.

Lemma rolled_back_clean s :
  persisted s = Some (control_record s) ->
  control_record (rolled_back s) = control_record s /\
  persisted (rolled_back s) = persisted s /\
  modified_date (rolled_back s) = modified_date s /\
  world (rolled_back s) = world s.
Proof.
  intros Hp. unfold rolled_back, FileProcessor.close, FileProcessor.rollback.
  destruct (attached s); cbn; rewrite ?Hp; auto.
Qed.

Lemma handle_error_present e s :
  file_exists (world s) file_path = true ->
  FileProcessor._handle_error env file_path (Py.basename file_path) e s
  = (Ok tt,
     let re := error_record e (control_record s) in
     {| control_record := re; persisted := persisted s;
        modified_date := modified_date s; attached := false;
        pending := true;
        world := log_event (ECommit re) (log_event (ECommit re)
                   (log_event
                      (EMove file_path
                         (FileProcessor.error_path env (Py.basename file_path))
                         true)
                      (set_files
                         (FileProcessor.error_path env (Py.basename file_path)
                          :: remove_path
                               (FileProcessor.error_path env
                                  (Py.basename file_path))
                               (remove_path file_path (files (world s))))
                         (world s)))) |}).
Proof.
  intros H.
  unfold FileProcessor._handle_error, FileProcessor.session_scope,
    FileProcessor.new_session, FileProcessor.close,
    try_except, bind, assign, commit, on_world, ret, raise, move_file.
  cbn [control_record persisted modified_date attached pending world].
  rewrite H. reflexivity.
Qed.

Lemma handle_error_absent e s :
  file_exists (world s) file_path = false ->
  FileProcessor._handle_error env file_path (Py.basename file_path) e s
  = (Ok tt,
     {| control_record := set_error_message (Some e)
                            (set_status "ERROR" (control_record s));
        persisted := persisted s;
        modified_date := modified_date s; attached := false;
        pending := true;
        world := log_event
                   (EMove file_path
                      (FileProcessor.error_path env (Py.basename file_path))
                      false) (world s) |}).
Proof.
  intros H.
  unfold FileProcessor._handle_error, FileProcessor.session_scope,
    FileProcessor.new_session, FileProcessor.close,
    try_except, bind, assign, commit, on_world, ret, raise, move_file,
    FileProcessor.rollback.
  cbn [control_record persisted modified_date attached pending world].
  rewrite H. reflexivity.
Qed.

Lemma archive_file_present s :
  holds_row s ->
  file_exists (world s) file_path = true ->
  FileProcessor._archive_file env file_path (Py.basename file_path) s
  = (Ok tt,
     let rs := success_record (control_record s) in
     updated rs
       (log_event (ECommit rs)
          (log_event
             (EMove file_path
                (FileProcessor.archive_path env (Py.basename file_path)) true)
             (set_files
                (FileProcessor.archive_path env (Py.basename file_path)
                 :: remove_path
                      (FileProcessor.archive_path env (Py.basename file_path))
                      (remove_path file_path (files (world s))))
                (world s)))) s).
Proof.
  intros [Ha Hp] H.
  unfold FileProcessor._archive_file, bind, assign, commit, on_world,
    move_file, updated.
  cbn [control_record persisted modified_date attached pending world].
  rewrite H, Ha. unfold has_row in Hp.
  destruct (persisted s); [reflexivity | discriminate].
Qed.

Lemma archive_file_absent s :
  file_exists (world s) file_path = false ->
  FileProcessor._archive_file env file_path (Py.basename file_path) s
  = (Raise (FileNotFound file_path),
     with_world
       (log_event
          (EMove file_path
             (FileProcessor.archive_path env (Py.basename file_path)) false))
       s).
Proof.
  intros H.
  unfold FileProcessor._archive_file, bind, assign, commit, on_world,
    move_file, with_world.
  cbn [control_record persisted modified_date attached pending world].
  rewrite H. reflexivity.
Qed.

Lemma closed_updated r w s :
  closed (updated r w s)
  = {| control_record := r; persisted := Some r;
       modified_date := S (modified_date s); attached := false;
       pending := false; world := log_event (ECommit r) w |}.
Proof. reflexivity. Qed.

(** The control flow of [process_file], stage by stage. *)
Lemma process_file_body_unfold s0 :
  persisted s0 = None ->
  FileProcessor.process_file_body env file_path pattern_config s0
  = let r0 := control_record s0 in
    let r1 := set_status "IN_PROGRESS" r0 in
    let w2 := log_event (ECommit r1) (log_event (ECommit r0) (world s0)) in
    let s2 := updated r1 w2 s0 in
    let file_type := FileProcessor.file_type_of file_path in
    match read_file env file_path file_type
            (FileProcessor.options_of pattern_config file_type) w2 with
    | (Raise e, _) => fail env file_path e s2
    | (Ok df, _) =>
        let r2 := set_total_rows (Some (length (rows df))) r1 in
        let w3 := log_event (EValidate (table pattern_config) df)
                    (log_event (ECommit r2) w2) in
        let s3 := updated r2 w3 s2 in
        match DataValidator.validate_data env df (table pattern_config) with
        | Raise e => fail env file_path e s3
        | Ok vr =>
            if negb (DataValidator.is_valid vr) then
              fail env file_path (DataValidationFailed (DataValidator.errors vr)) s3
            else
              match FileProcessor._process_batches env
                      (FileProcessor._add_metadata_columns df (process_id r2))
                      (table pattern_config) s3 with
              | (Raise e, s4) => fail env file_path e s4
              | (Ok _, s4) =>
                  match FileProcessor._archive_file env file_path
                          (Py.basename file_path) s4 with
                  | (Raise e, s5) => fail env file_path e s5
                  | (Ok _, s5) => (Ok tt, closed s5)
                  end
              end
        end
    end.
Proof.
  intros Hnone.
  unfold FileProcessor.process_file_body, FileProcessor.session_scope,
    FileProcessor._process_file_content, fail, rolled_back, closed, updated.
  unfold try_except at 1 2. unfold bind at 1 2 3 4 5 6 7.
  unfold FileProcessor.new_session at 1, add at 1.
  unfold commit at 1 2, assign at 1.
  cbn [control_record persisted modified_date attached pending world].
  rewrite Hnone.
  cbn [control_record persisted modified_date attached pending world].
  unfold bind at 1. unfold on_world at 1.
  cbn [control_record persisted modified_date attached pending world].
  unfold read_file.
  destruct (file_exists _ file_path);
    [destruct (read_frame env file_path _ _) as [df|e]|];
    cbn [fst snd]; try reflexivity.
  unfold bind, assign, commit, log, lift, raise, ret, with_world,
    FileProcessor.get_record.
  cbn [control_record persisted modified_date attached pending world].
  destruct (DataValidator.validate_data env df (table pattern_config))
    as [vr|e]; [|reflexivity].
  destruct (negb (DataValidator.is_valid vr)); [reflexivity|].
  cbn [process_id set_total_rows set_status].
  destruct (FileProcessor._process_batches env _ (table pattern_config) _)
    as [[[]|e] s4]; [|reflexivity].
  destruct (FileProcessor._archive_file env file_path _ s4)
    as [[[]|e] s5]; reflexivity.
Qed.


Lemma error_record_batches e r :
  current_batch (error_record e r) = current_batch r /\
  loaded_rows (error_record e r) = loaded_rows r /\
  total_rows (error_record e r) = total_rows r.
Proof. repeat split. Qed.

(** The error path of [process_file], from a session whose record is
    committed: the row stays as it is. *)
Lemma fail_run e s :
  persisted s = Some (control_record s) ->
  exists s',
    fail env file_path e s = (Ok tt, s') /\
    control_table (world s') = control_table (world s) /\
    modified_dates (world s') = modified_dates (world s) /\
    target (world s') = target (world s) /\
    persisted s' = persisted s /\
    modified_date s' = modified_date s /\
    (exists delta,
        trace (world s') = trace (world s) ++ delta /\
        forallb ledger_or_move delta = true /\
        Forall (fun x => current_batch (control_record s) = Some x)
               (committed_batches delta)) /\
    (file_exists (world s) file_path = true ->
     control_record s' = error_record e (control_record s) /\
     file_exists (world s')
       (FileProcessor.error_path env (Py.basename file_path)) = true).
Proof.
  intros Hp. unfold fail.
  destruct (rolled_back_clean s Hp) as [Hr [Hpr [Hm Hw]]].
  destruct (file_exists (world s) file_path) eqn:E.
  - rewrite handle_error_present by (rewrite Hw; exact E).
    eexists. split; [reflexivity|]. cbv zeta.
    cbn [control_record persisted modified_date world control_table
         modified_dates target trace files log_event set_files].
    rewrite Hr, Hpr, Hm, Hw.
    split; [reflexivity|]. split; [reflexivity|]. split; [reflexivity|].
    split; [reflexivity|]. split; [reflexivity|].
    split.
    + eexists. split; [rewrite <- !app_assoc; reflexivity|].
      split; [reflexivity|].
      unfold committed_batches. simpl.
      destruct (current_batch (control_record s)); simpl; auto.
    + intros _. split; [reflexivity|].
      unfold file_exists. simpl. now rewrite String.eqb_refl.
  - rewrite handle_error_absent by (rewrite Hw; exact E).
    eexists. split; [reflexivity|].
    cbn [control_record persisted modified_date world control_table
         modified_dates target trace files log_event set_files].
    rewrite Hpr, Hm, Hw.
    split; [reflexivity|]. split; [reflexivity|]. split; [reflexivity|].
    split; [reflexivity|]. split; [reflexivity|].
    split; [|discriminate].
    eexists. split; [reflexivity|]. split; [reflexivity|]. constructor.
Qed.

End Attempt.

(** ** The chunks of one load *)

Lemma chunk_count_bounds n bs :
  0 < bs -> chunk_count n bs * bs < n + bs /\ n <= chunk_count n bs * bs.
Proof.
  intros Hbs. unfold chunk_count.
  pose proof (Nat.div_mod_eq (n + bs - 1) bs) as Hdm.
  pose proof (Nat.mod_upper_bound (n + bs - 1) bs) as Hmod.
  rewrite (Nat.mul_comm bs) in Hdm. lia.
Qed.

Lemma chunk_count_zero n bs :
  0 < bs -> (chunk_count n bs = 0 <-> n = 0).
Proof.
  intros Hbs. destruct (chunk_count_bounds n bs Hbs) as [H1 H2]. split.
  - intros E. rewrite E in H2. simpl in H2. lia.
  - intros ->. destruct (chunk_count 0 bs); auto. simpl in H1. lia.
Qed.

Lemma chunk_commits_bounds a len :
  Forall (fun x => a + 1 <= x /\ x <= a + len) (chunk_commits a len).
Proof.
  revert a. induction len as [|len IH]; intros a; unfold chunk_commits; simpl.
  - constructor.
  - constructor; [lia|]. constructor; [lia|].
    specialize (IH (S a)). unfold chunk_commits in IH.
    eapply Forall_impl; [|exact IH]. simpl. intros x. lia.
Qed.

Lemma chunk_commits_sorted a len :
  StronglySorted le (chunk_commits a len).
Proof.
  revert a. induction len as [|len IH]; intros a; unfold chunk_commits; simpl.
  - constructor.
  - pose proof (chunk_commits_bounds (S a) len) as Hb.
    unfold chunk_commits in Hb.
    constructor.
    + constructor; [apply IH|].
      eapply Forall_impl; [|exact Hb]. simpl. intros x. lia.
    + constructor; [lia|].
      eapply Forall_impl; [|exact Hb]. simpl. intros x. lia.
Qed.

Lemma sorted_app l1 l2 :
  StronglySorted le l1 -> StronglySorted le l2 ->
  (forall x y, In x l1 -> In y l2 -> x <= y) ->
  StronglySorted le (l1 ++ l2).
Proof.
  induction l1 as [|x l1 IH]; simpl; intros H1 H2 H; auto.
  inversion H1; subst. constructor.
  - apply IH; auto.
  - apply Forall_app. split; auto.
    apply Forall_forall. intros y Hy. apply H; auto.
Qed.

(** [_process_batches] for any positive chunk size: the [c] chunks of
    the frame are loaded in turn; [k] is the number of chunks committed
    before the one that failed. *)
Lemma process_batches_sized_run env bs df table_name s r s' :
  0 < bs ->
  FileProcessor.process_batches_sized env bs df table_name s = (r, s') ->
  (holds_row s -> holds_row s') /\
  modified_dates (world s') = modified_dates (world s) /\
  files (world s') = files (world s) /\
  control_table (world s') = control_table (world s) /\
  same_but_progress (control_record s) (control_record s') /\
  exists delta,
    trace (world s') = trace (world s) ++ delta /\
    forallb load_event delta = true /\
    StronglySorted le (committed_batches delta) /\
    match r with
    | Ok _ =>
        committed_batches delta
        = chunk_commits 0 (chunk_count (length (rows df)) bs) /\
        executions delta = repeat true (chunk_count (length (rows df)) bs) /\
        length (target (world s'))
        = length (target (world s)) + length (rows df) /\
        match chunk_count (length (rows df)) bs with
        | 0 => s' = s
        | S _ =>
            current_batch (control_record s')
            = Some (chunk_count (length (rows df)) bs) /\
            loaded_rows (control_record s') = Some (length (rows df)) /\
            (holds_row s -> persisted s' = Some (control_record s'))
        end
    | Raise e =>
        exists k cause,
          k < chunk_count (length (rows df)) bs /\
          e = BatchError (k + 1) cause /\
          committed_batches delta = chunk_commits 0 k ++ [k + 1] /\
          (executions delta = repeat true k \/
           executions delta = repeat true k ++ [false]) /\
          length (target (world s')) = length (target (world s)) + k * bs /\
          current_batch (control_record s') = Some (k + 1) /\
          loaded_rows (control_record s')
          = match k with
            | 0 => loaded_rows (control_record s)
            | S _ => Some (k * bs)
            end /\
          (holds_row s -> persisted s' = Some (control_record s'))
    end.
Proof.
  intros Hbs. unfold FileProcessor.process_batches_sized, Py.range_step.
  fold (chunk_count (length (rows df)) bs).
  destruct (chunk_count_bounds (length (rows df)) bs Hbs) as [Hc1 Hc2].
  intros Hrun. apply batches_loop_run in Hrun; auto.
  destruct Hrun as [Hs' [Hmd [Hf [Hc [Hsame [delta [Ht [Hl Hr]]]]]]]].
  split; [exact Hs'|]. split; [exact Hmd|].
  split; [exact Hf|]. split; [exact Hc|]. split; [exact Hsame|].
  exists delta. split; [exact Ht|]. split; [exact Hl|].
  destruct r as [[]|e].
  - destruct Hr as [Hcomm [Hex [Htgt Hfin]]]. simpl in Htgt, Hfin.
    split; [rewrite Hcomm; apply chunk_commits_sorted|].
    split; [exact Hcomm|]. split; [exact Hex|].
    split; [lia|].
    destruct (chunk_count (length (rows df)) bs); [exact Hfin|].
    destruct Hfin as [H1 [H2 H3]]. repeat split; auto.
    rewrite H2. f_equal. lia.
  - destruct Hr as [k [cause [Hk [He [Hcomm [Hex [Htgt [Hcb [Hlr Hp]]]]]]]]].
    simpl in *. split.
    { rewrite Hcomm. apply sorted_app.
      - apply chunk_commits_sorted.
      - repeat constructor.
      - intros x y Hx [<-|[]].
        pose proof (chunk_commits_bounds 0 k) as Hb.
        rewrite Forall_forall in Hb. specialize (Hb x Hx). lia. }
    exists k, cause. repeat split; auto. lia.
Qed.

Lemma batch_size_positive : 0 < FileProcessor.batch_size.
Proof. unfold FileProcessor.batch_size. lia. Qed.

(** C1, the failing input: 1001 rows, of which the last is rejected by
    the store.  Chunk 1 (1000 rows) commits and chunk 2 fails; the file
    goes to the error folder, and the row of the attempt is left with
    [loaded_rows] = 1000, the rows of chunk 1, but with [current_batch]
    = 2, the chunk that failed, not 1. *)
Lemma C1_current_batch_is_failed_chunk :
  let w := FileProcessor.process_file Demo.env "in/big.csv"
             Demo.orders_pattern "p1" Demo.world0 in
  length (control_table w) = 1 /\
  length (target w) = 1000 /\
  executions (trace w) = [true; false] /\
  file_exists w "error/20240131_big.csv" = true /\
  map loaded_rows (control_table w) = [Some 1000] /\
  map current_batch (control_table w) = [Some 2] /\
  map current_batch (control_table w) <> [Some 1].
Proof.
  vm_compute. repeat split; try reflexivity. discriminate.
Qed.

(** C1, what the code does: when chunk k+1 fails after chunks 1..k were
    committed, [_process_batches] raises the error of batch k+1 at once:
    the statements sent are the k accepted ones and at most the rejected
    one, and the table holds the rows of the k chunks of 1000.  The row
    of the record has [loaded_rows] as chunk k left it and
    [current_batch] equal to k+1, the number of the chunk that failed:
    it is written and committed before the insert of the chunk. *)
Theorem C1_failed_chunk_ledger :
  forall env df table_name s e s',
    FileProcessor._process_batches env df table_name s = (Raise e, s') ->
    exists k cause delta,
      e = BatchError (k + 1) cause /\
      k < chunk_count (length (rows df)) FileProcessor.batch_size /\
      trace (world s') = trace (world s) ++ delta /\
      (executions delta = repeat true k \/
       executions delta = repeat true k ++ [false]) /\
      length (target (world s'))
      = length (target (world s)) + k * FileProcessor.batch_size /\
      current_batch (control_record s') = Some (k + 1) /\
      loaded_rows (control_record s')
      = match k with
        | 0 => loaded_rows (control_record s)
        | S _ => Some (k * FileProcessor.batch_size)
        end /\
      (holds_row s -> persisted s' = Some (control_record s')).
Proof.
  intros env df table_name s e s' Hrun.
  unfold FileProcessor._process_batches in Hrun.
  apply process_batches_sized_run in Hrun; [|apply batch_size_positive].
  destruct Hrun as [_ [_ [_ [_ [_ [delta [Ht [_ [_ Hr]]]]]]]]].
  destruct Hr as [k [cause [Hk [He [_ [Hex [Htgt [Hcb [Hlr Hp]]]]]]]]].
  exists k, cause, delta. repeat split; auto.
Qed.

(** The frame of 1001 rows fails at its second chunk, in the session of
    [process_file], which holds the record. *)
Lemma C1_failed_chunk_ledger_example :
  let s := in_progress_session Demo.env "in/big.csv" Demo.orders_pattern
             "p1" Demo.world0 in
  let s' := snd (FileProcessor._process_batches Demo.env Demo.big_frame
                   "orders" s) in
  exists k cause delta,
    BatchError 2 (StatementRejected "orders") = BatchError (k + 1) cause /\
    k < chunk_count (length (rows Demo.big_frame)) FileProcessor.batch_size /\
    trace (world s') = trace (world s) ++ delta /\
    (executions delta = repeat true k \/
     executions delta = repeat true k ++ [false]) /\
    length (target (world s'))
    = length (target (world s)) + k * FileProcessor.batch_size /\
    current_batch (control_record s') = Some (k + 1) /\
    loaded_rows (control_record s')
    = match k with
      | 0 => loaded_rows (control_record s)
      | S _ => Some (k * FileProcessor.batch_size)
      end /\
    persisted s' = Some (control_record s').
Proof.
  intros s s'.
  destruct (C1_failed_chunk_ledger Demo.env Demo.big_frame "orders" s
              (BatchError 2 (StatementRejected "orders")) s'
              ltac:(vm_compute; reflexivity))
    as [k [cause [delta [H1 [H2 [H3 [H4 [H5 [H6 [H7 H8]]]]]]]]]].
  exists k, cause, delta.
  repeat split; auto; apply H8; split; reflexivity.
Defined.

(** The scenario of three rows with chunks of two: chunk 1 commits,
    chunk 2 fails, and the record is left with [loaded_rows] = 2 and
    [current_batch] = 2. *)
Lemma three_rows_chunks_of_two :
  let s := in_progress_session Demo.env "in/three.csv" Demo.orders_pattern
             "p1" Demo.world0 in
  let run := FileProcessor.process_batches_sized Demo.env 2 Demo.three_rows
               "orders" s in
  fst run = Raise (BatchError 2 (StatementRejected "orders")) /\
  executions (trace (world (snd run))) = [true; false] /\
  length (target (world (snd run))) = 2 /\
  loaded_rows (control_record (snd run)) = Some 2 /\
  current_batch (control_record (snd run)) = Some 2 /\
  persisted (snd run) = Some (control_record (snd run)).
Proof. vm_compute. repeat split; reflexivity. Qed.

(** ** The trace of one attempt *)

Lemma committed_batches_app l1 l2 :
  committed_batches (l1 ++ l2) = committed_batches l1 ++ committed_batches l2.
Proof. unfold committed_batches. apply flat_map_app. Qed.

Lemma committed_batches_move l src dst ok :
  committed_batches (l ++ [EMove src dst ok]) = committed_batches l.
Proof. rewrite committed_batches_app. simpl. apply app_nil_r. Qed.

Lemma executions_app l1 l2 :
  executions (l1 ++ l2) = executions l1 ++ executions l2.
Proof. unfold executions. apply flat_map_app. Qed.

(** A sorted run of batch numbers followed by repetitions of the last
    number committed stays sorted. *)
Lemma sorted_then_constant l1 l2 ob :
  StronglySorted le l1 ->
  (forall b, ob = Some b -> Forall (fun x => x <= b) l1) ->
  Forall (fun x => ob = Some x) l2 ->
  StronglySorted le (l1 ++ l2).
Proof.
  intros H1 Hb H2. apply sorted_app; auto.
  - induction H2 as [|y l2 Hy H2 IH]; constructor; auto.
    apply Forall_forall. intros z Hz.
    rewrite Forall_forall in H2. specialize (H2 z Hz). rewrite Hy in H2.
    injection H2 as ->. lia.
  - intros x y Hx Hy. rewrite Forall_forall in H2. specialize (H2 y Hy).
    specialize (Hb y H2). rewrite Forall_forall in Hb. auto.
Qed.

Lemma no_batches_of_none l :
  Forall (fun x : nat => None = Some x) l -> l = [].
Proof. destruct l; auto. intros H. inversion H. discriminate. Qed.

Lemma load_event_not_validate l :
  forallb load_event l = true ->
  forallb (fun e => negb (is_validate e)) l = true.
Proof.
  intros H. rewrite forallb_forall in *. intros e He.
  specialize (H e He). now destruct e.
Qed.

Lemma ledger_or_move_quiet l :
  forallb ledger_or_move l = true ->
  forallb (fun e => negb (is_validate e) && negb (is_execute e)) l = true.
Proof.
  intros H. rewrite forallb_forall in *. intros e He.
  specialize (H e He). now destruct e.
Qed.

Lemma quiet_no_validate l :
  forallb (fun e => negb (is_validate e) && negb (is_execute e)) l = true ->
  forallb (fun e => negb (is_validate e)) l = true.
Proof.
  intros H. rewrite forallb_forall in *. intros e He.
  specialize (H e He). apply andb_prop in H. tauto.
Qed.


Section AttemptRun.

Variable env : Env.
Variable file_path : string.
Variable pattern_config : PatternConfig.

(** The ledger writes of a whole attempt never step back, whatever
    happens to it. *)
Lemma attempt_batches_sorted s0 :
  persisted s0 = None ->
  current_batch (control_record s0) = None ->
  exists delta,
    trace (world (snd (FileProcessor.process_file_body env file_path
                         pattern_config s0)))
    = trace (world s0) ++ delta /\
    StronglySorted le (committed_batches delta).
Proof.
  intros Hnone Hnew. rewrite process_file_body_unfold by exact Hnone.
  cbv zeta.
  set (r0 := control_record s0).
  set (r1 := set_status "IN_PROGRESS" r0).
  set (w2 := log_event (ECommit r1) (log_event (ECommit r0) (world s0))).
  set (s2 := updated r1 w2 s0).
  assert (Hfail : forall e s d1,
             persisted s = Some (control_record s) ->
             trace (world s) = trace (world s0) ++ d1 ->
             StronglySorted le (committed_batches d1) ->
             (forall b, current_batch (control_record s) = Some b ->
                        Forall (fun x => x <= b) (committed_batches d1)) ->
             exists delta,
               trace (world (snd (fail env file_path e s)))
               = trace (world s0) ++ delta /\
               StronglySorted le (committed_batches delta)).
  { intros e s d1 Hp Ht Hs Hb.
    destruct (fail_run env file_path e s Hp)
      as [s' [Hrun [_ [_ [_ [_ [_ [[d2 [Ht2 [_ Hc2]]] _]]]]]]]].
    rewrite Hrun. simpl. exists (d1 ++ d2). split.
    - now rewrite Ht2, Ht, app_assoc.
    - rewrite committed_batches_app.
      eapply sorted_then_constant; eauto. }
  assert (Hquiet : forall b, None = Some b ->
                             Forall (fun x : nat => x <= b) []).
  { discriminate. }
  assert (Hr1 : current_batch r1 = None) by exact Hnew.
  assert (Hc01 : committed_batches [ECommit r0; ECommit r1] = []).
  { unfold committed_batches. cbn [flat_map].
    fold r0 in Hnew. now rewrite Hnew, Hr1. }
  destruct (read_file env file_path _ _ w2) as [[df|e] w2'].
  2:{ apply (Hfail e s2 [ECommit r0; ECommit r1]); auto.
      - unfold s2, w2. simpl. now rewrite <- app_assoc.
      - rewrite Hc01. constructor.
      - rewrite Hc01. intros. constructor. }
  set (r2 := set_total_rows (Some (length (rows df))) r1).
  set (w3 := log_event (EValidate (table pattern_config) df)
               (log_event (ECommit r2) w2)).
  set (s3 := updated r2 w3 s2).
  assert (Hs3 : holds_row s3) by (split; reflexivity).
  set (pre := [ECommit r0; ECommit r1; ECommit r2;
               EValidate (table pattern_config) df]).
  assert (Hr2 : current_batch r2 = None) by exact Hnew.
  assert (Hpre : committed_batches pre = []).
  { unfold committed_batches, pre. cbn [flat_map].
    fold r0 in Hnew. now rewrite Hnew, Hr1, Hr2. }
  assert (Ht3 : trace (world s3) = trace (world s0) ++ pre).
  { simpl. rewrite <- !app_assoc. reflexivity. }
  assert (Hfail3 : forall e,
             exists delta,
               trace (world (snd (fail env file_path e s3)))
               = trace (world s0) ++ delta /\
               StronglySorted le (committed_batches delta)).
  { intros e. apply (Hfail e s3 pre); auto.
    - rewrite Hpre. constructor.
    - rewrite Hpre. intros. constructor. }
  destruct (DataValidator.validate_data env df (table pattern_config))
    as [vr|e]; [|apply Hfail3].
  destruct (negb (DataValidator.is_valid vr)); [apply Hfail3|].
  destruct (FileProcessor._process_batches env _ (table pattern_config) s3)
    as [res s4] eqn:Eload.
  unfold FileProcessor._process_batches in Eload.
  apply process_batches_sized_run in Eload; [|apply batch_size_positive].
  destruct Eload as [Hheld [_ [Hf4 [_ [_ [d4 [Ht4 [_ [Hs4 Hr4]]]]]]]]].
  specialize (Hheld Hs3).
  assert (Ht4' : trace (world s4) = trace (world s0) ++ pre ++ d4).
  { now rewrite Ht4, Ht3, app_assoc. }
  assert (Hs4' : StronglySorted le (committed_batches (pre ++ d4))).
  { now rewrite committed_batches_app, Hpre. }
  destruct res as [[]|e].
  - destruct Hr4 as [Hcomm [_ [_ Hfin]]].
    set (c := chunk_count _ _) in *.
    assert (Hp4 : persisted s4 = Some (control_record s4)).
    { destruct c; [now subst s4 | apply Hfin, Hs3]. }
    assert (Hb4 : forall b, current_batch (control_record s4) = Some b ->
                            Forall (fun x => x <= b)
                                   (committed_batches (pre ++ d4))).
    { intros b Hb. rewrite committed_batches_app, Hpre, Hcomm. simpl.
      destruct c as [|c'].
      - constructor.
      - destruct Hfin as [Hcb _]. rewrite Hcb in Hb. injection Hb as <-.
        eapply Forall_impl; [|apply chunk_commits_bounds]. simpl.
        intros x. lia. }
    destruct (file_exists (world s4) file_path) eqn:Efile.
    + rewrite archive_file_present by assumption. cbv zeta.
      rewrite closed_updated. cbn [snd world control_record].
      set (rs := success_record (control_record s4)).
      exists ((pre ++ d4)
              ++ [EMove file_path
                    (FileProcessor.archive_path env (Py.basename file_path))
                    true; ECommit rs; ECommit rs]).
      split.
      * cbn [trace log_event set_files]. rewrite Ht4'.
        rewrite <- !app_assoc. reflexivity.
      * rewrite committed_batches_app.
        apply (sorted_then_constant _ _ (current_batch (control_record s4)));
          auto.
        unfold committed_batches. simpl.
        destruct (current_batch (control_record s4)); simpl; auto.
    + rewrite archive_file_absent by exact Efile.
      match goal with
      | |- context [fail env file_path ?e ?s] =>
          apply (Hfail e s (pre ++ d4 ++ [EMove file_path
                   (FileProcessor.archive_path env (Py.basename file_path))
                   false]))
      end.
      * exact Hp4.
      * simpl. rewrite Ht4'. now rewrite <- !app_assoc.
      * now rewrite app_assoc, committed_batches_move.
      * cbn [control_record]. intros b Hb.
        rewrite app_assoc, committed_batches_move. auto.
  - destruct Hr4 as [k [cause [_ [_ [Hcomm [_ [_ [Hcb [_ Hp4]]]]]]]]].
    specialize (Hp4 Hs3).
    apply (Hfail e s4 (pre ++ d4)); auto.
    intros b Hb. rewrite Hcb in Hb. injection Hb as <-.
    rewrite committed_batches_app, Hpre, Hcomm. simpl.
    apply Forall_app. split; [|repeat constructor].
    eapply Forall_impl; [|apply chunk_commits_bounds]. simpl.
    intros x. lia.
Qed.

End AttemptRun.

Lemma add_metadata_rows df pid :
  length (rows (FileProcessor._add_metadata_columns df pid))
  = length (rows df).
Proof.
  unfold FileProcessor._add_metadata_columns.
  destruct (existsb _ _); simpl; auto. apply length_map.
Qed.


Lemma quiet_not_validate l :
  forallb quiet l = true ->
  forallb (fun e => negb (is_validate e)) l = true.
Proof. apply quiet_no_validate. Qed.

Section AttemptOutcome.

Variable env : Env.
Variable file_path : string.
Variable pattern_config : PatternConfig.

(** The file of a failed attempt that was in place goes to the error
    folder, and the row of the record stays as it was last committed. *)
Lemma fail_rejected e s0 s :
  persisted s = Some (control_record s) ->
  file_exists (world s) file_path = true ->
  target (world s) = target (world s0) ->
  exists post,
    trace (world (snd (fail env file_path e s))) = trace (world s) ++ post /\
    control_table (world (snd (fail env file_path e s)))
    = control_table (world s) /\
    rejected env file_path (control_record s) post s0
             (snd (fail env file_path e s)).
Proof.
  intros Hp Hfile Htgt.
  destruct (fail_run env file_path e s Hp)
    as [s' [Hrun [Hc [_ [Ht [Hrow [_ [[post [Htr [Hq _]]] Hpresent]]]]]]]].
  rewrite Hrun. simpl. destruct (Hpresent Hfile) as [_ Hex].
  exists post. split; [exact Htr|]. split; [exact Hc|].
  unfold rejected. repeat split; auto.
  - now apply ledger_or_move_quiet.
  - congruence.
  - congruence.
Qed.

(** The attempt on a file that is in place, stage by stage. *)
Lemma attempt_run s0 :
  persisted s0 = None ->
  file_exists (world s0) file_path = true ->
  let s := snd (FileProcessor.process_file_body env file_path
                  pattern_config s0) in
  let r0 := control_record s0 in
  let r1 := set_status "IN_PROGRESS" r0 in
  let file_type := FileProcessor.file_type_of file_path in
  control_table (world s) = control_table (world s0) /\
  match read_frame env file_path file_type
          (FileProcessor.options_of pattern_config file_type) with
  | Raise e =>
      exists post,
        trace (world s) = trace (world s0) ++ [ECommit r0; ECommit r1] ++ post /\
        rejected env file_path r1 post s0 s
  | Ok df =>
      let r2 := set_total_rows (Some (length (rows df))) r1 in
      exists post,
        trace (world s)
        = trace (world s0)
          ++ [ECommit r0; ECommit r1; ECommit r2]
          ++ EValidate (table pattern_config) df :: post /\
        forallb (fun e => negb (is_validate e)) post = true /\
        match DataValidator.validate_data env df (table pattern_config) with
        | Raise e => rejected env file_path r2 post s0 s
        | Ok vr =>
            if DataValidator.is_valid vr then
              archived env file_path (length (rows df)) r0 post s0 s \/
              failed_loading env file_path r0 s0 s
            else
              rejected env file_path r2 post s0 s
        end
  end.
Proof.
  intros Hnone Hfile. rewrite process_file_body_unfold by exact Hnone.
  cbv zeta.
  set (r0 := control_record s0).
  set (r1 := set_status "IN_PROGRESS" r0).
  set (w2 := log_event (ECommit r1) (log_event (ECommit r0) (world s0))).
  set (s2 := updated r1 w2 s0).
  unfold read_file.
  assert (Hfile2 : file_exists w2 file_path = true) by exact Hfile.
  rewrite Hfile2.
  destruct (read_frame env file_path _ _) as [df|e].
  2:{ destruct (fail_rejected e s0 s2 eq_refl Hfile2 eq_refl)
        as [post [Ht [Hc Hrej]]].
      split; [exact Hc|]. exists post. split; [|exact Hrej].
      rewrite Ht. unfold s2, w2. simpl. now rewrite <- !app_assoc. }
  set (r2 := set_total_rows (Some (length (rows df))) r1).
  set (w3 := log_event (EValidate (table pattern_config) df)
               (log_event (ECommit r2) w2)).
  set (s3 := updated r2 w3 s2).
  assert (Hs3 : holds_row s3) by (split; reflexivity).
  assert (Ht3 : forall post,
             trace (world s3) ++ post
             = trace (world s0)
               ++ [ECommit r0; ECommit r1; ECommit r2]
               ++ EValidate (table pattern_config) df :: post).
  { intros post. unfold s3, w3, w2. simpl. now rewrite <- !app_assoc. }
  assert (Hrej3 : forall e,
             control_table (world (snd (fail env file_path e s3)))
             = control_table (world s0) /\
             exists post,
               trace (world (snd (fail env file_path e s3)))
               = trace (world s0)
                 ++ [ECommit r0; ECommit r1; ECommit r2]
                 ++ EValidate (table pattern_config) df :: post /\
               forallb (fun e => negb (is_validate e)) post = true /\
               rejected env file_path r2 post s0
                        (snd (fail env file_path e s3))).
  { intros e.
    destruct (fail_rejected e s0 s3 eq_refl Hfile eq_refl)
      as [post [Ht [Hc Hrej]]].
    split; [exact Hc|]. exists post. rewrite Ht, Ht3.
    split; [reflexivity|]. split; [|exact Hrej].
    apply quiet_not_validate. apply Hrej. }
  destruct (DataValidator.validate_data env df (table pattern_config))
    as [vr|e]; [|apply Hrej3].
  destruct (DataValidator.is_valid vr); simpl negb; cbv iota;
    [|apply Hrej3].
  destruct (FileProcessor._process_batches env _ (table pattern_config) s3)
    as [res s4] eqn:Eload.
  unfold FileProcessor._process_batches in Eload.
  apply process_batches_sized_run in Eload; [|apply batch_size_positive].
  rewrite add_metadata_rows in Eload.
  destruct Eload as [Hheld [_ [Hf4 [Hc4 [Hsame [d4 [Ht4 [Hl4 [_ Hr4]]]]]]]]].
  specialize (Hheld Hs3).
  assert (Hfile4 : file_exists (world s4) file_path = true).
  { unfold file_exists. rewrite Hf4. exact Hfile. }
  destruct Hsame as [_ [_ [_ [_ [Hst [Htot [Herr [Hloc _]]]]]]]].
  destruct res as [[]|e].
  - destruct Hr4 as [_ [_ [Htgt Hfin]]].
    rewrite archive_file_present by assumption. cbv zeta.
    rewrite closed_updated. cbn [snd world control_record].
    set (rs := success_record (control_record s4)).
    split; [simpl; exact Hc4|].
    exists (d4 ++ [EMove file_path
                     (FileProcessor.archive_path env (Py.basename file_path))
                     true; ECommit rs; ECommit rs]).
    split.
    { cbn [trace log_event set_files]. rewrite Ht4.
      rewrite <- Ht3. rewrite <- !app_assoc. reflexivity. }
    split.
    { rewrite forallb_app, (load_event_not_validate _ Hl4). reflexivity. }
    left. exists rs. split; [reflexivity|].
    split; [reflexivity|]. split; [reflexivity|].
    split; [exact Herr|]. split; [exact Htot|].
    split; [|split; [|split; [|split]]].
    + destruct (length (rows df)) as [|n'] eqn:En.
      * assert (Hc0 : chunk_count 0 FileProcessor.batch_size = 0).
        { apply chunk_count_zero; auto using batch_size_positive. }
        rewrite Hc0 in Hfin. now subst s4.
      * destruct (chunk_count (S n') FileProcessor.batch_size) eqn:Ec.
        -- apply chunk_count_zero in Ec; auto using batch_size_positive.
           discriminate.
        -- apply Hfin.
    + destruct (chunk_count (length (rows df)) FileProcessor.batch_size).
      * now subst s4.
      * apply Hfin.
    + unfold file_exists. simpl. now rewrite String.eqb_refl.
    + simpl. exact Htgt.
    + exists d4. auto.
  - destruct Hr4 as [k [cause [_ [He [_ [_ [Htgt [Hcb [Hlr Hp4]]]]]]]]].
    specialize (Hp4 Hs3).
    destruct (fail_rejected e s4 s4 Hp4 Hfile4 eq_refl)
      as [post [Ht [Hc [Hq [Htg [Hrow Hex]]]]]].
    split; [rewrite Hc, Hc4; reflexivity|].
    exists (d4 ++ post). split.
    { rewrite Ht, Ht4, <- app_assoc. apply Ht3. }
    split.
    { rewrite forallb_app, (load_event_not_validate _ Hl4).
      now apply quiet_not_validate. }
    right. exists k, (control_record s4).
    split; [exact Hrow|]. split; [exact Hst|]. split; [exact Hloc|].
    split; [exact Herr|]. split; [exact Hcb|].
    split; [exact Hlr|]. split; [exact Hex|].
    rewrite Htg. exact Htgt.
Qed.

End AttemptOutcome.

(** ** [process_file] as a whole *)

Lemma attempt_row_last tbl row w :
  attempt_row (set_control_table (tbl ++ [row]) w) = Some row.
Proof.
  unfold attempt_row. simpl. rewrite map_app. simpl. apply last_last.
Qed.

Lemma process_file_world env file_path pattern_config pid w :
  let s := FileProcessor.process_file_session env file_path pattern_config
             pid w in
  let w' := FileProcessor.process_file env file_path pattern_config pid w in
  trace w' = trace (world s) /\ target w' = target (world s) /\
  files w' = files (world s) /\
  forall row, persisted s = Some row -> attempt_row w' = Some row.
Proof.
  intros s w'. unfold w', FileProcessor.process_file. fold s.
  destruct (persisted s) as [row|].
  - repeat split. intros row' [= <-]. apply attempt_row_last.
  - repeat split. discriminate.
Qed.

(** C7: [current_batch] after the N chunks of a successful load is N (the
    ledger receives 1, 1, 2, 2, .., N, N and the record is committed with
    N; a frame without rows has no chunk and leaves the record as it
    is), and the values written during one attempt never decrease,
    whether the load succeeds or fails, up to and including the closing
    writes of [process_file]. *)
Theorem C7_current_batch_counts_chunks :
  forall env df table_name s r s',
    FileProcessor._process_batches env df table_name s = (r, s') ->
    (exists delta,
        trace (world s') = trace (world s) ++ delta /\
        StronglySorted le (committed_batches delta) /\
        match r with
        | Ok _ =>
            committed_batches delta
            = chunk_commits 0 (chunk_count (length (rows df))
                                           FileProcessor.batch_size) /\
            match chunk_count (length (rows df)) FileProcessor.batch_size with
            | 0 => s' = s
            | S c =>
                current_batch (control_record s') = Some (S c) /\
                (holds_row s -> persisted s' = Some (control_record s'))
            end
        | Raise _ => True
        end) /\
    (forall file_path pattern_config pid w,
        exists delta,
          trace (FileProcessor.process_file env file_path pattern_config pid w)
          = trace w ++ delta /\
          StronglySorted le (committed_batches delta)).
Proof.
  intros env df table_name s r s' Hrun. split.
  - unfold FileProcessor._process_batches in Hrun.
    apply process_batches_sized_run in Hrun; [|apply batch_size_positive].
    destruct Hrun as [_ [_ [_ [_ [_ [delta [Ht [_ [Hsorted Hr]]]]]]]]].
    exists delta. split; [exact Ht|]. split; [exact Hsorted|].
    destruct r as [[]|e]; [|exact I].
    destruct Hr as [Hcomm [_ [_ Hfin]]]. split; [exact Hcomm|].
    destruct (chunk_count (length (rows df)) FileProcessor.batch_size);
      [exact Hfin | tauto].
  - intros file_path pattern_config pid w.
    destruct (process_file_world env file_path pattern_config pid w)
      as [Ht _]. rewrite Ht.
    unfold FileProcessor.process_file_session.
    apply (attempt_batches_sorted env file_path pattern_config
             (FileProcessor.open_session env file_path pattern_config pid w));
      reflexivity.
Qed.

(** A frame of one row is one chunk; the session is that of
    [process_file], which holds the record. *)
Lemma C7_current_batch_counts_chunks_example :
  let s := in_progress_session Demo.env "in/short.csv" Demo.orders_pattern
             "p1" Demo.world0 in
  let s' := snd (FileProcessor._process_batches Demo.env Demo.short_frame
                   "orders" s) in
  exists delta,
    trace (world s') = trace (world s) ++ delta /\
    StronglySorted le (committed_batches delta) /\
    committed_batches delta = [1; 1] /\
    current_batch (control_record s') = Some 1 /\
    persisted s' = Some (control_record s').
Proof.
  intros s s'.
  destruct (proj1 (C7_current_batch_counts_chunks Demo.env Demo.short_frame
                     "orders" s (Ok tt) s' ltac:(vm_compute; reflexivity)))
    as [delta [Ht [Hsorted [Hcomm [Hcb Hp]]]]].
  exists delta. split; [exact Ht|]. split; [exact Hsorted|].
  split; [exact Hcomm|]. split; [exact Hcb|].
  apply Hp. split; reflexivity.
Defined.





(** How an attempt on a file that is in place can end: archived, with
    the record closed SUCCESS, or in the error folder, with the row as
    the attempt last committed it, IN_PROGRESS.  ([_handle_error] works
    on the record in a session that does not hold it, so that its ERROR
    state is never written.) *)
Lemma process_file_outcome env file_path pattern_config pid w :
  file_exists w file_path = true ->
  let w' := FileProcessor.process_file env file_path pattern_config pid w in
  exists row,
    attempt_row w' = Some row /\
    ((status row = "SUCCESS" /\ file_location row = Some "ARCHIVE" /\
      file_exists w' (FileProcessor.archive_path env (Py.basename file_path))
      = true /\
      exists n,
        total_rows row = Some n /\
        loaded_rows row = match n with 0 => None | S _ => Some n end /\
        length (target w') = length (target w) + n) \/
     (status row = "IN_PROGRESS" /\ file_location row = Some "INPUT" /\
      error_message row = None /\
      file_exists w' (FileProcessor.error_path env (Py.basename file_path))
      = true)).
Proof.
  intros Hfile w'.
  destruct (process_file_world env file_path pattern_config pid w)
    as [_ [Htg [Hfs Hrow]]]. fold w' in Htg, Hfs, Hrow.
  unfold FileProcessor.process_file_session in *.
  set (s0 := FileProcessor.open_session env file_path pattern_config pid w)
    in *.
  assert (Hex : forall p, file_exists w' p
                          = file_exists (world (snd
                              (FileProcessor.process_file_body env file_path
                                 pattern_config s0))) p).
  { intros p. unfold file_exists. now rewrite Hfs. }
  assert (Hrejected : forall r post,
             rejected env file_path r post s0
               (snd (FileProcessor.process_file_body env file_path
                       pattern_config s0)) ->
             status r = "IN_PROGRESS" -> file_location r = Some "INPUT" ->
             error_message r = None ->
             exists row,
               attempt_row w' = Some row /\
               (status row = "IN_PROGRESS" /\
                file_location row = Some "INPUT" /\
                error_message row = None /\
                file_exists w'
                  (FileProcessor.error_path env (Py.basename file_path))
                = true)).
  { intros r post [_ [_ [Hp Hfe]]] H1 H2 H3. exists r.
    split; [apply Hrow; exact Hp|]. rewrite Hex. auto. }
  destruct (attempt_run env file_path pattern_config s0 eq_refl Hfile)
    as [_ Hrun].
  cbv zeta in Hrun.
  destruct (read_frame env file_path _ _) as [df|e].
  - destruct Hrun as [post [_ [_ Hout]]].
    destruct (DataValidator.validate_data env df (table pattern_config))
      as [vr|e].
    + destruct (DataValidator.is_valid vr).
      * destruct Hout as [Harch|Hfail].
        -- destruct Harch
             as [row [Hp [Hs [Hl [_ [Htot [Hlr [_ [Hfe [Htgt _]]]]]]]]]].
           exists row. split; [now apply Hrow|]. left.
           split; [exact Hs|]. split; [exact Hl|].
           split; [now rewrite Hex|].
           exists (length (rows df)). split; [exact Htot|].
           split; [exact Hlr|]. rewrite Htg. exact Htgt.
        -- destruct Hfail
             as [k [row [Hp [Hs [Hl [Hm [_ [_ [Hfe _]]]]]]]]].
           exists row. split; [now apply Hrow|]. right.
           split; [exact Hs|]. split; [exact Hl|].
           split; [exact Hm|]. now rewrite Hex.
      * destruct (Hrejected _ _ Hout eq_refl eq_refl eq_refl)
          as [row [H1 H2]]. eauto.
    + destruct (Hrejected _ _ Hout eq_refl eq_refl eq_refl)
        as [row [H1 H2]]. eauto.
  - destruct Hrun as [post [_ Hout]].
    destruct (Hrejected _ _ Hout eq_refl eq_refl eq_refl) as [row [H1 H2]].
    eauto.
Qed.

(** C2, the failing input: a file with a header line and no data row.
    The attempt completes, the file is archived and the record is closed
    SUCCESS, with [total_rows] = 0 and [loaded_rows] never written:
    the two are not equal. *)
Theorem C2_empty_file_loaded_rows_unset :
  let w := FileProcessor.process_file Demo.env "in/empty.csv"
             Demo.orders_pattern "p1" Demo.world0 in
  map status (control_table w) = ["SUCCESS"] /\
  map file_location (control_table w) = [Some "ARCHIVE"] /\
  file_exists w "archive/20240131_empty.csv" = true /\
  map total_rows (control_table w) = [Some 0] /\
  map loaded_rows (control_table w) = [None] /\
  map loaded_rows (control_table w) <> map total_rows (control_table w).
Proof.
  vm_compute. repeat split; try reflexivity. discriminate.
Qed.

(** For a file with at least one row the claim of C2 holds: on SUCCESS
    the record has [loaded_rows] = [total_rows], the file is in the
    archive under its dated name, and the terminal state is what the
    attempt writes last, after the move. *)
Lemma successful_attempt env file_path pattern_config pid w row :
  file_exists w file_path = true ->
  attempt_row (FileProcessor.process_file env file_path pattern_config pid w)
  = Some row ->
  status row = "SUCCESS" ->
  file_location row = Some "ARCHIVE" /\
  file_exists (FileProcessor.process_file env file_path pattern_config pid w)
    (Py.path_join (archive_folder (storage_config env))
       (today env ++ "_" ++ Py.basename file_path)%string) = true /\
  (exists n, total_rows row = Some n /\
             (0 < n -> loaded_rows row = total_rows row)) /\
  exists d,
    trace (FileProcessor.process_file env file_path pattern_config pid w)
    = trace w ++ d
      ++ [EMove file_path
            (Py.path_join (archive_folder (storage_config env))
               (today env ++ "_" ++ Py.basename file_path)%string) true;
          ECommit row; ECommit row].
Proof.
  intros Hfile Hrow Hsuccess.
  destruct (process_file_world env file_path pattern_config pid w)
    as [Ht [_ [Hfs Hrow']]].
  unfold FileProcessor.process_file_session in *.
  set (s0 := FileProcessor.open_session env file_path pattern_config pid w)
    in *.
  assert (Hnot : forall r post,
             status r = "IN_PROGRESS" ->
             ~ rejected env file_path r post s0
                 (snd (FileProcessor.process_file_body env file_path
                         pattern_config s0))).
  { intros r post Hst [_ [_ [Hp _]]]. apply Hrow' in Hp.
    rewrite Hrow in Hp. injection Hp as ->.
    rewrite Hsuccess in Hst. discriminate. }
  destruct (attempt_run env file_path pattern_config s0 eq_refl Hfile)
    as [_ Hrun].
  cbv zeta in Hrun.
  destruct (read_frame env file_path _ _) as [df|e].
  2:{ destruct Hrun as [post [_ Hout]]. now apply Hnot in Hout. }
  destruct Hrun as [post [Htr [_ Hout]]].
  destruct (DataValidator.validate_data env df (table pattern_config))
    as [vr|e]; [|now apply Hnot in Hout].
  destruct (DataValidator.is_valid vr); [|now apply Hnot in Hout].
  destruct Hout as [Harch|Hfail].
  - destruct Harch
      as [row' [Hp [_ [Hl [_ [Htot [Hlr [_ [Hfe [_ [d [Hpost _]]]]]]]]]]]].
    apply Hrow' in Hp. rewrite Hrow in Hp. injection Hp as <-.
    split; [exact Hl|]. split.
    { unfold file_exists. rewrite Hfs. exact Hfe. }
    split.
    { exists (length (rows df)). split; [exact Htot|].
      intros Hn. rewrite Hlr, Htot.
      destruct (length (rows df)); [lia | reflexivity]. }
    exists ([ECommit (control_record s0);
             ECommit (set_status "IN_PROGRESS" (control_record s0));
             ECommit (set_total_rows (Some (length (rows df)))
                        (set_status "IN_PROGRESS" (control_record s0)))]
            ++ EValidate (table pattern_config) df :: d).
    rewrite Ht, Htr, Hpost. simpl. reflexivity.
  - destruct Hfail as [k [row' [Hp [Hs _]]]].
    apply Hrow' in Hp. rewrite Hrow in Hp. injection Hp as <-.
    rewrite Hsuccess in Hs. discriminate.
Qed.

(** C5, counterexample: the first row of [in/short.csv] has one column
    where the mapping of [orders] needs two.  [validate_csv_structure]
    rejects it, but [process_file] does not run that check: the attempt
    ends SUCCESS with the file archived, not ERROR in the error folder. *)
Lemma C5_short_file_is_archived :
  let w := FileProcessor.process_file Demo.env "in/short.csv"
             Demo.orders_pattern "p1" Demo.world0 in
  csv_reader Demo.env "in/short.csv" = Ok [["name"]; ["bob"]] /\
  Py.max_of (map column_index (column_mappings Demo.orders_mapping)) = Some 1 /\
  CSVHandler.validate_csv_structure Demo.env "in/short.csv" "orders"
  = Raise (ColumnCountMismatch 1 2) /\
  map status (control_table w) = ["SUCCESS"] /\
  map file_location (control_table w) = [Some "ARCHIVE"] /\
  file_exists w "error/20240131_short.csv" = false /\
  file_exists w "archive/20240131_short.csv" = true /\
  map status (control_table w) <> ["ERROR"].
Proof.
  vm_compute. repeat split; try reflexivity. discriminate.
Qed.

(** C5, as amended: for a file whose first row has fewer columns than the
    highest mapped index + 1, and a table whose configuration has its
    [file_config] entry, [validate_csv_structure] fails with the
    column-count error, and [load_csv_to_table], which starts with that
    check, fails with it before it parses or inserts anything: storage,
    tables and trace are untouched.  ([process_file] does not run the
    check at all.) *)
Theorem C5_short_first_row :
  forall env file_path table_name cfg fc max_col_index first_row rest,
    CSVHandler._get_table_config env table_name = Ok cfg ->
    file_config cfg = Some fc ->
    Py.max_of (map column_index (column_mappings cfg)) = Some max_col_index ->
    csv_reader env file_path = Ok (first_row :: rest) ->
    length first_row < max_col_index + 1 ->
    CSVHandler.validate_csv_structure env file_path table_name
    = Raise (ColumnCountMismatch (length first_row) (max_col_index + 1)) /\
    (forall batch_size w,
        load_csv_to_table env file_path table_name batch_size w
        = (Raise (ColumnCountMismatch (length first_row) (max_col_index + 1)),
           w)).
Proof.
  intros env file_path table_name cfg fc max_col_index first_row rest
         Hcfg Hfc Hmax Hcsv Hlen.
  assert (Hcheck : CSVHandler.validate_csv_structure env file_path table_name
                   = Raise (ColumnCountMismatch (length first_row)
                                                (max_col_index + 1))).
  { unfold CSVHandler.validate_csv_structure.
    rewrite Hcfg, Hmax, Hfc, Hcsv.
    destruct (length first_row <=? max_col_index) eqn:E; [reflexivity|].
    apply Nat.leb_gt in E. lia. }
  split; [exact Hcheck|].
  intros batch_size w. unfold load_csv_to_table. now rewrite Hcheck.
Qed.

(** The short file of the installation: rejected by the structure check,
    and [load_csv_to_table] leaves the world as it was. *)
Lemma C5_short_first_row_example :
  CSVHandler.validate_csv_structure Demo.env "in/short.csv" "orders"
  = Raise (ColumnCountMismatch (length ["name"]) (1 + 1)) /\
  (forall batch_size w,
      load_csv_to_table Demo.env "in/short.csv" "orders" batch_size w
      = (Raise (ColumnCountMismatch (length ["name"]) (1 + 1)), w)).
Proof.
  apply (C5_short_first_row Demo.env "in/short.csv" "orders"
           Demo.orders_mapping {| has_header := false |} 1
           ["name"] [["bob"]]).
  - reflexivity.
  - reflexivity.
  - reflexivity.
  - reflexivity.
  - simpl. lia.
Defined.

(** * Further properties of the code *)

(** ** The validation gate *)

Lemma add_error_invalid v r :
  DataValidator.is_valid (DataValidator.add_error v r) = false /\
  DataValidator.errors (DataValidator.add_error v r)
  = DataValidator.errors r ++ [v].
Proof. split; reflexivity. Qed.

Lemma extends_refl r : extends r r.
Proof.
  exists []. rewrite app_nil_r, andb_true_r. auto.
Qed.

Lemma extends_add v r : extends r (DataValidator.add_error v r).
Proof.
  exists [v]. simpl. rewrite andb_false_r. auto.
Qed.

Lemma extends_trans r1 r2 r3 :
  extends r1 r2 -> extends r2 r3 -> extends r1 r3.
Proof.
  intros [e1 [H1 V1]] [e2 [H2 V2]]. exists (e1 ++ e2). split.
  - now rewrite H2, H1, app_assoc.
  - rewrite V2, V1. destruct e1, e2; simpl;
      rewrite ?andb_true_r, ?andb_false_r; reflexivity.
Qed.

Lemma check_column_extends env table_cols df j col r r' :
  DataValidator.check_column env table_cols df j col r = Ok r' ->
  extends r r'.
Proof.
  unfold DataValidator.check_column.
  destruct (dict_get table_cols col) as [info|];
    [|intros [= <-]; apply extends_refl].
  destruct (Py.startswith (type info) "INTEGER").
  { destruct (DataValidator.indices_where _ _); intros [= <-];
      auto using extends_refl, extends_add. }
  destruct (Py.startswith (type info) "DATE").
  { destruct (to_datetime_ok env _); intros [= <-];
      auto using extends_refl, extends_add. }
  destruct (Py.startswith (type info) "VARCHAR");
    [|intros [= <-]; apply extends_refl].
  destruct (DataValidator.varchar_bound env (type info)); [|discriminate].
  destruct (DataValidator.indices_where _ _); intros [= <-];
    auto using extends_refl, extends_add.
Qed.

Lemma check_columns_extends env table_cols df :
  forall cols j r r',
    DataValidator.check_columns env table_cols df j cols r = Ok r' ->
    extends r r'.
Proof.
  induction cols as [|col cols IH]; intros j r r'; simpl.
  - intros [= <-]. apply extends_refl.
  - destruct (DataValidator.check_column env table_cols df j col r)
      as [r1|] eqn:E; [|discriminate].
    intros H. eapply extends_trans.
    + eapply check_column_extends; eauto.
    + eapply IH; eauto.
Qed.

(** X1: whenever the gate returns, its verdict and its list of
    violations agree: [is_valid] is true exactly when no violation was
    collected. *)
Theorem gate_valid_iff_no_violation :
  forall env df table_name r,
    DataValidator.validate_data env df table_name = Ok r ->
    (DataValidator.is_valid r = true <-> DataValidator.errors r = []).
Proof.
  intros env df table_name r. unfold DataValidator.validate_data.
  destruct (DatabaseHandler.get_table_columns env table_name)
    as [table_cols|]; [|discriminate].
  intros H. apply check_columns_extends in H.
  destruct H as [extra [He Hv]]. rewrite He, Hv.
  destruct (DataValidator.indices_where (forallb isnull) (rows df));
    simpl.
  - destruct extra; simpl; split; auto; discriminate.
  - split; discriminate.
Qed.

Lemma gate_valid_iff_no_violation_example :
  DataValidator.is_valid
    {| DataValidator.is_valid := false;
       DataValidator.errors := [NonNumeric "qty" [1]] |} = true
  <-> DataValidator.errors
        {| DataValidator.is_valid := false;
           DataValidator.errors := [NonNumeric "qty" [1]] |} = [].
Proof.
  apply (gate_valid_iff_no_violation Demo.env Demo.bad_frame "orders").
  reflexivity.
Defined.

(** X2: rows whose cells are all null are reported first: the verdict is
    then negative whatever the columns hold, and the first violation
    lists exactly those rows. *)
Theorem gate_reports_empty_rows_first :
  forall env df table_name r i rest,
    DataValidator.indices_where (forallb isnull) (rows df) = i :: rest ->
    DataValidator.validate_data env df table_name = Ok r ->
    DataValidator.is_valid r = false /\
    exists more, DataValidator.errors r = EmptyRows (i :: rest) :: more.
Proof.
  intros env df table_name r i rest Hempty.
  unfold DataValidator.validate_data. rewrite Hempty.
  destruct (DatabaseHandler.get_table_columns env table_name)
    as [table_cols|]; [|discriminate].
  intros H. apply check_columns_extends in H.
  destruct H as [extra [He Hv]]. simpl in *. split.
  - exact Hv.
  - exists extra. exact He.
Qed.

Lemma gate_reports_empty_rows_first_example :
  let df := {| columns := ["name"; "qty"];
               rows := [[VStr "a"; VInt 1]; [VNaN; VNone]] |} in
  DataValidator.is_valid
    {| DataValidator.is_valid := false;
       DataValidator.errors :=
         [EmptyRows [1]; NonNumeric "qty" [1]] |} = false /\
  exists more,
    DataValidator.errors
      {| DataValidator.is_valid := false;
         DataValidator.errors := [EmptyRows [1]; NonNumeric "qty" [1]] |}
    = EmptyRows [1] :: more.
Proof.
  intros df.
  apply (gate_reports_empty_rows_first Demo.env df "orders" _ 1 []);
    reflexivity.
Defined.

(** X3: the gate raises in two cases only: the table is unknown to the
    inspector, or a VARCHAR column of the frame has a type without a
    readable length; it returns a result in every other case. *)
Theorem gate_raises_only_for_schema :
  forall env df table_name,
    match DataValidator.validate_data env df table_name with
    | Ok _ => True
    | Raise e =>
        (inspector_columns env table_name = None /\ e = NoSuchTable table_name)
        \/
        exists schema col info,
          DatabaseHandler.get_table_columns env table_name = Ok schema /\
          In col (columns df) /\ dict_get schema col = Some info /\
          Py.startswith (type info) "VARCHAR" = true /\
          DataValidator.varchar_bound env (type info) = Raise e /\
          e = BadVarcharBound (type info)
    end.
Proof.
  intros env df table_name. unfold DataValidator.validate_data.
  destruct (DatabaseHandler.get_table_columns env table_name)
    as [schema|e] eqn:Eschema.
  2:{ left. unfold DatabaseHandler.get_table_columns in Eschema.
      destruct (inspector_columns env table_name); [discriminate|].
      injection Eschema as <-. auto. }
  assert (Hcols : forall cols j r,
             (forall c, In c cols -> In c (columns df)) ->
             match DataValidator.check_columns env schema df j cols r with
             | Ok _ => True
             | Raise e =>
                 exists col info,
                   In col (columns df) /\ dict_get schema col = Some info /\
                   Py.startswith (type info) "VARCHAR" = true /\
                   DataValidator.varchar_bound env (type info) = Raise e /\
                   e = BadVarcharBound (type info)
             end).
  { induction cols as [|col cols IH]; intros j r Hin; simpl; auto.
    destruct (DataValidator.check_column env schema df j col r)
      as [r1|e] eqn:E.
    - apply IH. intros c Hc. apply Hin. now right.
    - unfold DataValidator.check_column in E.
      destruct (dict_get schema col) as [info|] eqn:Einfo; [|discriminate].
      destruct (Py.startswith (type info) "INTEGER").
      { destruct (DataValidator.indices_where _ _); discriminate. }
      destruct (Py.startswith (type info) "DATE").
      { destruct (to_datetime_ok env _); discriminate. }
      destruct (Py.startswith (type info) "VARCHAR") eqn:Ev; [|discriminate].
      destruct (DataValidator.varchar_bound env (type info)) as [z|e'] eqn:Eb.
      { destruct (DataValidator.indices_where _ _); discriminate. }
      injection E as <-. exists col, info.
      repeat split; auto.
      + apply Hin. now left.
      + unfold DataValidator.varchar_bound in Eb.
        destruct (Py.split "("%char (type info)) as [|? [|after ?]];
          try (now injection Eb as <-).
        destruct (Py.split ")"%char after) as [|inner ?];
          try (now injection Eb as <-).
        destruct (py_int env inner); [discriminate|].
        now injection Eb as <-. }
  cbv zeta.
  match goal with
  | |- context [DataValidator.check_columns env schema df 0 (columns df) ?r0] =>
      specialize (Hcols (columns df) 0 r0 (fun c H => H));
      destruct (DataValidator.check_columns env schema df 0 (columns df) r0)
        as [r|e]; auto
  end.
  destruct Hcols as [col [info H]]. right. exists schema, col, info.
  split; [reflexivity|]. exact H.
Qed.

(** ** The schema dictionary *)

Lemma find_app {A} (f : A -> bool) l1 l2 :
  find f (l1 ++ l2) = match find f l1 with
                      | Some x => Some x
                      | None => find f l2
                      end.
Proof.
  induction l1 as [|a l1 IH]; simpl; auto. now destruct (f a).
Qed.

Lemma column_entries_lookup name :
  forall cols acc,
    dict_get (fold_left DatabaseHandler.column_entry cols acc) name
    = match find (fun c => String.eqb name (col_name c)) (rev cols) with
      | Some c => Some {| type := col_type c; nullable := col_nullable c;
                          default := col_default c |}
      | None => dict_get acc name
      end.
Proof.
  induction cols as [|c cols IH]; intros acc; simpl; auto.
  rewrite IH, find_app. simpl.
  destruct (find _ (rev cols)); auto.
  unfold DatabaseHandler.column_entry.
  destruct (String.eqb name (col_name c)) eqn:E.
  - apply String.eqb_eq in E. subst name. apply dict_get_set_eq.
  - apply dict_get_set_neq. intros H. rewrite H in E.
    now rewrite String.eqb_refl in E.
Qed.

(** X5: the dictionary [get_table_columns] returns has one entry per
    column name the inspector reports and no other: looking a name up
    gives the type, nullability and default of the last column reported
    under that name, and fails for a name that was not reported. *)
Theorem schema_holds_reported_columns :
  forall env table_name cols,
    inspector_columns env table_name = Some cols ->
    exists schema,
      DatabaseHandler.get_table_columns env table_name = Ok schema /\
      NoDup (dict_keys schema) /\
      forall name,
        dict_get schema name
        = option_map (fun c => {| type := col_type c;
                                  nullable := col_nullable c;
                                  default := col_default c |})
                     (find (fun c => String.eqb name (col_name c)) (rev cols)).
Proof.
  intros env table_name cols Hcols.
  unfold DatabaseHandler.get_table_columns. rewrite Hcols.
  eexists. split; [reflexivity|]. split.
  - apply column_entries_NoDup. constructor.
  - intros name. rewrite column_entries_lookup.
    now destruct (find _ (rev cols)).
Qed.

Lemma schema_holds_reported_columns_example :
  exists schema,
    DatabaseHandler.get_table_columns Demo.env "orders" = Ok schema /\
    NoDup (dict_keys schema) /\
    forall name,
      dict_get schema name
      = option_map (fun c => {| type := col_type c;
                                nullable := col_nullable c;
                                default := col_default c |})
                   (find (fun c => String.eqb name (col_name c))
                         (rev Demo.orders_columns)).
Proof.
  apply (schema_holds_reported_columns Demo.env "orders" Demo.orders_columns).
  reflexivity.
Defined.

(** ** Inserting in batches of any size *)

Lemma firstn_plus {A} a b (l : list A) :
  firstn (a + b) l = firstn a l ++ firstn b (skipn a l).
Proof.
  revert l. induction a as [|a IH]; intros l; simpl; auto.
  destruct l as [|x l]; simpl.
  - now rewrite firstn_nil.
  - now rewrite IH.
Qed.

Lemma skipn_plus {A} a b (l : list A) :
  skipn (a + b) l = skipn b (skipn a l).
Proof.
  revert l. induction a as [|a IH]; intros l; simpl; auto.
  destruct l as [|x l]; simpl; auto. now rewrite skipn_nil.
Qed.

Lemma slice_app {A} (l : list A) i j k :
  i <= j -> j <= k ->
  Py.slice l i j ++ Py.slice l j k = Py.slice l i k.
Proof.
  intros H1 H2. unfold Py.slice.
  replace (k - i) with ((j - i) + (k - j)) by lia.
  rewrite firstn_plus. f_equal.
  replace j with (i + (j - i)) at 2 by lia.
  now rewrite skipn_plus.
Qed.

Lemma slice_all {A} (l : list A) k :
  length l <= k -> Py.slice l 0 k = l.
Proof.
  intros H. unfold Py.slice. simpl. rewrite Nat.sub_0_r.
  now apply firstn_all2.
Qed.

(** The statements of one [insert_data], batch by batch from batch [a]. *)
Lemma execute_batches_run env table_name prepared bs :
  forall len a visible tr,
    match DatabaseHandler.execute_batches env table_name
            (map (fun j => j * bs) (seq a len)) prepared bs visible tr with
    | (Ok visible', tr') =>
        visible'
        = visible ++ map (pair table_name)
                         (Py.slice prepared (a * bs) ((a + len) * bs)) /\
        exists sent, tr' = tr ++ sent /\ executions sent = repeat true len /\
                     forallb is_execute sent = true
    | (Raise e, tr') =>
        e = StatementRejected table_name /\
        exists m sent,
          m < len /\ tr' = tr ++ sent /\
          executions sent = repeat true m ++ [false] /\
          forallb is_execute sent = true
    end.
Proof.
  induction len as [|len IH]; intros a visible tr;
    cbn [seq map DatabaseHandler.execute_batches].
  - split.
    + unfold Py.slice. rewrite Nat.add_0_r, Nat.sub_diag. simpl.
      now rewrite app_nil_r.
    + exists []. now rewrite app_nil_r.
  - cbv zeta. set (batch := Py.slice prepared (a * bs) (a * bs + bs)).
    assert (Hslice : batch ++ Py.slice prepared (S a * bs) ((S a + len) * bs)
                     = Py.slice prepared (a * bs) ((a + S len) * bs)).
    { unfold batch. replace (S a * bs) with (a * bs + bs) by lia.
      replace ((S a + len) * bs) with ((a + S len) * bs) by (f_equal; lia).
      apply slice_app; nia. }
    destruct (db_accepts env visible table_name batch) eqn:Eok.
    + specialize (IH (S a) (visible ++ map (pair table_name) batch)
                     (tr ++ [EExecute table_name batch true])).
      destruct (DatabaseHandler.execute_batches env table_name _ prepared bs _ _)
        as [[visible'|e] tr'].
      * destruct IH as [Hv [sent [Ht [Hex Hall]]]]. split.
        -- now rewrite Hv, <- app_assoc, <- map_app, Hslice.
        -- exists (EExecute table_name batch true :: sent).
           rewrite Ht, <- app_assoc. simpl. rewrite Hall.
           unfold executions in *. simpl. now rewrite Hex.
      * destruct IH as [He [m [sent [Hm [Ht [Hex Hall]]]]]].
        split; [exact He|].
        exists (S m), (EExecute table_name batch true :: sent).
        rewrite Ht, <- app_assoc. simpl. rewrite Hall.
        unfold executions in *. simpl. rewrite Hex.
        repeat split; auto. lia.
    + split; [reflexivity|].
      exists 0, [EExecute table_name batch false]. repeat split; auto. lia.
Qed.

Lemma chunk_count_empty bs : chunk_count 0 bs = 0.
Proof.
  unfold chunk_count. destruct bs as [|bs]; [reflexivity|].
  apply Nat.div_small. lia.
Qed.

(** One call of [insert_data], whatever the batch size. *)
Lemma insert_data_run :
  forall env table_name data batch_size w,
    match DatabaseHandler.insert_data env table_name data batch_size w with
    | (Ok _, w') =>
        files w' = files w /\ control_table w' = control_table w /\
        exists prepared sent,
          DatabaseHandler.validate_and_prepare_data env table_name data
          = Ok prepared /\
          trace w' = trace w ++ sent /\
          if (batch_size <? 0)%Z then target w' = target w /\ sent = []
          else
            target w' = target w ++ map (pair table_name) prepared /\
            executions sent
            = repeat true (chunk_count (length data) (Z.to_nat batch_size))
    | (Raise e, w') =>
        files w' = files w /\ control_table w' = control_table w /\
        target w' = target w /\
        exists sent,
          trace w' = trace w ++ sent /\
          (sent = [] \/
           exists m,
             m < chunk_count (length data) (Z.to_nat batch_size) /\
             executions sent = repeat true m ++ [false])
    end.
Proof.
  intros env table_name data batch_size w.
  unfold DatabaseHandler.insert_data.
  destruct data as [|r0 data'] eqn:Edata.
  { repeat split. exists [], []. simpl.
    rewrite !app_nil_r, chunk_count_empty.
    destruct (batch_size <? 0)%Z; auto. }
  rewrite <- Edata.
  destruct (DatabaseHandler.validate_and_prepare_data env table_name data)
    as [prepared|e] eqn:Eprep.
  2:{ repeat split. exists []. rewrite app_nil_r. auto. }
  destruct (batch_size =? 0)%Z eqn:Ebs.
  { repeat split. exists []. rewrite app_nil_r. auto. }
  apply Z.eqb_neq in Ebs.
  destruct (batch_size <? 0)%Z eqn:Eneg.
  { repeat split. exists prepared, []. rewrite app_nil_r. auto. }
  apply Z.ltb_ge in Eneg. cbv zeta.
  set (step := Z.to_nat batch_size).
  assert (Hbs : 0 < step) by (unfold step; lia).
  unfold Py.range_step. fold (chunk_count (length data) step).
  pose proof (execute_batches_run env table_name prepared step
                (chunk_count (length data) step) 0 (target w) [])
    as Hrun.
  destruct (DatabaseHandler.execute_batches env table_name _ prepared
              step (target w) []) as [[visible|e] tr].
  - destruct Hrun as [Hv [sent [Ht [Hex _]]]]. simpl in Ht. subst tr.
    repeat split. exists prepared, sent. repeat split; auto.
    simpl. rewrite Hv. do 2 f_equal. apply slice_all.
    rewrite (validate_and_prepare_length _ _ _ _ Eprep).
    destruct (chunk_count_bounds (length data) step Hbs). simpl. lia.
  - destruct Hrun as [_ [m [sent [Hm [Ht [Hex _]]]]]]. simpl in Ht. subst tr.
    repeat split. exists sent. split; auto. right. eauto.
Qed.

(** X6: [insert_data] is all or nothing, whatever integer the batch size
    is.  When it raises, after any number of accepted batches, the table
    is as it was.  When it returns with a batch size that is not
    negative, the table has gained exactly the reconciled rows, in
    order, through one accepted statement per batch; with a negative
    batch size the loop over the batches is empty, and the call returns
    having sent no statement and inserted nothing.  It never touches
    storage or the control table. *)
Theorem insert_data_all_or_nothing :
  forall env table_name data batch_size w,
    match DatabaseHandler.insert_data env table_name data batch_size w with
    | (Ok _, w') =>
        files w' = files w /\ control_table w' = control_table w /\
        exists prepared sent,
          DatabaseHandler.validate_and_prepare_data env table_name data
          = Ok prepared /\
          trace w' = trace w ++ sent /\
          if (batch_size <? 0)%Z then target w' = target w /\ sent = []
          else
            target w' = target w ++ map (pair table_name) prepared /\
            executions sent
            = repeat true (chunk_count (length data) (Z.to_nat batch_size))
    | (Raise e, w') =>
        files w' = files w /\ control_table w' = control_table w /\
        target w' = target w /\
        exists sent,
          trace w' = trace w ++ sent /\
          (sent = [] \/
           exists m,
             m < chunk_count (length data) (Z.to_nat batch_size) /\
             executions sent = repeat true m ++ [false])
    end.
Proof. exact insert_data_run. Qed.

(** ** The shape of an attempt *)

Lemma loading_event_shift r r1 n e :
  same_but_progress r r1 ->
  (loaded_rows r1 = loaded_rows r \/
   exists l, loaded_rows r1 = Some l /\ l <= n) ->
  loading_event r1 n e -> loading_event r n e.
Proof.
  intros Hsame Hl. destruct e as [c| | |]; simpl; auto.
  intros [Hs Hc]. split.
  - eapply same_but_progress_trans; eauto.
  - destruct Hc as [Hc|Hc]; [|auto].
    rewrite Hc. exact Hl.
Qed.

Lemma executes_are_loading r n tr :
  forallb is_execute tr = true -> Forall (loading_event r n) tr.
Proof.
  intros H. apply Forall_forall. intros e He.
  rewrite forallb_forall in H. specialize (H e He).
  destruct e; try discriminate. exact I.
Qed.

Section LoadingEvents.

Variable env : Env.
Variable bs : nat.
Variable df : DataFrame.
Variable table_name : string.
Hypothesis bs_positive : 0 < bs.

(** Every event of the loop is a loading event for the record the loop
    started from, and so is the commit of the record it ends with. *)
Lemma batches_loop_events :
  forall len a total s r s',
    (a + len) * bs < length (rows df) + bs ->
    total = Nat.min (a * bs) (length (rows df)) ->
    FileProcessor.batches_loop env bs df table_name
      (map (fun j => j * bs) (seq a len)) total s = (r, s') ->
    exists delta,
      trace (world s') = trace (world s) ++ delta /\
      Forall (loading_event (control_record s) (length (rows df))) delta /\
      loading_event (control_record s) (length (rows df))
                    (ECommit (control_record s')).
Proof.
  induction len as [|len IH]; intros a total s r s' Hbound Htotal.
  - simpl. intros [= <- <-]. exists []. rewrite app_nil_r.
    repeat split; auto using same_but_progress_refl.
  - cbn [seq map FileProcessor.batches_loop]. unfold bind at 1.
    assert (Hi : a * bs < length (rows df)) by nia.
    rewrite process_batch_unfold. cbv zeta.
    set (cr1 := set_current_batch (Some (a * bs / bs + 1)) (control_record s)).
    set (batch_df := Py.slice (rows df) (a * bs) (a * bs + bs)).
    set (data := FileProcessor.to_dict_records (columns df) batch_df).
    assert (Hbatch : length batch_df = Nat.min bs (length (rows df) - a * bs)).
    { unfold batch_df. apply slice_length. }
    assert (Hlen : length data <= bs).
    { unfold data, FileProcessor.to_dict_records. rewrite length_map. lia. }
    destruct (DatabaseHandler.insert_data env table_name data (Z.of_nat bs)
                (log_event (ECommit cr1) (world s))) as [res w2] eqn:Eins.
    apply insert_data_chunk in Eins; [|assumption|assumption].
    destruct Eins as [_ [_ [_ [tr [Htr [Hex _]]]]]].
    cbn [trace log_event] in Htr.
    assert (Hcr1 : loading_event (control_record s) (length (rows df))
                                 (ECommit cr1)).
    { simpl. split; [|now left]. unfold same_but_progress. repeat split. }
    destruct res as [[]|e].
    + set (total' := total + length batch_df).
      set (cr2 := set_loaded_rows (Some total') cr1).
      assert (Hcr2 : loading_event (control_record s) (length (rows df))
                                   (ECommit cr2)).
      { simpl. split; [unfold same_but_progress; repeat split|].
        right. exists total'. split; [reflexivity|]. unfold total'. lia. }
      intros Hrest. apply IH in Hrest; [| nia | unfold total'; nia].
      destruct Hrest as [d2 [Ht2 [Hall2 Hfin2]]].
      rewrite ?written_record in Hall2, Hfin2.
      rewrite written_world in Ht2.
      cbn [control_record world trace log_event] in Ht2, Hall2, Hfin2.
      assert (Hshift : forall e,
                 loading_event cr2 (length (rows df)) e ->
                 loading_event (control_record s) (length (rows df)) e).
      { intros e. apply loading_event_shift.
        - unfold same_but_progress. repeat split.
        - right. exists total'. split; [reflexivity|]. unfold total'. lia. }
      exists (ECommit cr1 :: tr ++ [ECommit cr2] ++ d2). split.
      { rewrite Ht2, Htr. rewrite <- !app_assoc. reflexivity. }
      split; [|now apply Hshift].
      constructor; [exact Hcr1|].
      apply Forall_app. split; [now apply executes_are_loading|].
      constructor; [exact Hcr2|].
      eapply Forall_impl; [|exact Hall2]. exact Hshift.
    + intros [= <- <-]. cbn [with_world control_record world].
      rewrite written_record.
      exists (ECommit cr1 :: tr). split.
      { rewrite Htr, <- app_assoc. reflexivity. }
      split; [|exact Hcr1].
      constructor; [exact Hcr1 | now apply executes_are_loading].
Qed.

End LoadingEvents.

Lemma process_batches_events env df table_name s r s' :
  FileProcessor._process_batches env df table_name s = (r, s') ->
  exists delta,
    trace (world s') = trace (world s) ++ delta /\
    Forall (loading_event (control_record s) (length (rows df))) delta /\
    loading_event (control_record s) (length (rows df))
                  (ECommit (control_record s')).
Proof.
  unfold FileProcessor._process_batches, FileProcessor.process_batches_sized,
    Py.range_step.
  pose proof batch_size_positive as Hbs.
  destruct (chunk_count_bounds (length (rows df)) FileProcessor.batch_size Hbs)
    as [Hc _]. unfold chunk_count in Hc.
  intros Hrun. eapply batches_loop_events in Hrun; eauto.
Qed.

Section AttemptShape.

Variable env : Env.
Variable file_path : string.
Variable pattern_config : PatternConfig.

(** The error path, event by event: the row stays as it was last
    committed. *)
Lemma fail_closes e s :
  persisted s = Some (control_record s) ->
  exists post row,
    trace (world (snd (fail env file_path e s))) = trace (world s) ++ post /\
    control_table (world (snd (fail env file_path e s)))
    = control_table (world s) /\
    target (world (snd (fail env file_path e s))) = target (world s) /\
    persisted (snd (fail env file_path e s)) = Some row /\
    row = control_record s /\
    ((file_exists (world s) file_path = true /\
      post = [EMove file_path
                (FileProcessor.error_path env (Py.basename file_path)) true;
              ECommit (error_record e (control_record s));
              ECommit (error_record e (control_record s))] /\
      files (world (snd (fail env file_path e s)))
      = FileProcessor.error_path env (Py.basename file_path)
        :: remove_path (FileProcessor.error_path env (Py.basename file_path))
             (remove_path file_path (files (world s)))) \/
     (file_exists (world s) file_path = false /\
      post = [EMove file_path
                (FileProcessor.error_path env (Py.basename file_path)) false] /\
      files (world (snd (fail env file_path e s))) = files (world s))).
Proof.
  intros Hp. unfold fail.
  destruct (rolled_back_clean s Hp) as [Hr [Hpr [Hm Hw]]].
  destruct (file_exists (world s) file_path) eqn:E.
  - rewrite handle_error_present by (rewrite Hw; exact E).
    cbv zeta. cbn [snd].
    eexists. eexists.
    cbn [world control_record persisted control_table target trace files
         log_event set_files].
    rewrite Hr, Hpr, Hw.
    split; [rewrite <- !app_assoc; reflexivity|].
    split; [reflexivity|]. split; [reflexivity|]. split; [exact Hp|].
    split; [reflexivity|].
    left. repeat split; reflexivity.
  - rewrite handle_error_absent by (rewrite Hw; exact E). cbn [snd].
    eexists. eexists.
    cbn [world control_record persisted control_table target trace files
         log_event set_files].
    rewrite Hpr, Hw.
    split; [reflexivity|]. split; [reflexivity|]. split; [reflexivity|].
    split; [exact Hp|]. split; [reflexivity|]. right. auto.
Qed.

(** Every attempt is an opening, a stage and a closing; the only file it
    touches is its own. *)
Lemma attempt_shape s0 :
  persisted s0 = None ->
  let s := snd (FileProcessor.process_file_body env file_path
                  pattern_config s0) in
  let r0 := control_record s0 in
  let r1 := set_status "IN_PROGRESS" r0 in
  exists mid r4 post row,
    trace (world s)
    = trace (world s0) ++ [ECommit r0; ECommit r1] ++ mid ++ post /\
    control_table (world s) = control_table (world s0) /\
    persisted s = Some row /\
    staged r1 mid r4 /\
    closes env file_path r4 post row /\
    moved_by file_path post (world s0) (world s).
Proof.
  intros Hnone. rewrite process_file_body_unfold by exact Hnone. cbv zeta.
  set (r0 := control_record s0).
  set (r1 := set_status "IN_PROGRESS" r0).
  set (w2 := log_event (ECommit r1) (log_event (ECommit r0) (world s0))).
  set (s2 := updated r1 w2 s0).
  assert (Hfail : forall e s mid,
             persisted s = Some (control_record s) ->
             trace (world s)
             = trace (world s0) ++ [ECommit r0; ECommit r1] ++ mid ->
             control_table (world s) = control_table (world s0) ->
             files (world s) = files (world s0) ->
             staged r1 mid (control_record s) ->
             exists mid' r4 post row,
               trace (world (snd (fail env file_path e s)))
               = trace (world s0) ++ [ECommit r0; ECommit r1] ++ mid' ++ post /\
               control_table (world (snd (fail env file_path e s)))
               = control_table (world s0) /\
               persisted (snd (fail env file_path e s)) = Some row /\
               staged r1 mid' r4 /\
               closes env file_path r4 post row /\
               moved_by file_path post (world s0)
                        (world (snd (fail env file_path e s)))).
  { intros e s mid Hp Ht Hc Hf Hst.
    destruct (fail_closes e s Hp)
      as [post [row [Htr [Hct [_ [Hrow [-> Hcase]]]]]]].
    exists mid, (control_record s), post, (control_record s).
    split; [rewrite Htr, Ht, <- !app_assoc; reflexivity|].
    split; [congruence|]. split; [exact Hrow|]. split; [exact Hst|].
    unfold closes.
    assert (Hex : file_exists (world s) file_path
                  = file_exists (world s0) file_path).
    { unfold file_exists. now rewrite Hf. }
    destruct Hcase as [[Hin [-> Hfs]]|[Hin [-> Hfs]]].
    - split; [right; left; eauto|]. split; [congruence|].
      rewrite Hfs, Hf. reflexivity.
    - split; [right; right; left; auto|]. split; [congruence|].
      rewrite Hfs, Hf. reflexivity. }
  destruct (read_file env file_path _ _ w2) as [[df|e] w2'].
  2:{ apply (Hfail e s2 []).
      - reflexivity.
      - unfold s2, w2. simpl. now rewrite <- !app_assoc.
      - reflexivity.
      - reflexivity.
      - left. auto. }
  set (n := length (rows df)).
  set (r2 := set_total_rows (Some n) r1).
  set (w3 := log_event (EValidate (table pattern_config) df)
               (log_event (ECommit r2) w2)).
  set (s3 := updated r2 w3 s2).
  assert (Hs3 : holds_row s3) by (split; reflexivity).
  assert (Hr2 : loading_event r2 n (ECommit r2)).
  { simpl. split; [apply same_but_progress_refl | now left]. }
  assert (Ht3 : forall loaded,
             trace (world s3) ++ loaded
             = trace (world s0) ++ [ECommit r0; ECommit r1]
               ++ (ECommit r2 :: EValidate (table pattern_config) df :: loaded)).
  { intros loaded. unfold s3, w3, w2. simpl. now rewrite <- !app_assoc. }
  assert (Hfail3 : forall e,
             exists mid' r4 post row,
               trace (world (snd (fail env file_path e s3)))
               = trace (world s0) ++ [ECommit r0; ECommit r1] ++ mid' ++ post /\
               control_table (world (snd (fail env file_path e s3)))
               = control_table (world s0) /\
               persisted (snd (fail env file_path e s3)) = Some row /\
               staged r1 mid' r4 /\
               closes env file_path r4 post row /\
               moved_by file_path post (world s0)
                        (world (snd (fail env file_path e s3)))).
  { intros e.
    apply (Hfail e s3 [ECommit r2; EValidate (table pattern_config) df]).
    - reflexivity.
    - rewrite <- (Ht3 []). now rewrite app_nil_r.
    - reflexivity.
    - reflexivity.
    - right. exists df, (table pattern_config), []. cbv zeta.
      fold n. fold r2. auto. }
  destruct (DataValidator.validate_data env df (table pattern_config))
    as [vr|e]; [|apply Hfail3].
  destruct (negb (DataValidator.is_valid vr)); [apply Hfail3|].
  destruct (FileProcessor._process_batches env _ (table pattern_config) s3)
    as [res s4] eqn:Eload.
  pose proof Eload as Eev. apply process_batches_events in Eev.
  rewrite add_metadata_rows in Eev. fold n in Eev.
  destruct Eev as [d4 [Ht4 [Hall4 Hfin4]]].
  cbn [control_record] in Hall4, Hfin4.
  unfold FileProcessor._process_batches in Eload.
  apply process_batches_sized_run in Eload; [|apply batch_size_positive].
  destruct Eload as [Hheld [_ [Hf4 [Hc4 [_ [d4' [_ [_ [_ Hr4]]]]]]]]].
  specialize (Hheld Hs3).
  assert (Hp4 : persisted s4 = Some (control_record s4)).
  { destruct res as [[]|e].
    - destruct Hr4 as [_ [_ [_ Hfin]]].
      destruct (chunk_count _ _); [now subst s4 | apply Hfin, Hs3].
    - destruct Hr4 as [k [cause H]]. apply H, Hs3. }
  assert (Hst4 : staged r1
                   (ECommit r2 :: EValidate (table pattern_config) df :: d4)
                   (control_record s4)).
  { right. exists df, (table pattern_config), d4. cbv zeta.
    fold n. fold r2. auto. }
  assert (Htr4 : trace (world s4)
                 = trace (world s0) ++ [ECommit r0; ECommit r1]
                   ++ (ECommit r2 :: EValidate (table pattern_config) df :: d4)).
  { rewrite Ht4. apply Ht3. }
  destruct res as [[]|e]; [|now apply (Hfail e s4 _ Hp4 Htr4)].
  destruct (file_exists (world s4) file_path) eqn:Efile.
  - rewrite archive_file_present by assumption. cbv zeta.
    rewrite closed_updated. cbn [snd world control_record persisted].
    set (rs := success_record (control_record s4)).
    exists (ECommit r2 :: EValidate (table pattern_config) df :: d4),
      (control_record s4),
      [EMove file_path
         (FileProcessor.archive_path env (Py.basename file_path)) true;
       ECommit rs; ECommit rs], rs.
    split.
    { cbn [trace log_event set_files]. rewrite Htr4.
      rewrite <- !app_assoc. reflexivity. }
    split; [simpl; rewrite Hc4; reflexivity|].
    split; [reflexivity|]. split; [exact Hst4|].
    split; [left; auto|].
    split; [|cbn [files log_event set_files]; rewrite Hf4; reflexivity].
    rewrite <- Efile. unfold file_exists. now rewrite Hf4.
  - rewrite archive_file_absent by exact Efile.
    set (s5 := with_world
                 (log_event
                    (EMove file_path
                       (FileProcessor.archive_path env
                          (Py.basename file_path)) false)) s4).
    destruct (fail_closes (FileNotFound file_path) s5 Hp4)
      as [post [row [Htr [Hct [_ [Hrow [Hrow' Hcase]]]]]]].
    destruct Hcase as [[Hyes _]|[_ [Hpost Hfs]]].
    { unfold s5 in Hyes. simpl in Hyes. unfold file_exists in *.
      simpl in Hyes. congruence. }
    exists (ECommit r2 :: EValidate (table pattern_config) df :: d4),
      (control_record s4),
      [EMove file_path
         (FileProcessor.archive_path env (Py.basename file_path)) false;
       EMove file_path
         (FileProcessor.error_path env (Py.basename file_path)) false],
      (control_record s4).
    split.
    { rewrite Htr, Hpost. unfold s5. cbn [with_world world trace log_event].
      rewrite Htr4, <- !app_assoc. reflexivity. }
    split; [rewrite Hct; simpl; rewrite Hc4; reflexivity|].
    split; [rewrite Hrow, Hrow'; reflexivity|].
    split; [exact Hst4|].
    split; [right; right; right; auto|].
    split; [|rewrite Hfs; unfold s5; cbn [with_world world files log_event];
             exact Hf4].
    rewrite <- Efile. unfold file_exists. now rewrite Hf4.
Qed.

End AttemptShape.

(** ** [process_file], attempt by attempt *)

Lemma commits_app l1 l2 : commits (l1 ++ l2) = commits l1 ++ commits l2.
Proof. unfold commits. apply flat_map_app. Qed.

(** The shape of an attempt, seen from the world [process_file] leaves. *)
Lemma process_file_shape env path pattern_config pid w :
  let w' := FileProcessor.process_file env path pattern_config pid w in
  let r0 := FileProcessor.new_control_record pid (Py.basename path) path
              pattern_config in
  let r1 := set_status "IN_PROGRESS" r0 in
  exists mid r4 post row,
    trace w' = trace w ++ [ECommit r0; ECommit r1] ++ mid ++ post /\
    control_table w' = control_table w ++ [row] /\
    staged r1 mid r4 /\
    closes env path r4 post row /\
    moved_by path post w w'.
Proof.
  intros w' r0 r1.
  destruct (attempt_shape env path pattern_config
              (FileProcessor.open_session env path pattern_config pid w)
              eq_refl)
    as [mid [r4 [post [row [Ht [Hc [Hp [Hst [Hcl Hmv]]]]]]]]].
  exists mid, r4, post, row.
  unfold w', FileProcessor.process_file, FileProcessor.process_file_session.
  rewrite Hp.
  cbn [trace control_table set_control_table set_modified_dates].
  split; [exact Ht|]. split; [now rewrite Hc|].
  split; [exact Hst|]. split; [exact Hcl|].
  unfold moved_by in *. cbn [files set_control_table set_modified_dates].
  exact Hmv.
Qed.

(** What the stage of an attempt leaves of the record it started from. *)
Lemma staged_fields r1 mid r4 :
  staged r1 mid r4 ->
  process_id r4 = process_id r1 /\ file_name r4 = file_name r1 /\
  file_path r4 = file_path r1 /\ target_table r4 = target_table r1 /\
  status r4 = status r1 /\ error_message r4 = error_message r1 /\
  file_location r4 = file_location r1 /\
  created_by r4 = created_by r1 /\ modified_by r4 = modified_by r1.
Proof.
  intros [[_ ->]|[df [t [loaded [_ [_ Hfin]]]]]].
  - repeat split.
  - destruct Hfin as [Hsame _]. unfold same_but_progress in Hsame.
    simpl in Hsame. tauto.
Qed.

Lemma closes_fields env path r4 post row :
  closes env path r4 post row ->
  process_id row = process_id r4 /\ file_name row = file_name r4 /\
  file_path row = file_path r4 /\ target_table row = target_table r4 /\
  created_by row = created_by r4 /\ modified_by row = modified_by r4 /\
  total_rows row = total_rows r4 /\ loaded_rows row = loaded_rows r4 /\
  current_batch row = current_batch r4 /\
  (status row = "SUCCESS" \/ status row = "ERROR" \/ row = r4).
Proof.
  intros [[_ ->]|[[e [_ ->]]|[[_ ->]|[_ ->]]]]; simpl; repeat split; auto.
Qed.

Lemma loading_commits r2 n loaded :
  Forall (loading_event r2 n) loaded ->
  Forall (fun r => loading_event r2 n (ECommit r)) (commits loaded).
Proof.
  induction 1 as [|e l He _ IH]; [constructor|].
  destruct e; simpl in *; auto; contradiction.
Qed.

(** The record an attempt leaves. *)
Lemma process_file_record :
  forall env path pattern_config pid w,
  exists row,
    control_table (FileProcessor.process_file env path pattern_config pid w)
    = control_table w ++ [row] /\
    process_id row = pid /\ file_name row = Py.basename path /\
    file_path row = path /\ target_table row = table pattern_config /\
    created_by row = Some "SYSTEM" /\
    (status row = "IN_PROGRESS" \/ status row = "SUCCESS" \/
     status row = "ERROR").
Proof.
  intros env path pattern_config pid w.
  destruct (process_file_shape env path pattern_config pid w)
    as [mid [r4 [post [row [_ [Hc [Hst [Hcl _]]]]]]]].
  apply staged_fields in Hst. apply closes_fields in Hcl. simpl in Hst.
  exists row. split; [exact Hc|].
  destruct Hst as [S1 [S2 [S3 [S4 [S5 [_ [_ [S8 _]]]]]]]].
  destruct Hcl as [C1 [C2 [C3 [C4 [C5 [_ [_ [_ [_ C6]]]]]]]]].
  split; [congruence|]. split; [congruence|]. split; [congruence|].
  split; [congruence|]. split; [congruence|].
  destruct C6 as [C6|[C6|C6]]; [auto | auto | subst row; auto].
Qed.

(** X7: whatever happens to the file, [process_file] leaves exactly one
    more record in the control table, after the ones that were there; it
    carries the process id, the name, the path and the target table of
    the attempt, and it is never left INITIATED. *)
Theorem process_file_appends_one_record :
  forall env path pattern_config pid w,
  exists row,
    control_table (FileProcessor.process_file env path pattern_config pid w)
    = control_table w ++ [row] /\
    process_id row = pid /\ file_name row = Py.basename path /\
    file_path row = path /\ target_table row = table pattern_config /\
    created_by row = Some "SYSTEM" /\
    (status row = "IN_PROGRESS" \/ status row = "SUCCESS" \/
     status row = "ERROR").
Proof. exact process_file_record. Qed.

(** The file [in/big.csv] fails in its second chunk: its record is the
    one record of the table, left IN_PROGRESS. *)
Lemma process_file_appends_one_record_example :
  map (fun r => (process_id r, file_name r, status r))
      (control_table (FileProcessor.process_file Demo.env "in/big.csv"
                        Demo.orders_pattern "p1" Demo.world0))
  = [("p1", "big.csv", "IN_PROGRESS")].
Proof. vm_compute. reflexivity. Qed.

(** X8: when the file is not there, nothing can be read and nothing can
    be moved: [_handle_error] fails in its move, its session is rolled
    back, and the record stays IN_PROGRESS without an error message, in
    location INPUT; no file, no row of a data table is touched, and the
    only events are the two opening commits and the failed move. *)
Theorem missing_file_stays_in_progress :
  forall env path pattern_config pid w,
    file_exists w path = false ->
    let w' := FileProcessor.process_file env path pattern_config pid w in
    let r0 := FileProcessor.new_control_record pid (Py.basename path) path
                pattern_config in
    control_table w'
    = control_table w ++ [set_status "IN_PROGRESS" r0] /\
    files w' = files w /\ target w' = target w /\
    trace w'
    = trace w ++ [ECommit r0; ECommit (set_status "IN_PROGRESS" r0);
                  EMove path
                    (FileProcessor.error_path env (Py.basename path)) false].
Proof.
  intros env path pattern_config pid w Hfile w' r0.
  unfold w', FileProcessor.process_file, FileProcessor.process_file_session.
  rewrite process_file_body_unfold by reflexivity. cbv zeta.
  unfold read_file.
  change (file_exists
            (log_event
               (ECommit (set_status "IN_PROGRESS"
                  (control_record
                     (FileProcessor.open_session env path pattern_config pid w))))
               (log_event
                  (ECommit (control_record
                     (FileProcessor.open_session env path pattern_config pid w)))
                  (world (FileProcessor.open_session env path pattern_config
                            pid w)))) path)
    with (file_exists w path).
  rewrite Hfile. unfold fail.
  rewrite handle_error_absent by exact Hfile.
  cbn [snd persisted world control_record FileProcessor.open_session
       set_control_table set_modified_dates log_event control_table files
       target trace rolled_back FileProcessor.rollback FileProcessor.close
       updated attached].
  fold r0. repeat split. now rewrite <- !app_assoc.
Qed.

Lemma missing_file_stays_in_progress_example :
  file_exists Demo.world0 "in/none.csv" = false /\
  map (fun r => (status r, error_message r, file_location r))
      (control_table (FileProcessor.process_file Demo.env "in/none.csv"
                        Demo.orders_pattern "p1" Demo.world0))
  = [("IN_PROGRESS", None, Some "INPUT")].
Proof.
  split; [reflexivity|].
  rewrite (proj1 (missing_file_stays_in_progress Demo.env "in/none.csv"
                    Demo.orders_pattern "p1" Demo.world0 eq_refl)).
  reflexivity.
Defined.

Lemma closed_after_move_open l1 l2 :
  Forall (fun e => match e with
                   | ECommit r => is_terminal (status r) = false
                   | EMove _ _ ok => ok = false
                   | _ => True
                   end) l1 ->
  closed_after_move false (l1 ++ l2) = closed_after_move false l2.
Proof.
  induction 1 as [|e l He _ IH]; [reflexivity|].
  destruct e as [r|t df|t b ok|src dst ok]; simpl; auto.
  - now rewrite He.
  - now subst ok.
Qed.

Lemma loading_keeps_open r2 n loaded :
  is_terminal (status r2) = false ->
  Forall (loading_event r2 n) loaded ->
  Forall (fun e => match e with
                   | ECommit r => is_terminal (status r) = false
                   | EMove _ _ ok => ok = false
                   | _ => True
                   end) loaded.
Proof.
  intros Hopen. induction 1 as [|e l He _ IH]; constructor; auto.
  destruct e as [r|t df|t b ok|src dst ok]; simpl in *; auto;
    try contradiction.
  destruct He as [[_ [_ [_ [_ [Hs _]]]]] _]. now rewrite Hs.
Qed.

(** X9: in the events of an attempt, every commit of a record whose
    status is SUCCESS or ERROR comes after a move that succeeded: the
    ledger never shows an attempt as closed while its file is still
    where it was found. *)
Theorem record_closed_only_after_move :
  forall env path pattern_config pid w,
  exists delta,
    trace (FileProcessor.process_file env path pattern_config pid w)
    = trace w ++ delta /\
    closed_after_move false delta = true.
Proof.
  intros env path pattern_config pid w.
  destruct (process_file_shape env path pattern_config pid w)
    as [mid [r4 [post [row [Ht [_ [Hst [Hcl _]]]]]]]].
  eexists. split; [exact Ht|].
  change ([ECommit ?a; ECommit ?b] ++ mid ++ post)
    with ([ECommit a; ECommit b] ++ (mid ++ post)).
  rewrite closed_after_move_open
    by (repeat constructor).
  assert (Hpost : closed_after_move false post = true).
  { destruct Hcl as [[-> _]|[[e [-> _]]|[[-> _]|[-> _]]]]; reflexivity. }
  destruct Hst as [[-> _]|[df [t [loaded [-> [Hall _]]]]]]; [exact Hpost|].
  cbn [app closed_after_move set_total_rows set_status status is_terminal].
  cbn [String.eqb Ascii.eqb Bool.eqb orb negb andb].
  rewrite closed_after_move_open; [exact Hpost|].
  eapply loading_keeps_open; [|exact Hall]. reflexivity.
Qed.

Lemma loading_within_total r2 n r :
  total_rows r2 = Some n -> loaded_rows r2 = None ->
  loading_event r2 n (ECommit r) ->
  within_total r = true.
Proof.
  intros Ht Hl [Hsame Hle]. unfold within_total.
  destruct Hsame as [_ [_ [_ [_ [_ [Htot _]]]]]].
  rewrite Htot, Ht.
  destruct Hle as [->|[l [-> Hle]]]; [now rewrite Hl|].
  now apply Nat.leb_le.
Qed.

(** X10: every state of the record that an attempt commits, and the row
    it leaves in the control table, reports at most as many loaded rows
    as the file has: [loaded_rows] is unset, or [total_rows] is set and
    is not smaller. *)
Theorem loaded_rows_within_total :
  forall env path pattern_config pid w,
  exists delta row,
    trace (FileProcessor.process_file env path pattern_config pid w)
    = trace w ++ delta /\
    control_table (FileProcessor.process_file env path pattern_config pid w)
    = control_table w ++ [row] /\
    forallb within_total (commits delta) = true /\
    within_total row = true.
Proof.
  intros env path pattern_config pid w.
  destruct (process_file_shape env path pattern_config pid w)
    as [mid [r4 [post [row [Ht [Hc [Hst [Hcl _]]]]]]]].
  eexists. exists row. split; [exact Ht|]. split; [exact Hc|].
  set (r1 := set_status "IN_PROGRESS"
               (FileProcessor.new_control_record pid (Py.basename path) path
                  pattern_config)) in *.
  assert (H4 : within_total r4 = true /\
               forallb within_total (commits mid) = true).
  { destruct Hst as [[-> ->]|[df [t [loaded [-> [Hall Hfin]]]]]];
      [split; reflexivity|].
    cbv zeta in Hall, Hfin. split.
    - eapply loading_within_total; [| |exact Hfin]; reflexivity.
    - cbn [commits flat_map app]. fold (commits loaded).
      apply andb_true_iff. split; [reflexivity|].
      apply forallb_forall. intros r Hr.
      apply loading_commits in Hall.
      rewrite Forall_forall in Hall.
      eapply loading_within_total; [| |apply Hall; exact Hr]; reflexivity. }
  destruct H4 as [H4 Hmid].
  assert (Hrow : within_total row = true /\
                 forallb within_total (commits post) = true).
  { unfold within_total in *.
    destruct Hcl as [[-> ->]|[[e [-> ->]]|[[-> ->]|[-> ->]]]]; simpl;
      rewrite ?H4; auto. }
  destruct Hrow as [Hrow Hpost]. split; [|exact Hrow].
  rewrite !commits_app, !forallb_app, Hmid, Hpost. reflexivity.
Qed.

Lemma loading_statuses r2 n loaded :
  Forall (loading_event r2 n) loaded ->
  map status (commits loaded) = repeat (status r2) (length (commits loaded)).
Proof.
  intros Hall. apply loading_commits in Hall.
  induction Hall as [|r l Hr _ IH]; [reflexivity|].
  simpl. rewrite IH. f_equal.
  destruct Hr as [[_ [_ [_ [_ [Hs _]]]]] _]. exact Hs.
Qed.

(** X11: the statuses of the record at the commits of an attempt, in
    order: INITIATED once, then IN_PROGRESS one or more times, then
    nothing more, or SUCCESS twice, or ERROR twice (the commit of the
    closing function and the commit that ends its session).  The record
    has no other status at a commit, and none after a closing one. *)
Theorem committed_statuses :
  forall env path pattern_config pid w,
  exists delta k closing,
    trace (FileProcessor.process_file env path pattern_config pid w)
    = trace w ++ delta /\
    map status (commits delta)
    = "INITIATED" :: repeat "IN_PROGRESS" (S k) ++ closing /\
    (closing = [] \/ closing = ["SUCCESS"; "SUCCESS"] \/
     closing = ["ERROR"; "ERROR"]).
Proof.
  intros env path pattern_config pid w.
  destruct (process_file_shape env path pattern_config pid w)
    as [mid [r4 [post [row [Ht [_ [Hst [Hcl _]]]]]]]].
  assert (Hmid : exists k,
             map status (commits mid) = repeat "IN_PROGRESS" k).
  { destruct Hst as [[-> _]|[df [t [loaded [-> [Hall _]]]]]];
      [exists 0; reflexivity|].
    exists (S (length (commits loaded))).
    cbn [commits flat_map app]. fold (commits loaded).
    cbn [map repeat]. f_equal.
    apply loading_statuses in Hall. exact Hall. }
  destruct Hmid as [k Hmid].
  exists ([ECommit
             (FileProcessor.new_control_record pid (Py.basename path) path
                pattern_config);
           ECommit
             (set_status "IN_PROGRESS"
                (FileProcessor.new_control_record pid (Py.basename path) path
                   pattern_config))] ++ mid ++ post), k,
    (map status (commits post)).
  split; [exact Ht|]. split.
  - rewrite !commits_app, !map_app, Hmid. reflexivity.
  - destruct Hcl as [[-> _]|[[e [-> _]]|[[-> _]|[-> _]]]]; simpl; auto.
Qed.

(** The statuses written for [in/big.csv], whose second chunk fails. *)
Lemma committed_statuses_example :
  map status
      (commits (trace (FileProcessor.process_file Demo.env "in/big.csv"
                         Demo.orders_pattern "p1" Demo.world0)))
  = ["INITIATED"; "IN_PROGRESS"; "IN_PROGRESS"; "IN_PROGRESS";
     "IN_PROGRESS"; "IN_PROGRESS"; "ERROR"; "ERROR"].
Proof. vm_compute. reflexivity. Qed.




(** ** What an attempt stores *)

Lemma slice_empty {A} (l : list A) i : Py.slice l i i = [].
Proof. unfold Py.slice. now rewrite Nat.sub_diag. Qed.

Lemma to_dict_slice cols rs i j :
  FileProcessor.to_dict_records cols (Py.slice rs i j)
  = Py.slice (FileProcessor.to_dict_records cols rs) i j.
Proof.
  unfold FileProcessor.to_dict_records, Py.slice.
  now rewrite <- firstn_map, <- skipn_map.
Qed.

Lemma validate_and_prepare_reconciled env table_name schema data prepared :
  DatabaseHandler.get_table_columns env table_name = Ok schema ->
  DatabaseHandler.validate_and_prepare_data env table_name data
  = Ok prepared ->
  Forall2 (reconciled schema) data prepared.
Proof.
  intros Hschema. unfold DatabaseHandler.validate_and_prepare_data.
  destruct data as [|r0 data']; [intros [= <-]; constructor|].
  rewrite Hschema.
  apply prepare_records_reconciled.
  eapply get_table_columns_NoDup; eauto.
Qed.

Section StoredRows.

Variable env : Env.
Variable bs : nat.
Variable df : DataFrame.
Variable table_name : string.

(** The rows the loop adds to the table are the reconciled records of
    the chunks it completed, in order. *)
Lemma batches_loop_stored :
  forall len a total s r s',
    FileProcessor.batches_loop env bs df table_name
      (map (fun j => j * bs) (seq a len)) total s = (r, s') ->
    exists m prepared,
      target (world s')
      = target (world s) ++ map (pair table_name) prepared /\
      (forall schema,
          DatabaseHandler.get_table_columns env table_name = Ok schema ->
          Forall2 (reconciled schema)
                  (Py.slice (FileProcessor.to_dict_records (columns df)
                                                           (rows df))
                            (a * bs) ((a + m) * bs))
                  prepared) /\
      match r with
      | Ok _ => m = len
      | Raise _ => m < len
      end.
Proof.
  induction len as [|len IH]; intros a total s r s'.
  - simpl. intros [= <- <-]. exists 0, []. simpl. rewrite app_nil_r.
    split; [reflexivity|]. split; [|reflexivity].
    intros schema _. rewrite Nat.add_0_r, slice_empty. constructor.
  - cbn [seq map FileProcessor.batches_loop]. unfold bind at 1.
    rewrite process_batch_unfold. cbv zeta.
    set (cr1 := set_current_batch (Some (a * bs / bs + 1)) (control_record s)).
    rewrite to_dict_slice.
    set (recs := FileProcessor.to_dict_records (columns df) (rows df)).
    set (data := Py.slice recs (a * bs) (a * bs + bs)).
    pose proof (insert_data_run env table_name data (Z.of_nat bs)
                  (log_event (ECommit cr1) (world s))) as Hins.
    replace ((Z.of_nat bs <? 0)%Z) with false in Hins
      by (symmetry; apply Z.ltb_ge; lia).
    destruct (DatabaseHandler.insert_data env table_name data (Z.of_nat bs)
                (log_event (ECommit cr1) (world s))) as [[[]|e] w2].
    + destruct Hins as [_ [_ [prepared1 [sent [Hprep [_ [Htgt _]]]]]]].
      cbn [target log_event] in Htgt.
      intros Hrest. apply IH in Hrest.
      destruct Hrest as [m [prepared2 [Ht2 [Hrec2 Hm]]]].
      rewrite written_world in Ht2.
      cbn [world target log_event] in Ht2.
      exists (S m), (prepared1 ++ prepared2). split.
      { rewrite Ht2, Htgt, map_app, app_assoc. reflexivity. }
      split.
      * intros schema Hschema.
        assert (Hslice : Py.slice recs (a * bs) ((a + S m) * bs)
                         = data ++ Py.slice recs (S a * bs) ((S a + m) * bs)).
        { unfold data. replace (S a * bs) with (a * bs + bs) by lia.
          replace ((S a + m) * bs) with ((a + S m) * bs) by (f_equal; lia).
          symmetry. apply slice_app; nia. }
        rewrite Hslice. apply Forall2_app.
        -- eapply validate_and_prepare_reconciled; eauto.
        -- now apply Hrec2.
      * destruct r; lia.
    + destruct Hins as [_ [_ [Htgt _]]]. cbn [target log_event] in Htgt.
      intros [= <- <-]. cbn [with_world world].
      exists 0, []. simpl. rewrite app_nil_r.
      split; [exact Htgt|]. split; [|lia].
      intros schema _. rewrite Nat.add_0_r, slice_empty. constructor.
Qed.

End StoredRows.

Lemma process_batches_stored env df table_name s r s' :
  FileProcessor._process_batches env df table_name s = (r, s') ->
  exists k prepared,
    target (world s') = target (world s) ++ map (pair table_name) prepared /\
    k <= chunk_count (length (rows df)) FileProcessor.batch_size /\
    (forall schema,
        DatabaseHandler.get_table_columns env table_name = Ok schema ->
        Forall2 (reconciled schema)
                (firstn (k * FileProcessor.batch_size)
                        (FileProcessor.to_dict_records (columns df) (rows df)))
                prepared) /\
    (is_ok r = true ->
     k = chunk_count (length (rows df)) FileProcessor.batch_size).
Proof.
  unfold FileProcessor._process_batches, FileProcessor.process_batches_sized,
    Py.range_step. fold (chunk_count (length (rows df)) FileProcessor.batch_size).
  intros Hrun. apply batches_loop_stored in Hrun.
  destruct Hrun as [m [prepared [Ht [Hrec Hm]]]].
  exists m, prepared. split; [exact Ht|].
  split; [destruct r; lia|]. split.
  - intros schema Hschema. specialize (Hrec schema Hschema).
    unfold Py.slice in Hrec. simpl in Hrec.
    now rewrite Nat.sub_0_r in Hrec.
  - destruct r; [auto | discriminate].
Qed.

Section AttemptStored.

Variable env : Env.
Variable file_path : string.
Variable pattern_config : PatternConfig.

Lemma fail_keeps_target e s :
  persisted s = Some (control_record s) ->
  status (control_record s) = "IN_PROGRESS" ->
  target (world (snd (fail env file_path e s))) = target (world s) /\
  forall row, persisted (snd (fail env file_path e s)) = Some row ->
              status row <> "SUCCESS".
Proof.
  intros Hp Hs.
  destruct (fail_closes env file_path e s Hp)
    as [post [row [_ [_ [Htg [Hrow [-> _]]]]]]].
  split; [exact Htg|]. intros row' Hrow'.
  assert (row' = control_record s) by congruence. subst row'.
  rewrite Hs. discriminate.
Qed.

(** The rows an attempt adds to the table of its pattern. *)
Lemma attempt_stored s0 df :
  persisted s0 = None ->
  read_frame env file_path (FileProcessor.file_type_of file_path)
    (FileProcessor.options_of pattern_config
       (FileProcessor.file_type_of file_path)) = Ok df ->
  let s := snd (FileProcessor.process_file_body env file_path
                  pattern_config s0) in
  exists k prepared,
    target (world s)
    = target (world s0) ++ map (pair (table pattern_config)) prepared /\
    k <= chunk_count (length (rows df)) FileProcessor.batch_size /\
    (forall schema,
        DatabaseHandler.get_table_columns env (table pattern_config)
        = Ok schema ->
        Forall2 (reconciled schema)
                (firstn (k * FileProcessor.batch_size)
                        (attempt_records df (process_id (control_record s0))))
                prepared) /\
    (k = chunk_count (length (rows df)) FileProcessor.batch_size \/
     forall row, persisted s = Some row -> status row <> "SUCCESS").
Proof.
  intros Hnew Hread. rewrite process_file_body_unfold by exact Hnew.
  cbv zeta.
  set (r0 := control_record s0).
  set (r1 := set_status "IN_PROGRESS" r0).
  set (w2 := log_event (ECommit r1) (log_event (ECommit r0) (world s0))).
  set (s2 := updated r1 w2 s0).
  assert (Hnone : forall e s,
             persisted s = Some (control_record s) ->
             status (control_record s) = "IN_PROGRESS" ->
             target (world s) = target (world s0) ->
             exists k prepared,
               target (world (snd (fail env file_path e s)))
               = target (world s0)
                 ++ map (pair (table pattern_config)) prepared /\
               k <= chunk_count (length (rows df)) FileProcessor.batch_size /\
               (forall schema,
                   DatabaseHandler.get_table_columns env (table pattern_config)
                   = Ok schema ->
                   Forall2 (reconciled schema)
                           (firstn (k * FileProcessor.batch_size)
                                   (attempt_records df (process_id r0)))
                           prepared) /\
               (k = chunk_count (length (rows df)) FileProcessor.batch_size \/
                forall row,
                  persisted (snd (fail env file_path e s)) = Some row ->
                  status row <> "SUCCESS")).
  { intros e s Hp Hs Ht.
    destruct (fail_keeps_target e s Hp Hs) as [Htg Hrow].
    exists 0, []. simpl. rewrite app_nil_r.
    split; [congruence|]. split; [lia|]. split; [constructor|].
    right. exact Hrow. }
  unfold read_file. destruct (file_exists w2 file_path) eqn:Efile.
  2:{ apply (Hnone _ s2); reflexivity. }
  rewrite Hread.
  set (r2 := set_total_rows (Some (length (rows df))) r1).
  set (w3 := log_event (EValidate (table pattern_config) df)
               (log_event (ECommit r2) w2)).
  set (s3 := updated r2 w3 s2).
  assert (Hs3 : holds_row s3) by (split; reflexivity).
  destruct (DataValidator.validate_data env df (table pattern_config))
    as [vr|e]; [|apply (Hnone _ s3); reflexivity].
  destruct (negb (DataValidator.is_valid vr));
    [apply (Hnone _ s3); reflexivity|].
  destruct (FileProcessor._process_batches env _ (table pattern_config) s3)
    as [res s4] eqn:Eload.
  pose proof Eload as Est.
  unfold FileProcessor._process_batches in Eload.
  apply process_batches_sized_run in Eload; [|apply batch_size_positive].
  destruct Eload as [Hheld [_ [Hf4 [_ [Hsame [d4 [_ [_ [_ Hr4]]]]]]]]].
  specialize (Hheld Hs3).
  assert (Hp4 : persisted s4 = Some (control_record s4)).
  { destruct res as [[]|e].
    - destruct Hr4 as [_ [_ [_ Hfin]]].
      destruct (chunk_count
                  (length (rows (FileProcessor._add_metadata_columns _ _))) _);
        [now subst s4 | apply Hfin, Hs3].
    - destruct Hr4 as [k' [cause H]]. apply H, Hs3. }
  clear Hr4. apply process_batches_stored in Est.
  rewrite add_metadata_rows in Est.
  destruct Est as [k [prepared [Ht4 [Hk [Hrec Hall]]]]].
  unfold s3, w3, s2, w2, updated in Ht4.
  cbn [world target log_event] in Ht4.
  assert (Hs4 : status (control_record s4) = "IN_PROGRESS").
  { destruct Hsame as [_ [_ [_ [_ [Hs _]]]]]. rewrite Hs. reflexivity. }
  assert (Hshape : forall s,
             target (world s) = target (world s4) ->
             (k = chunk_count (length (rows df)) FileProcessor.batch_size \/
              forall row, persisted s = Some row -> status row <> "SUCCESS") ->
             exists k prepared,
               target (world s)
               = target (world s0)
                 ++ map (pair (table pattern_config)) prepared /\
               k <= chunk_count (length (rows df)) FileProcessor.batch_size /\
               (forall schema,
                   DatabaseHandler.get_table_columns env (table pattern_config)
                   = Ok schema ->
                   Forall2 (reconciled schema)
                           (firstn (k * FileProcessor.batch_size)
                                   (attempt_records df (process_id r0)))
                           prepared) /\
               (k = chunk_count (length (rows df)) FileProcessor.batch_size \/
                forall row, persisted s = Some row -> status row <> "SUCCESS")).
  { intros s Ht Hend. exists k, prepared.
    split; [rewrite Ht; exact Ht4|]. split; [exact Hk|].
    split; [exact Hrec|exact Hend]. }
  destruct res as [[]|e].
  - specialize (Hall eq_refl).
    destruct (file_exists (world s4) file_path) eqn:Efile4.
    + rewrite archive_file_present by assumption. cbv zeta.
      apply Hshape; [reflexivity | now left].
    + rewrite archive_file_absent by exact Efile4.
      apply Hshape; [|now left].
      match goal with
      | |- target (world (snd (fail _ _ _ ?s5))) = _ =>
          destruct (fail_keeps_target (FileNotFound file_path) s5 Hp4 Hs4)
            as [Htg _]
      end.
      rewrite Htg. reflexivity.
  - destruct (fail_keeps_target e s4 Hp4 Hs4) as [Htg Hrow].
    apply Hshape; [exact Htg | right; exact Hrow].
Qed.

End AttemptStored.

(** X13: the rows an attempt adds to the table of its pattern are the
    records of the file, reconciled against the schema, in the order of
    the file, each with the batch number of the attempt; they are added
    after the rows that were there, which are left as they were.  What is
    added is the first k chunks of 1000 rows, for some k, and the
    whole file when the record is closed SUCCESS. *)
Theorem stored_rows_are_file_rows :
  forall env path pattern_config pid w df,
    read_frame env path (FileProcessor.file_type_of path)
      (FileProcessor.options_of pattern_config
         (FileProcessor.file_type_of path)) = Ok df ->
    let w' := FileProcessor.process_file env path pattern_config pid w in
    exists k prepared,
      target w' = target w ++ map (pair (table pattern_config)) prepared /\
      k <= chunk_count (length (rows df)) FileProcessor.batch_size /\
      (forall schema,
          DatabaseHandler.get_table_columns env (table pattern_config)
          = Ok schema ->
          Forall2 (reconciled schema)
                  (firstn (k * FileProcessor.batch_size)
                          (attempt_records df pid))
                  prepared) /\
      (forall row,
          attempt_row w' = Some row -> status row = "SUCCESS" ->
          firstn (k * FileProcessor.batch_size) (attempt_records df pid)
          = attempt_records df pid).
Proof.
  intros env path pattern_config pid w df Hread w'.
  destruct (process_file_world env path pattern_config pid w)
    as [_ [Htg [_ Hrow]]]. fold w' in Htg, Hrow.
  unfold FileProcessor.process_file_session in *.
  destruct (attempt_stored env path pattern_config
              (FileProcessor.open_session env path pattern_config pid w)
              df eq_refl Hread) as [k [prepared [Ht [Hk [Hrec Hend]]]]].
  exists k, prepared. split; [rewrite Htg; exact Ht|].
  split; [exact Hk|]. split; [exact Hrec|].
  intros row Hat Hs.
  assert (Hcc : k = chunk_count (length (rows df)) FileProcessor.batch_size).
  { destruct Hend as [Hend|Hend]; [exact Hend|]. exfalso.
    destruct (attempt_shape env path pattern_config
                (FileProcessor.open_session env path pattern_config pid w)
                eq_refl)
      as [_ [_ [_ [row' [_ [_ [Hp _]]]]]]].
    specialize (Hrow row' Hp). rewrite Hat in Hrow.
    injection Hrow as ->. exact (Hend row' Hp Hs). }
  apply firstn_all2. subst k.
  unfold attempt_records, FileProcessor.to_dict_records.
  rewrite length_map, add_metadata_rows.
  destruct (chunk_count_bounds (length (rows df)) FileProcessor.batch_size
              batch_size_positive). lia.
Qed.

(** [in/big.csv]: the first chunk of 1000 rows is stored, each row with
    the batch number, and the second chunk, which fails, leaves nothing. *)
Lemma stored_rows_are_file_rows_example :
  let w' := FileProcessor.process_file Demo.env "in/big.csv"
              Demo.orders_pattern "p1" Demo.world0 in
  exists k prepared,
    target w' = target Demo.world0 ++ map (pair "orders") prepared /\
    k <= chunk_count 1001 FileProcessor.batch_size /\
    (forall schema,
        DatabaseHandler.get_table_columns Demo.env "orders" = Ok schema ->
        Forall2 (reconciled schema)
                (firstn (k * FileProcessor.batch_size)
                        (attempt_records Demo.big_frame "p1"))
                prepared) /\
    (forall row,
        attempt_row w' = Some row -> status row = "SUCCESS" ->
        firstn (k * FileProcessor.batch_size)
               (attempt_records Demo.big_frame "p1")
        = attempt_records Demo.big_frame "p1").
Proof.
  exact (stored_rows_are_file_rows Demo.env "in/big.csv" Demo.orders_pattern
           "p1" Demo.world0 Demo.big_frame eq_refl).
Defined.

(** ** Parsing a CSV file *)

Lemma convert_data_type_raise env value dtype e :
  CSVHandler._convert_data_type env value dtype = Raise e ->
  e = DataTypeConversionError value dtype.
Proof.
  unfold CSVHandler._convert_data_type.
  repeat match goal with
         | |- context [if ?b then _ else _] => destruct b
         | |- context [match ?o with Some _ => _ | None => _ end] =>
             destruct o
         end; intros H; try discriminate; now injection H.
Qed.

Section ParsedLines.

Variable env : Env.
Variable mappings : list ColumnMapping.

Lemma process_fields_raise row_num :
  forall fields col_idx record e,
    CSVHandler.process_fields env mappings row_num col_idx fields record
    = Raise e ->
    exists j value m,
      nth_error fields j = Some value /\
      CSVHandler.index_to_column mappings (col_idx + j) = Some m /\
      field_error env row_num m value e.
Proof.
  induction fields as [|value rest IH]; intros col_idx record e; simpl;
    [discriminate|].
  assert (Hrest : forall record',
             CSVHandler.process_fields env mappings row_num (S col_idx) rest
               record' = Raise e ->
             exists j value0 m,
               nth_error (value :: rest) j = Some value0 /\
               CSVHandler.index_to_column mappings (col_idx + j) = Some m /\
               field_error env row_num m value0 e).
  { intros record' H. apply IH in H. destruct H as [j [v [m [H1 [H2 H3]]]]].
    exists (S j), v, m. split; [exact H1|]. split; [|exact H3].
    now replace (col_idx + S j) with (S col_idx + j) by lia. }
  destruct (CSVHandler.index_to_column mappings col_idx) as [mp|] eqn:E;
    [|apply Hrest].
  destruct (required mp) eqn:Ereq; simpl.
  - destruct (String.eqb (Py.strip value) "") eqn:Eblank.
    + intros [= <-]. exists 0, value, mp. rewrite Nat.add_0_r.
      split; [reflexivity|]. split; [exact E|]. left.
      apply String.eqb_eq in Eblank. auto.
    + destruct (CSVHandler._convert_data_type env value (data_type mp))
        as [v|e'] eqn:Ec; [apply Hrest|].
      intros [= <-]. exists 0, value, mp. rewrite Nat.add_0_r.
      split; [reflexivity|]. split; [exact E|]. right.
      pose proof (convert_data_type_raise _ _ _ _ Ec) as ->. auto.
  - destruct (CSVHandler._convert_data_type env value (data_type mp))
      as [v|e'] eqn:Ec; [apply Hrest|].
    intros [= <-]. exists 0, value, mp. rewrite Nat.add_0_r.
    split; [reflexivity|]. split; [exact E|]. right.
    pose proof (convert_data_type_raise _ _ _ _ Ec) as ->. auto.
Qed.

Lemma process_rows_ok :
  forall lines k data,
    CSVHandler.process_rows env mappings k lines = Ok data ->
    length data = length lines /\
    forall i line,
      nth_error lines i = Some line ->
      exists record,
        nth_error data i = Some record /\
        CSVHandler.process_row env mappings (k + i) line = Ok record.
Proof.
  induction lines as [|line0 lines IH]; intros k data; simpl.
  - intros [= <-]. split; [reflexivity|]. intros [|i] line; discriminate.
  - destruct (CSVHandler.process_row env mappings k line0) as [r0|] eqn:E0;
      [|discriminate].
    destruct (CSVHandler.process_rows env mappings (S k) lines) as [rs|] eqn:E;
      [|discriminate].
    intros [= <-]. destruct (IH _ _ E) as [Hlen Hnth].
    split; [simpl; now rewrite Hlen|].
    intros [|i] line; simpl.
    + intros [= <-]. exists r0. now rewrite Nat.add_0_r.
    + intros Hi. destruct (Hnth i line Hi) as [record [H1 H2]].
      exists record. split; [exact H1|].
      now replace (k + S i) with (S k + i) by lia.
Qed.

Lemma process_rows_raise :
  forall lines k e,
    CSVHandler.process_rows env mappings k lines = Raise e ->
    exists i line,
      nth_error lines i = Some line /\
      CSVHandler.process_row env mappings (k + i) line = Raise e /\
      forall j l, j < i -> nth_error lines j = Some l ->
                  is_ok (CSVHandler.process_row env mappings (k + j) l) = true.
Proof.
  induction lines as [|line0 lines IH]; intros k e; simpl; [discriminate|].
  destruct (CSVHandler.process_row env mappings k line0) as [r0|e0] eqn:E0.
  - destruct (CSVHandler.process_rows env mappings (S k) lines) as [rs|e']
      eqn:E; [discriminate|].
    intros [= <-]. destruct (IH _ _ E) as [i [line [H1 [H2 H3]]]].
    exists (S i), line. split; [exact H1|]. split.
    + now replace (k + S i) with (S k + i) by lia.
    + intros [|j] l Hj; simpl.
      * intros [= <-]. now rewrite Nat.add_0_r, E0.
      * intros Hl. replace (k + S j) with (S k + j) by lia.
        apply H3; [lia | exact Hl].
  - intros [= <-]. exists 0, line0. rewrite Nat.add_0_r.
    split; [reflexivity|]. split; [exact E0|]. intros j l Hj. lia.
Qed.

End ParsedLines.

Lemma process_csv_file_cases env path table_name :
  CSVHandler.process_csv_file env path table_name
  = match dict_get (csv_mappings env) table_name with
    | None => Raise (NoCsvConfiguration table_name)
    | Some table_config =>
        match column_mappings table_config with
        | [] => Raise (NoColumnMappings table_name)
        | _ :: _ =>
            match csv_reader env path with
            | Raise e => Raise e
            | Ok lines =>
                if CSVHandler.skips_header table_config && is_nil lines
                then Raise StopIteration
                else CSVHandler.process_rows env
                       (column_mappings table_config) 1
                       (data_lines table_config lines)
            end
        end
    end.
Proof.
  unfold CSVHandler.process_csv_file, CSVHandler._get_table_config,
    data_lines.
  destruct (dict_get (csv_mappings env) table_name) as [cfg|]; [|reflexivity].
  destruct (column_mappings cfg); [reflexivity|].
  destruct (csv_reader env path) as [lines|]; [|reflexivity].
  destruct (CSVHandler.skips_header cfg); [|reflexivity].
  destruct lines; reflexivity.
Qed.

Lemma process_csv_file_length env path table_name data :
  CSVHandler.process_csv_file env path table_name = Ok data ->
  exists table_config lines,
    dict_get (csv_mappings env) table_name = Some table_config /\
    csv_reader env path = Ok lines /\
    length data = length (data_lines table_config lines).
Proof.
  rewrite process_csv_file_cases.
  destruct (dict_get (csv_mappings env) table_name) as [cfg|];
    [|discriminate].
  destruct (column_mappings cfg) as [|m0 ms]; [discriminate|].
  destruct (csv_reader env path) as [lines|]; [|discriminate].
  destruct (CSVHandler.skips_header cfg && is_nil lines); [discriminate|].
  intros H. apply process_rows_ok in H. destruct H as [Hlen _].
  exists cfg, lines. auto.
Qed.

(** X14: when [process_csv_file] returns, it returns one record per data
    line of the file, in the order of the file (the first line is left
    out when the configuration announces a header); the record at
    position i is the parse of line i, numbered i + 1.  No line is
    filtered out: a line without fields yields a record without
    columns. *)
Theorem process_csv_file_one_record_per_line :
  forall env path table_name data,
    CSVHandler.process_csv_file env path table_name = Ok data ->
    exists table_config lines,
      dict_get (csv_mappings env) table_name = Some table_config /\
      csv_reader env path = Ok lines /\
      length data = length (data_lines table_config lines) /\
      forall i line,
        nth_error (data_lines table_config lines) i = Some line ->
        exists record,
          nth_error data i = Some record /\
          CSVHandler.process_row env (column_mappings table_config)
                                 (i + 1) line = Ok record.
Proof.
  intros env path table_name data. rewrite process_csv_file_cases.
  destruct (dict_get (csv_mappings env) table_name) as [cfg|];
    [|discriminate].
  destruct (column_mappings cfg) as [|m0 ms] eqn:Em; [discriminate|].
  rewrite <- Em.
  destruct (csv_reader env path) as [lines|]; [|discriminate].
  destruct (CSVHandler.skips_header cfg && is_nil lines); [discriminate|].
  intros H. apply process_rows_ok in H. destruct H as [Hlen Hnth].
  exists cfg, lines. split; [reflexivity|]. split; [reflexivity|].
  split; [exact Hlen|].
  intros i line Hi. destruct (Hnth i line Hi) as [record [H1 H2]].
  exists record. split; [exact H1|].
  now replace (i + 1) with (1 + i) by lia.
Qed.

(** The two lines of [in/pair.csv] give two records. *)
Lemma process_csv_file_one_record_per_line_example :
  exists table_config lines,
    dict_get (csv_mappings Demo.env) "orders" = Some table_config /\
    csv_reader Demo.env "in/pair.csv" = Ok lines /\
    length [ [("name", VStr "bob")];
             [("name", VStr "amy"); ("qty", VInt 3%Z)] ]
    = length (data_lines table_config lines) /\
    forall i line,
      nth_error (data_lines table_config lines) i = Some line ->
      exists record,
        nth_error [ [("name", VStr "bob")];
                    [("name", VStr "amy"); ("qty", VInt 3%Z)] ] i
        = Some record /\
        CSVHandler.process_row Demo.env (column_mappings table_config)
                               (i + 1) line = Ok record.
Proof.
  exact (process_csv_file_one_record_per_line Demo.env "in/pair.csv" "orders"
           _ eq_refl).
Defined.

(** X15: when [process_csv_file] raises, nothing is returned for the
    lines that were fine, and the error is one of: no configuration for
    the table; no column mapping; the error of the reader; the end of an
    empty file whose header was to be skipped; or the error of the first
    data line that fails, which names that line by its number (from 1,
    the header not counted) and the column of the mapped field that is
    blank though required, or that cannot be converted. *)
Theorem process_csv_file_reports_first_bad_line :
  forall env path table_name e,
    CSVHandler.process_csv_file env path table_name = Raise e ->
    e = NoCsvConfiguration table_name \/
    e = NoColumnMappings table_name \/
    csv_reader env path = Raise e \/
    (e = StopIteration /\ csv_reader env path = Ok []) \/
    exists table_config lines i line j value m,
      dict_get (csv_mappings env) table_name = Some table_config /\
      csv_reader env path = Ok lines /\
      nth_error (data_lines table_config lines) i = Some line /\
      (forall i' line', i' < i ->
         nth_error (data_lines table_config lines) i' = Some line' ->
         is_ok (CSVHandler.process_row env (column_mappings table_config)
                                       (i' + 1) line') = true) /\
      nth_error line j = Some value /\
      CSVHandler.index_to_column (column_mappings table_config) j = Some m /\
      field_error env (i + 1) m value e.
Proof.
  intros env path table_name e. rewrite process_csv_file_cases.
  destruct (dict_get (csv_mappings env) table_name) as [cfg|];
    [|intros [= <-]; auto].
  destruct (column_mappings cfg) as [|m0 ms] eqn:Em;
    [intros [= <-]; auto|]. rewrite <- Em.
  destruct (csv_reader env path) as [lines|e'];
    [|intros [= <-]; auto].
  destruct (CSVHandler.skips_header cfg && is_nil lines) eqn:Eh.
  { intros [= <-]. right. right. right. left. split; [reflexivity|].
    apply andb_prop in Eh. destruct Eh as [_ Hn].
    destruct lines; [reflexivity | discriminate]. }
  intros H. apply process_rows_raise in H.
  destruct H as [i [line [Hi [Hrow Hbefore]]]].
  unfold CSVHandler.process_row in Hrow.
  apply process_fields_raise in Hrow.
  destruct Hrow as [j [value [m [Hj [Hm Herr]]]]].
  right. right. right. right.
  exists cfg, lines, i, line, j, value, m.
  split; [reflexivity|]. split; [reflexivity|]. split; [exact Hi|].
  split.
  - intros i' line' Hlt Hl. replace (i' + 1) with (1 + i') by lia.
    now apply Hbefore.
  - split; [exact Hj|]. split; [exact Hm|].
    now replace (i + 1) with (1 + i) by lia.
Qed.

(** A file whose second line has a quantity that is not a number. *)
Lemma process_csv_file_reports_first_bad_line_example :
  CSVHandler.process_csv_file (env_reading [["bob"; "3"]; ["amy"; "x"]])
                              "in/any.csv" "orders"
  = Raise (FieldConversionError "qty" 2
             (DataTypeConversionError "x" "integer")) /\
  exists table_config lines i line j value m,
    dict_get (csv_mappings (env_reading [["bob"; "3"]; ["amy"; "x"]]))
             "orders" = Some table_config /\
    csv_reader (env_reading [["bob"; "3"]; ["amy"; "x"]]) "in/any.csv"
    = Ok lines /\
    nth_error (data_lines table_config lines) i = Some line /\
    nth_error line j = Some value /\
    CSVHandler.index_to_column (column_mappings table_config) j = Some m /\
    field_error (env_reading [["bob"; "3"]; ["amy"; "x"]]) (i + 1) m value
                (FieldConversionError "qty" 2
                   (DataTypeConversionError "x" "integer")).
Proof.
  split; [reflexivity|].
  destruct (process_csv_file_reports_first_bad_line
              (env_reading [["bob"; "3"]; ["amy"; "x"]]) "in/any.csv"
              "orders" _ eq_refl)
    as [H|[H|[H|[[H _]|H]]]]; try discriminate.
  destruct H as [cfg [lines [i [line [j [value [m H]]]]]]].
  exists cfg, lines, i, line, j, value, m. tauto.
Defined.

(** ** Loading and previewing a CSV file *)

(** X16: [load_csv_to_table] is all or nothing, whatever integer the
    batch size is.  When it raises, at whichever stage, the table is as
    it was.  When it returns with a batch size that is not negative, the
    table has gained one row per data line of the file, after the rows
    that were there; with a negative batch size it returns having
    inserted nothing.  It never touches storage or the control table. *)
Theorem load_csv_to_table_all_or_nothing :
  forall env path table_name batch_size w,
    match load_csv_to_table env path table_name batch_size w with
    | (Ok _, w') =>
        files w' = files w /\ control_table w' = control_table w /\
        exists table_config lines prepared,
          dict_get (csv_mappings env) table_name = Some table_config /\
          csv_reader env path = Ok lines /\
          length prepared = length (data_lines table_config lines) /\
          target w'
          = if (batch_size <? 0)%Z then target w
            else target w ++ map (pair table_name) prepared
    | (Raise _, w') =>
        files w' = files w /\ control_table w' = control_table w /\
        target w' = target w
    end.
Proof.
  intros env path table_name batch_size w. unfold load_csv_to_table.
  destruct (CSVHandler.validate_csv_structure env path table_name);
    [|auto].
  destruct (CSVHandler.process_csv_file env path table_name) as [data|]
    eqn:Edata; [|auto].
  pose proof (insert_data_run env table_name data batch_size w) as Hins.
  destruct (DatabaseHandler.insert_data env table_name data batch_size w)
    as [[[]|e] w'].
  - destruct Hins as [Hf [Hc [prepared [sent [Hprep [_ Htgt]]]]]].
    split; [exact Hf|]. split; [exact Hc|].
    destruct (process_csv_file_length _ _ _ _ Edata)
      as [cfg [lines [Hcfg [Hlines Hlen]]]].
    exists cfg, lines, prepared.
    split; [exact Hcfg|]. split; [exact Hlines|]. split.
    + rewrite (validate_and_prepare_length _ _ _ _ Hprep). exact Hlen.
    + destruct (batch_size <? 0)%Z; apply Htgt.
  - destruct Hins as [Hf [Hc [Htgt _]]]. auto.
Qed.

Lemma firstn_min {A} (l : list A) k :
  firstn (Nat.min k (length l)) l = firstn k l.
Proof.
  destruct (Nat.le_ge_cases k (length l)) as [H|H].
  - now rewrite Nat.min_l.
  - rewrite Nat.min_r by exact H.
    rewrite firstn_all. symmetry. now apply firstn_all2.
Qed.

(** X17: the preview parses the whole file before it cuts the sample: it
    fails with the error of the file as soon as any line fails, also
    beyond the sample, and otherwise only when the table is unknown.
    What it returns is a prefix of the records of the file, the schema
    of the table, and as [record_count] the size of the sample, not the
    number of records of the file.  For a [sample_size] that is not
    negative the sample is the first [sample_size] records, and its size
    the smaller of [sample_size] and the number n of data lines; for a
    negative one it is the records but the last [- sample_size], and its
    size n + [sample_size], or 0 when that is negative. *)
Theorem preview_counts_the_sample :
  forall env path table_name sample_size,
    match preview_csv_load env path table_name sample_size with
    | Ok p =>
        exists table_config lines data,
          dict_get (csv_mappings env) table_name = Some table_config /\
          csv_reader env path = Ok lines /\
          CSVHandler.process_csv_file env path table_name = Ok data /\
          sample_data p = firstn (record_count p) data /\
          record_count p
          = (let n := length (data_lines table_config lines) in
             if (0 <=? sample_size)%Z then Nat.min (Z.to_nat sample_size) n
             else n - Z.to_nat (- sample_size)) /\
          DatabaseHandler.get_table_columns env table_name
          = Ok (table_schema p)
    | Raise e =>
        CSVHandler.process_csv_file env path table_name = Raise e \/
        (is_ok (CSVHandler.process_csv_file env path table_name) = true /\
         e = NoSuchTable table_name)
    end.
Proof.
  intros env path table_name sample_size.
  unfold preview_csv_load, CSVHandler.get_sample_data.
  destruct (CSVHandler.process_csv_file env path table_name) as [data|e]
    eqn:Edata; [|auto].
  unfold DatabaseHandler.get_table_columns.
  destruct (inspector_columns env table_name) as [cols|]; [|auto].
  destruct (process_csv_file_length _ _ _ _ Edata)
    as [cfg [lines [Hcfg [Hlines Hlen]]]].
  exists cfg, lines, data. cbn [sample_data record_count table_schema].
  cbv zeta. rewrite <- Hlen. unfold Py.slice_upto.
  split; [exact Hcfg|]. split; [exact Hlines|]. split; [reflexivity|].
  destruct (0 <=? sample_size)%Z; rewrite length_firstn.
  - split; [|split; reflexivity]. symmetry. apply firstn_min.
  - split; [|split; [lia | reflexivity]]. f_equal. lia.
Qed.

(** A sample of one record of the two of [in/pair.csv], and what a
    sample size of -1 gives. *)
Lemma preview_counts_the_sample_example :
  match preview_csv_load Demo.env "in/pair.csv" "orders" 1 with
  | Ok p => sample_data p = [[("name", VStr "bob")]] /\ record_count p = 1
  | Raise _ => False
  end /\
  match preview_csv_load Demo.env "in/pair.csv" "orders" (-1) with
  | Ok p => sample_data p = [[("name", VStr "bob")]] /\ record_count p = 1
  | Raise _ => False
  end.
Proof. vm_compute. auto. Qed.

(** ** What a positive verdict of the gate guarantees *)

Lemma indices_where_nil {A} (p : A -> bool) (l : list A) :
  DataValidator.indices_where p l = [] -> Forall (fun x => p x = false) l.
Proof.
  unfold DataValidator.indices_where. generalize 0.
  induction l as [|x l IH]; intros a; simpl; [constructor|].
  destruct (p x) eqn:E; simpl; [discriminate|].
  intros H. constructor; [exact E|]. exact (IH _ H).
Qed.

Lemma extends_valid r r' :
  extends r r' -> DataValidator.is_valid r' = true ->
  DataValidator.is_valid r = true /\
  DataValidator.errors r' = DataValidator.errors r.
Proof.
  intros [extra [He Hv]] Hvalid. rewrite Hvalid in Hv.
  symmetry in Hv. apply andb_prop in Hv. destruct Hv as [H1 H2].
  split; [exact H1|]. destruct extra; [|discriminate].
  now rewrite app_nil_r in He.
Qed.

Lemma add_error_not_valid v r r' :
  DataValidator.add_error v r = r' -> DataValidator.is_valid r' = true ->
  False.
Proof. intros <-. discriminate. Qed.

Lemma check_column_sound env schema df j col r r' info :
  DataValidator.check_column env schema df j col r = Ok r' ->
  DataValidator.is_valid r' = true ->
  dict_get schema col = Some info ->
  column_fits env info (DataValidator.series df j).
Proof.
  unfold DataValidator.check_column, column_fits. intros H Hv Hinfo.
  rewrite Hinfo in H. cbv zeta in H.
  destruct (Py.startswith (type info) "INTEGER").
  { destruct (DataValidator.indices_where _ _) eqn:E.
    - apply indices_where_nil in E. rewrite Forall_map in E.
      eapply Forall_impl; [|exact E]. intros v Hneg.
      now apply negb_false_iff in Hneg.
    - injection H as H. exfalso. eapply add_error_not_valid; eauto. }
  destruct (Py.startswith (type info) "DATE").
  { destruct (to_datetime_ok env _); [reflexivity|].
    injection H as H. exfalso. eapply add_error_not_valid; eauto. }
  destruct (Py.startswith (type info) "VARCHAR"); [|exact I].
  destruct (DataValidator.varchar_bound env (type info)) as [z|];
    [|discriminate].
  exists z. split; [reflexivity|].
  destruct (DataValidator.indices_where _ _) eqn:E.
  - apply indices_where_nil in E. rewrite Forall_map in E.
    eapply Forall_impl; [|exact E]. intros v Hlt.
    apply Z.ltb_ge in Hlt. exact Hlt.
  - injection H as H. exfalso. eapply add_error_not_valid; eauto.
Qed.

Lemma check_columns_sound env schema df :
  forall cols j r r',
    DataValidator.check_columns env schema df j cols r = Ok r' ->
    DataValidator.is_valid r' = true ->
    forall i col info,
      nth_error cols i = Some col ->
      dict_get schema col = Some info ->
      column_fits env info (DataValidator.series df (j + i)).
Proof.
  induction cols as [|c cols IH]; intros j r r' Hrun Hv i col info Hi Hinfo;
    [destruct i; discriminate|].
  simpl in Hrun.
  destruct (DataValidator.check_column env schema df j c r) as [r1|] eqn:E;
    [|discriminate].
  assert (Hv1 : DataValidator.is_valid r1 = true).
  { apply check_columns_extends in Hrun.
    now destruct (extends_valid _ _ Hrun Hv). }
  destruct i as [|i]; simpl in Hi.
  - injection Hi as ->. rewrite Nat.add_0_r.
    eapply check_column_sound; eauto.
  - replace (j + S i) with (S j + i) by lia. eapply IH; eauto.
Qed.

(** X18: a positive verdict of the gate means what it says.  When the
    gate returns a result without violation, no row of the frame is null
    in all its cells, and for every column of the frame that the table
    declares: if its type starts with INTEGER every cell, rendered as
    text, matches the pattern [^\d+$]; if it starts with DATE the column
    parses as dates; if it starts with VARCHAR, the length between its
    parentheses is readable and no cell renders longer than it. *)
Theorem gate_verdict_sound :
  forall env df table_name r schema,
    DataValidator.validate_data env df table_name = Ok r ->
    DataValidator.is_valid r = true ->
    DatabaseHandler.get_table_columns env table_name = Ok schema ->
    Forall (fun row => forallb isnull row = false) (rows df) /\
    forall j col info,
      nth_error (columns df) j = Some col ->
      dict_get schema col = Some info ->
      column_fits env info (DataValidator.series df j).
Proof.
  intros env df table_name r schema Hrun Hv Hschema.
  unfold DataValidator.validate_data in Hrun. rewrite Hschema in Hrun.
  cbv zeta in Hrun.
  pose proof (check_columns_extends _ _ _ _ _ _ _ Hrun) as Hext.
  destruct (extends_valid _ _ Hext Hv) as [Hv0 _].
  split.
  - destruct (DataValidator.indices_where (forallb isnull) (rows df)) eqn:E;
      [|discriminate].
    now apply indices_where_nil.
  - intros j col info Hj Hinfo.
    exact (check_columns_sound _ _ _ _ _ _ _ Hrun Hv j col info Hj Hinfo).
Qed.

(** The three good rows of the installation pass the gate. *)
Lemma gate_verdict_sound_example :
  let df := {| columns := ["name"; "qty"];
               rows := [[VStr "a"; VInt 1]; [VStr "b"; VInt 2]] |} in
  Forall (fun row => forallb isnull row = false) (rows df) /\
  forall j col info,
    nth_error (columns df) j = Some col ->
    dict_get (fold_left DatabaseHandler.column_entry Demo.orders_columns [])
             col = Some info ->
    column_fits Demo.env info (DataValidator.series df j).
Proof.
  intros df.
  apply (gate_verdict_sound Demo.env df "orders"
           {| DataValidator.is_valid := true; DataValidator.errors := [] |});
    reflexivity.
Defined.

(** ** The batch number *)

Lemma combine_snoc {A B} (l : list A) (l' : list B) a b :
  length l' = length l ->
  combine (l ++ [a]) (l' ++ [b]) = combine l l' ++ [(a, b)].
Proof.
  revert l'. induction l as [|x l IH]; intros [|y l']; simpl;
    try discriminate; auto.
  intros [= H]. now rewrite IH.
Qed.

Lemma dict_get_app {V} (d1 d2 : dict V) c :
  dict_get (d1 ++ d2) c
  = match dict_get d1 c with
    | Some v => Some v
    | None => dict_get d2 c
    end.
Proof.
  induction d1 as [|[k v] d1 IH]; simpl; [reflexivity|].
  destruct (String.eqb c k); auto.
Qed.

Lemma dict_get_combine_absent {V} cols (r : list V) k :
  existsb (String.eqb k) cols = false -> dict_get (combine cols r) k = None.
Proof.
  revert r. induction cols as [|c cols IH]; intros [|v r]; simpl; auto.
  intros H. apply orb_false_elim in H. destruct H as [H1 H2].
  rewrite H1. auto.
Qed.

(** X19: [_add_metadata_columns] on a frame without a column
    [load_batch_no] gives every record the process id under that name and
    changes no other column; on a frame that has the column it changes
    nothing: the values of the file are kept.  Applied again, with any
    process id, it changes nothing more.  (The rows of a frame have one
    cell per column.) *)
Theorem batch_number_on_every_record :
  forall df pid,
    Forall (fun r => length r = length (columns df)) (rows df) ->
    (if existsb (String.eqb "load_batch_no") (columns df)
     then attempt_records df pid
          = FileProcessor.to_dict_records (columns df) (rows df)
     else Forall2
            (fun old new =>
               dict_get new "load_batch_no" = Some (VStr pid) /\
               forall c, c <> "load_batch_no" ->
                         dict_get new c = dict_get old c)
            (FileProcessor.to_dict_records (columns df) (rows df))
            (attempt_records df pid)) /\
    forall pid',
      FileProcessor._add_metadata_columns
        (FileProcessor._add_metadata_columns df pid) pid'
      = FileProcessor._add_metadata_columns df pid.
Proof.
  intros df pid Hrect. split.
  - unfold attempt_records, FileProcessor._add_metadata_columns.
    destruct (existsb (String.eqb "load_batch_no") (columns df)) eqn:E;
      [reflexivity|].
    cbn [columns rows]. unfold FileProcessor.to_dict_records.
    induction Hrect as [|r rs Hr _ IH]; [constructor|].
    cbn [map]. constructor; [|exact IH].
    rewrite combine_snoc by exact Hr. split.
    + rewrite dict_get_app, dict_get_combine_absent by exact E.
      reflexivity.
    + intros c Hc. rewrite dict_get_app.
      destruct (dict_get (combine (columns df) r) c); [reflexivity|].
      simpl. apply String.eqb_neq in Hc. now rewrite Hc.
  - intros pid'. unfold FileProcessor._add_metadata_columns.
    destruct (existsb (String.eqb "load_batch_no") (columns df)) eqn:E.
    + now rewrite E.
    + cbn [columns rows]. rewrite existsb_app. simpl.
      now rewrite orb_true_r.
Qed.

Lemma batch_number_on_every_record_example :
  Forall2
    (fun old new =>
       dict_get new "load_batch_no" = Some (VStr "p1") /\
       forall c, c <> "load_batch_no" -> dict_get new c = dict_get old c)
    (FileProcessor.to_dict_records (columns Demo.three_rows)
                                   (rows Demo.three_rows))
    (attempt_records Demo.three_rows "p1").
Proof.
  apply (batch_number_on_every_record Demo.three_rows "p1").
  repeat constructor.
Defined.

(** ** The loop over the files of a pattern *)

Lemma attempt_target_grows env path pattern_config s0 :
  persisted s0 = None ->
  exists added,
    target (world (snd (FileProcessor.process_file_body env path
                          pattern_config s0)))
    = target (world s0) ++ added.
Proof.
  destruct (read_frame env path (FileProcessor.file_type_of path)
              (FileProcessor.options_of pattern_config
                 (FileProcessor.file_type_of path))) as [df|e] eqn:Hread;
    intros Hnew.
  - destruct (attempt_stored env path pattern_config s0 df Hnew Hread)
      as [k [prepared [Ht _]]]. eauto.
  - exists []. rewrite app_nil_r.
    rewrite process_file_body_unfold by exact Hnew.
    cbv zeta. unfold read_file.
    rewrite Hread.
    destruct (file_exists _ path);
      match goal with
      | |- target (world (snd (fail _ _ ?e ?s))) = _ =>
          exact (proj1 (fail_keeps_target env path e s eq_refl eq_refl))
      end.
Qed.

Lemma process_file_target_grows env path pattern_config pid w :
  exists added,
    target (FileProcessor.process_file env path pattern_config pid w)
    = target w ++ added.
Proof.
  destruct (process_file_world env path pattern_config pid w)
    as [_ [Htg _]]. cbv zeta in Htg. rewrite Htg.
  unfold FileProcessor.process_file_session.
  apply (attempt_target_grows env path pattern_config
           (FileProcessor.open_session env path pattern_config pid w)).
  reflexivity.
Qed.

(** X20: the loop of [main] over the files of a pattern leaves one
    record per listed file, in the order of the listing, after the
    records that were there, each with the path and the process id of
    its attempt and none of them INITIATED: a file that fails does not
    stop the files after it.  The rows of the data tables that were
    there are left as they were, whatever is added after them. *)
Theorem one_record_per_listed_file :
  forall env pattern_config listing w,
    let w' := Main.process_files env pattern_config listing w in
    exists records added,
      control_table w' = control_table w ++ records /\
      map (fun r => (file_path r, process_id r)) records = listing /\
      Forall (fun r => target_table r = table pattern_config /\
                       (status r = "IN_PROGRESS" \/ status r = "SUCCESS" \/
                        status r = "ERROR")) records /\
      target w' = target w ++ added.
Proof.
  intros env pattern_config listing. cbv zeta.
  induction listing as [|[path pid] listing IH]; intros w;
    cbn [Main.process_files].
  - exists [], []. rewrite !app_nil_r. repeat split; constructor.
  - destruct (process_file_record env path pattern_config pid w)
      as [row [Hc [Hid [_ [Hpath [Htab [_ Hst]]]]]]].
    destruct (process_file_target_grows env path pattern_config pid w)
      as [added1 Ht1].
    destruct (IH (FileProcessor.process_file env path pattern_config pid w))
      as [records [added2 [Hc2 [Hl2 [Hall2 Ht2]]]]].
    exists (row :: records), (added1 ++ added2).
    split; [rewrite Hc2, Hc, <- app_assoc; reflexivity|].
    split; [cbn [map]; rewrite Hl2, Hpath, Hid; reflexivity|].
    split; [constructor; auto|].
    rewrite Ht2, Ht1, <- app_assoc. reflexivity.
Qed.

(** The four files of the installation, and the first one listed a
    second time: five records; the two files that fail leave their
    record IN_PROGRESS, and so does the second attempt on [in/big.csv],
    which finds the file gone. *)
Lemma one_record_per_listed_file_example :
  map (fun r => (file_name r, status r))
      (control_table
         (Main.process_files Demo.env Demo.orders_pattern
            [("in/big.csv", "p1"); ("in/empty.csv", "p2");
             ("in/bad.csv", "p3"); ("in/short.csv", "p4");
             ("in/big.csv", "p5")] Demo.world0))
  = [("big.csv", "IN_PROGRESS"); ("empty.csv", "SUCCESS");
     ("bad.csv", "IN_PROGRESS"); ("short.csv", "SUCCESS");
     ("big.csv", "IN_PROGRESS")].
Proof. vm_compute. reflexivity. Qed.

(** ** What a retry never does *)

Lemma retry_each_quiet env sff :
  forall ps expired ds w,
    target (snd (FileProcessor.retry_each env sff expired ps ds w))
    = target w /\
    length (fst (fst (FileProcessor.retry_each env sff expired ps ds w)))
    = length ps /\
    exists delta,
      trace (snd (FileProcessor.retry_each env sff expired ps ds w))
      = trace w ++ delta /\
      forallb ledger_or_move delta = true.
Proof.
  induction ps as [|p ps IH]; intros expired ds w;
    [simpl | rewrite retry_each_cons].
  - split; [reflexivity|]. split; [reflexivity|].
    exists []. now rewrite app_nil_r.
  - destruct (String.eqb (status p) "ERROR").
    + assert (Hrow : target (snd (FileProcessor.retry_row env sff expired p
                                    (hd 0 ds) w))
                     = target w /\
                     exists d1,
                       trace (snd (FileProcessor.retry_row env sff expired p
                                     (hd 0 ds) w))
                       = trace w ++ d1 /\
                       forallb ledger_or_move d1 = true).
      { rewrite retry_row_cases. unfold move_file.
        destruct (file_exists w _); simpl; (split; [reflexivity|]);
          eexists; (split; [try rewrite <- app_assoc; reflexivity|]);
          reflexivity. }
      destruct Hrow as [Ht1 [d1 [Htr1 Hq1]]].
      destruct (FileProcessor.retry_row env sff expired p (hd 0 ds) w)
        as [[p' d'] w1].
      destruct (IH (expired
                    || file_exists w (FileProcessor.retry_source env p))
                   (tl ds) w1) as [Ht2 [Hl2 [d2 [Htr2 Hq2]]]].
      destruct (FileProcessor.retry_each env sff _ ps (tl ds) w1)
        as [[rest' ds'] w2].
      simpl in *. split; [congruence|]. split; [now rewrite Hl2|].
      exists (d1 ++ d2). split.
      * now rewrite Htr2, Htr1, app_assoc.
      * now rewrite forallb_app, Hq1, Hq2.
    + destruct (IH expired (tl ds) w) as [Ht2 [Hl2 [d2 [Htr2 Hq2]]]].
      destruct (FileProcessor.retry_each env sff expired ps (tl ds) w)
        as [[rest' ds'] w2].
      simpl in *. split; [exact Ht2|]. split; [now rewrite Hl2|].
      eauto.
Qed.

(** X21: a retry requeues, it does not load.  [retry_failed_files], in
    either mode, leaves the data tables as they are and the control
    table with as many records as it had; the only things it does are
    moves of files and writes to the ledger: the gate is not run and no
    statement is sent. *)
Theorem retry_loads_nothing :
  forall env start_from_failure w,
    let w' := FileProcessor.retry_failed_files env start_from_failure w in
    target w' = target w /\
    length (control_table w') = length (control_table w) /\
    exists delta,
      trace w' = trace w ++ delta /\
      forallb ledger_or_move delta = true.
Proof.
  intros env sff w. cbv zeta.
  destruct (retry_each_quiet env sff (control_table w) false
              (modified_dates w) w)
    as [Ht [Hl [delta [Htr Hq]]]].
  unfold FileProcessor.retry_failed_files.
  destruct (FileProcessor.retry_each env sff false (control_table w)
              (modified_dates w) w)
    as [[table' dates'] w'].
  simpl in *. split; [exact Ht|]. split; [exact Hl|]. eauto.
Qed.

(** ** A failed attempt and the retry *)

Lemma retry_each_no_error env sff :
  forall ps expired ds w,
    Forall (fun p => status p <> "ERROR") ps ->
    fst (fst (FileProcessor.retry_each env sff expired ps ds w)) = ps /\
    snd (FileProcessor.retry_each env sff expired ps ds w) = w.
Proof.
  induction ps as [|p ps IH]; intros expired ds w Hall;
    [simpl; auto | rewrite retry_each_cons].
  inversion Hall as [|p0 l Hp Hps]; subst.
  apply String.eqb_neq in Hp. rewrite Hp.
  destruct (IH expired (tl ds) w Hps) as [H1 H2].
  destruct (FileProcessor.retry_each env sff expired ps (tl ds) w)
    as [[rest' ds'] w2].
  simpl in *. now subst.
Qed.

(** The row an attempt leaves is never ERROR, and carries no error
    message. *)
Lemma process_file_row_open env path pattern_config pid w :
  exists row,
    control_table (FileProcessor.process_file env path pattern_config pid w)
    = control_table w ++ [row] /\
    (status row = "IN_PROGRESS" \/ status row = "SUCCESS") /\
    error_message row = None.
Proof.
  destruct (process_file_shape env path pattern_config pid w)
    as [mid [r4 [post [row [_ [Hc [Hst [Hcl _]]]]]]]].
  apply staged_fields in Hst. cbn in Hst.
  destruct Hst as [_ [_ [_ [_ [Hstatus [Hmessage _]]]]]].
  exists row. split; [exact Hc|].
  destruct Hcl as [[_ ->]|[[e [_ ->]]|[[_ ->]|[_ ->]]]]; cbn; auto.
Qed.

(** X22: [process_file] never leaves the record of its attempt ERROR.
    The row it adds to the control table is SUCCESS, or it is
    IN_PROGRESS, and it has no error message: the ERROR state and the
    message that [_handle_error] assigns are never written, because its
    session does not hold the record.  Since [retry_failed_files]
    selects the ERROR records, a retry that follows an attempt on a
    table without ERROR records selects nothing: it moves no file and
    changes no record, whatever happened to the attempt. *)
Theorem failed_attempt_is_not_requeued :
  forall env path pattern_config pid start_from_failure w,
    let w1 := FileProcessor.process_file env path pattern_config pid w in
    let w2 := FileProcessor.retry_failed_files env start_from_failure w1 in
    (exists row,
        control_table w1 = control_table w ++ [row] /\
        (status row = "IN_PROGRESS" \/ status row = "SUCCESS") /\
        error_message row = None) /\
    (Forall (fun p => status p <> "ERROR") (control_table w) ->
     control_table w2 = control_table w1 /\ files w2 = files w1 /\
     target w2 = target w1 /\ trace w2 = trace w1).
Proof.
  intros env path pattern_config pid sff w w1 w2.
  pose proof (process_file_row_open env path pattern_config pid w) as Hrow.
  fold w1 in Hrow. split; [exact Hrow|].
  intros Hclean. destruct Hrow as [row [Hc [Hstatus _]]].
  assert (Hall : Forall (fun p => status p <> "ERROR") (control_table w1)).
  { rewrite Hc. apply Forall_app. split; [exact Hclean|].
    constructor; [|constructor].
    destruct Hstatus as [-> | ->]; discriminate. }
  destruct (retry_each_no_error env sff (control_table w1) false
              (modified_dates w1) w1 Hall) as [H1 H2].
  unfold w2, FileProcessor.retry_failed_files.
  destruct (FileProcessor.retry_each env sff false (control_table w1)
              (modified_dates w1) w1) as [[table' dates'] w'].
  simpl in *. subst. auto.
Qed.

(** The file [in/bad.csv] fails at the gate; the retry finds nothing to
    requeue. *)
Lemma failed_attempt_is_not_requeued_example :
  let w1 := FileProcessor.process_file Demo.env "in/bad.csv"
              Demo.orders_pattern "p1" Demo.world0 in
  let w2 := FileProcessor.retry_failed_files Demo.env false w1 in
  map status (control_table w1) = ["IN_PROGRESS"] /\
  file_exists w1 "error/20240131_bad.csv" = true /\
  control_table w2 = control_table w1 /\ files w2 = files w1 /\
  target w2 = target w1 /\ trace w2 = trace w1.
Proof.
  intros w1 w2. split; [reflexivity|]. split; [reflexivity|].
  apply (proj2 (failed_attempt_is_not_requeued Demo.env "in/bad.csv"
                  Demo.orders_pattern "p1" false Demo.world0)).
  constructor.
Defined.
